(** * Stutra: schema migration and referential-integrity engine

    A shallow embedding of the store-facing operations of
    [scripts/db_manager.py] (class [StutraDB]) and of
    [scripts/migrate_sections_enhanced.py] (class
    [EnhancedSectionMigrator]), with the properties the specification
    states about them.

    The remote store is a JSON tree addressed by slash-separated paths.
    Python values that travel to and from the store are JSON values; a
    Python [dict] is an association list in insertion order. *)

From Stdlib Require Import String Ascii List Bool Arith ZArith QArith Lia.
From Stdlib Require Import DecimalString DecimalNat Permutation.
Import ListNotations.
Local Close Scope Q_scope.
Local Open Scope string_scope.
Local Open Scope list_scope.

Set Implicit Arguments.

(* ===================================================================== *)
(** ** JSON values and Python dictionaries *)
(* ===================================================================== *)

(** A JSON number is an exact rational: every finite JSON number is one,
    and Python compares [int] and [float] exactly. *)
#[warnings="-register-all"]
Inductive json : Type :=
| JNull
| JBool (b : bool)
| JNum (q : Q)
| JStr (s : string)
| JArr (l : list json)
| JObj (d : list (string * json)).

Definition dict := list (string * json).

(** [d.get(k)], first binding wins (keys of a dict are unique). *)
Fixpoint dict_get (k : string) (d : dict) : option json :=
  match d with
  | [] => None
  | (k', v) :: d' => if String.eqb k k' then Some v else dict_get k d'
  end.

(** [d[k] = v]: replaces in place, or appends a new key at the end. *)
Fixpoint dict_set (k : string) (v : json) (d : dict) : dict :=
  match d with
  | [] => [(k, v)]
  | (k', v') :: d' =>
      if String.eqb k k' then (k, v) :: d' else (k', v') :: dict_set k v d'
  end.

(** [del d[k]]. *)
Fixpoint dict_del (k : string) (d : dict) : dict :=
  match d with
  | [] => []
  | (k', v') :: d' =>
      if String.eqb k k' then dict_del k d' else (k', v') :: dict_del k d'
  end.

(** [k in d] for a dict. *)
Definition dict_mem (k : string) (d : dict) : bool :=
  match dict_get k d with Some _ => true | None => false end.

(** [d.get(k, default)]. *)
Definition dict_get_default (k : string) (dflt : json) (d : dict) : json :=
  match dict_get k d with Some v => v | None => dflt end.

(** Python truthiness of a JSON value ([not v], [v or {}], [if v:]). *)
Definition truthy (v : json) : bool :=
  match v with
  | JNull => false
  | JBool b => b
  | JNum q => negb (Qeq_bool q 0%Q)
  | JStr s => negb (String.eqb s "")
  | JArr l => match l with [] => false | _ => true end
  | JObj d => match d with [] => false | _ => true end
  end.

(** [isinstance(v, list)] and [isinstance(v, dict)]. *)
Definition is_list (v : json) : bool :=
  match v with JArr _ => true | _ => false end.

Definition is_dict (v : json) : bool :=
  match v with JObj _ => true | _ => false end.

(** [s in t] for two strings: substring test. *)
Definition str_contains (s t : string) : bool :=
  match String.index 0 s t with Some _ => true | None => false end.

(** [x == JStr s] for a JSON value [x]: a [str] equals only the same [str]. *)
Definition is_str (s : string) (x : json) : bool :=
  match x with JStr s' => String.eqb s s' | _ => false end.

(** [s in v] where [s] is a [str] and [v] any JSON value: element test
    on a list, key test on a dict, substring test on a string, and
    [TypeError] (here [None]) on [None], booleans and numbers. *)
Definition py_in (s : string) (v : json) : option bool :=
  match v with
  | JArr l => Some (existsb (is_str s) l)
  | JObj d => Some (dict_mem s d)
  | JStr t => Some (str_contains s t)
  | _ => None
  end.

(** Hashable values (what a [set] accepts): everything but lists and dicts. *)
Definition hashable (v : json) : bool :=
  match v with JArr _ | JObj _ => false | _ => true end.

(** [x == y] on hashable JSON values; [True == 1] and [False == 0]. *)
Definition scalar_eq (x y : json) : bool :=
  match x, y with
  | JNull, JNull => true
  | JBool a, JBool b => Bool.eqb a b
  | JBool a, JNum q | JNum q, JBool a => Qeq_bool q (if a then 1%Q else 0%Q)
  | JNum p, JNum q => Qeq_bool p q
  | JStr s, JStr t => String.eqb s t
  | _, _ => false
  end.

(** A Python [set] of hashable values, kept in insertion order. *)
Definition pyset := list json.

Definition set_mem (x : json) (s : pyset) : bool := existsb (scalar_eq x) s.

Definition set_add (x : json) (s : pyset) : pyset :=
  if set_mem x s then s else s ++ [x].

(** [str(n)] for a non-negative index and for an [int]. *)
Definition str_of_nat (n : nat) : string :=
  NilZero.string_of_uint (Nat.to_uint n).

Definition str_of_int (z : Z) : string :=
  NilZero.string_of_int (Z.to_int z).

(* ===================================================================== *)
(** ** The store: a path-addressed JSON tree *)
(* ===================================================================== *)

(** The store is taken as the specification describes it: a tree of JSON
    values, read and replaced by path, that keeps what is written to it
    as it is. A path is the list of its segments ([students/<id>] is
    [["students"; id]]; an identifier spliced into a path is one
    segment); the empty path is the root. *)
Definition path := list string.

(** [enumerate(l)] with the index rendered as a key. *)
Fixpoint enumerate_from (i : nat) (l : list json) : list (string * json) :=
  match l with
  | [] => []
  | x :: l' => (str_of_nat i, x) :: enumerate_from (S i) l'
  end.

(** The children of a node. The store holds an array as a node whose
    keys are the indices; a leaf has no children. *)
Definition node_items (t : json) : dict :=
  match t with
  | JObj d => d
  | JArr l => enumerate_from 0 l
  | _ => []
  end.

(** An absent child reads as [null]. *)
Definition child (k : string) (t : json) : json :=
  dict_get_default k JNull (node_items t).

(** [read(path)]. *)
Fixpoint store_get (p : path) (t : json) : json :=
  match p with
  | [] => t
  | k :: p' => store_get p' (child k t)
  end.

(** [write(path, value)]: full replace of the sub-tree at [path],
    creating the nodes on the way. *)
Fixpoint store_put (p : path) (v : json) (t : json) : json :=
  match p with
  | [] => v
  | k :: p' => JObj (dict_set k (store_put p' v (child k t)) (node_items t))
  end.

(** [delete(path)]. *)
Fixpoint store_del (p : path) (t : json) : json :=
  match p with
  | [] => JNull
  | [k] => JObj (dict_del k (node_items t))
  | k :: p' =>
      if dict_mem k (node_items t)
      then JObj (dict_set k (store_del p' (child k t)) (node_items t))
      else t
  end.

(* ===================================================================== *)
(** ** The world the scripts run in, and the monad of their effects *)
(* ===================================================================== *)

Inductive method := GET | PUT | POST | DELETE.

Record request := mkRequest {
  r_method : method;
  r_path : path;
  r_body : json
}.

(** The store tree, the requests sent so far (oldest first), the number
    of clock readings taken, the files written next to the script, and
    the lines printed. Of the console output only the reports are kept
    (validation issues, import warnings, the conflict report), as plain
    text without the pictographs; progress lines are left out. *)
Record world := mkWorld {
  db : json;
  log : list request;
  ticks : nat;
  files : list (string * string);
  stdout : list string
}.

Inductive exn :=
| SystemExit (code : Z)
| TypeError
| AttributeError
| JSONDecodeError
| RequestException
| EOFError.

Inductive outcome (A : Type) : Type :=
| Ok (a : A) (w : world)
| Raise (e : exn) (w : world).

Arguments Raise {A} e w.

Definition M (A : Type) : Type := world -> outcome A.

Definition ret {A} (a : A) : M A := fun w => Ok a w.

Definition bind {A B} (m : M A) (f : A -> M B) : M B :=
  fun w => match m w with
           | Ok a w' => f a w'
           | Raise e w' => Raise e w'
           end.

Definition raise {A} (e : exn) : M A := fun w => Raise e w.

(** [try: m except Exception: h]. [SystemExit] is not an [Exception]. *)
Definition try_except {A} (m : M A) (h : exn -> M A) : M A :=
  fun w => match m w with
           | Ok a w' => Ok a w'
           | Raise (SystemExit c) w' => Raise (SystemExit c) w'
           | Raise e w' => h e w'
           end.

Declare Scope py_scope.
Delimit Scope py_scope with py.
Notation "x <- m ;; k" := (bind m (fun x => k))
  (at level 61, m at next level, right associativity) : py_scope.
Notation "m ;; k" := (bind m (fun _ => k))
  (at level 61, right associativity) : py_scope.
Local Open Scope py_scope.

(** The final world of a run, however it ended. *)
Definition final {A} (o : outcome A) : world :=
  match o with Ok _ w => w | Raise _ w => w end.

Definition print (line : string) : M unit :=
  fun w => Ok tt (mkWorld (db w) (log w) (ticks w) (files w) (stdout w ++ [line])).

(** [for x in xs: body x]. *)
Fixpoint for_each {A} (xs : list A) (body : A -> M unit) : M unit :=
  match xs with
  | [] => ret tt
  | x :: xs' => body x ;; for_each xs' body
  end.

(** The requests a run added to the log. *)
Definition sent {A} (w : world) (o : outcome A) : list request :=
  skipn (length (log w)) (log (final o)).

Definition is_write (r : request) : bool :=
  match r_method r with GET => false | _ => true end.

(** Two paths part ways: neither leads into the sub-tree of the other. *)
Fixpoint apartb (p q : path) : bool :=
  match p, q with
  | a :: p', b :: q' => if String.eqb a b then apartb p' q' else true
  | _, _ => false
  end.

(** A request that cannot change what is stored at [pk]: a read, or a
    write somewhere apart from [pk]. *)
Definition harmless (pk : path) (r : request) : bool :=
  negb (is_write r) || apartb (r_path r) pk.

(** The value a run returned, if it returned. *)
Definition value {A} (o : outcome A) : option A :=
  match o with Ok a _ => Some a | Raise _ _ => None end.

(* ===================================================================== *)
(** ** The store client ([StutraDB._make_request]) *)
(* ===================================================================== *)

(** What happens to one round trip: the store serves it, the store
    answers with an HTTP error status, or the request never arrives. *)
Inductive transport := Delivered | HttpError | Unreachable.

Definition with_db (t : json) (w : world) : world :=
  mkWorld t (log w) (ticks w) (files w) (stdout w).

Definition logged (r : request) (w : world) : world :=
  mkWorld (db w) (log w ++ [r]) (ticks w) (files w) (stdout w).

Definition file_get (name : string) (fs : list (string * string)) : option string :=
  option_map snd (find (fun f => String.eqb name (fst f)) fs).

Definition file_set (name content : string) (fs : list (string * string))
  : list (string * string) :=
  (name, content) :: filter (fun f => negb (String.eqb name (fst f))) fs.

Definition write_file (name content : string) : M unit :=
  fun w => Ok tt (mkWorld (db w) (log w) (ticks w)
                          (file_set name content (files w)) (stdout w)).

(** The key the store reports after a POST: [result.get('name')]. *)
Definition result_name (result : json) : string :=
  match result with
  | JObj d => match dict_get "name" d with Some (JStr k) => k | _ => "" end
  | _ => ""
  end.

(* ===================================================================== *)
(** ** A concrete environment, for the examples *)
(* ===================================================================== *)

(** Every round trip is served. *)
Definition net_ok : nat -> transport := fun _ => Delivered.

Definition push_id_ex (w : world) : string :=
  ("-N" ++ str_of_nat (length (log w)))%string.

Definition isoformat_ex (n : nat) : string :=
  ("2025-01-27T10:00:0" ++ str_of_nat n)%string.

Definition strftime_ex (n : nat) : string :=
  ("20250127_10000" ++ str_of_nat n)%string.

Definition set_iter_ex (s : pyset) : list json := s.

Definition filepath_ex (filename : string) : string :=
  ("scripts/" ++ filename)%string.

(** [str.lower], [str.strip] and [str.title] on ASCII text. *)
Definition is_upper (c : ascii) : bool :=
  let n := nat_of_ascii c in Nat.leb 65 n && Nat.leb n 90.

Definition is_lower (c : ascii) : bool :=
  let n := nat_of_ascii c in Nat.leb 97 n && Nat.leb n 122.

Definition lower_ascii (c : ascii) : ascii :=
  if is_upper c then ascii_of_nat (nat_of_ascii c + 32) else c.

Definition upper_ascii (c : ascii) : ascii :=
  if is_lower c then ascii_of_nat (nat_of_ascii c - 32) else c.

Fixpoint lower_ex (s : string) : string :=
  match s with
  | EmptyString => EmptyString
  | String c s' => String (lower_ascii c) (lower_ex s')
  end.

Fixpoint lstrip_ex (s : string) : string :=
  match s with
  | String c s' => if Ascii.eqb c " "%char then lstrip_ex s' else s
  | EmptyString => EmptyString
  end.

Fixpoint string_rev (s acc : string) : string :=
  match s with
  | EmptyString => acc
  | String c s' => string_rev s' (String c acc)
  end.

Definition strip_ex (s : string) : string :=
  string_rev (lstrip_ex (string_rev (lstrip_ex s) "")) "".

Fixpoint title_from (in_word : bool) (s : string) : string :=
  match s with
  | EmptyString => EmptyString
  | String c s' =>
      let letter := is_upper c || is_lower c in
      String (if in_word then lower_ascii c else upper_ascii c) (title_from letter s')
  end.

Definition title_ex (s : string) : string := title_from false s.

(** [int] on a decimal numeral with an optional sign. *)
Definition int_ex (s : string) : option Z :=
  option_map Z.of_int (NilZero.int_of_string s).

(** A store with a legacy record ([s1]), a migrated one ([s2]) and one
    with neither [section] nor [sections] ([s3]); section ["A"] already
    has a record under its slug ["a"]. *)
Definition ex_s1 : dict := [("name", JStr "Asha"); ("section", JStr "A")].
Definition ex_s2 : dict := [("name", JStr "Bo"); ("sections", JArr [JStr "B"])].
Definition ex_s3 : dict := [("name", JStr "Cy")].

Definition ex_db : json :=
  JObj [("students", JObj [("s1", JObj ex_s1); ("s2", JObj ex_s2); ("s3", JObj ex_s3)]);
        ("sections",
         JObj [("a", JObj [("name", JStr "A"); ("students", JArr []);
                           ("teachers", JArr [])]);
               ("default", JObj [("name", JStr "default");
                                 ("students", JArr [JStr "s9"]);
                                 ("teachers", JArr [])])])].

Definition ex_world : world := mkWorld ex_db [] 0 [] [].

(** The same students held by the store as a list: index 0 is empty,
    the legacy record has index 1. *)
Definition ex_db_list : json :=
  JObj [("students", JArr [JNull; JObj ex_s1; JObj ex_s2])].

Definition ex_world_list : world := mkWorld ex_db_list [] 0 [] [].

(** A codec for the examples: it knows [null] and the one tree of the
    examples. *)
Definition json_dump_ex (t : json) : string :=
  match t with
  | JNull => "null"
  | _ => "backup of the example tree"
  end.

Definition json_load_ex (s : string) : option json :=
  if String.eqb s "null" then Some JNull
  else if String.eqb s "backup of the example tree" then Some ex_db else None.



(** Two students already imported. *)
Definition ex_db_import : json :=
  JObj [("students",
         JObj [("k1", JObj [("name", JStr "Asha"); ("admission_number", JStr "101")]);
               ("k2", JObj [("name", JStr "Bo"); ("admission_number", JStr "102")])])].

Definition ex_world_import : world := mkWorld ex_db_import [] 0 [] [].

Section Engine.

Set Default Proof Using "Type".

(** The environment of a run. Nothing below depends on how these are
    chosen unless a hypothesis says so. *)

(** Fate of the n-th round trip (counted over the whole run). *)
Variable net : nat -> transport.
(** The child key the store generates for a POST. *)
Variable push_id : world -> string.
(** [datetime.now()] at the n-th reading, in the two formats used. *)
Variable isoformat : nat -> string.
Variable strftime : nat -> string.
(** Iteration order of a Python [set]. *)
Variable set_iter : pyset -> list json.
(** [json.dump] and [json.load]. *)
Variable json_dump : json -> string.
Variable json_load : string -> option json.
(** [os.path.join(os.path.dirname(__file__), filename)]. *)
Variable filepath : string -> string.
(** The [str] methods [lower], [strip] and [title], and [int] on a
    [str] ([None] is [ValueError]). *)
Variable str_lower : string -> string.
Variable str_strip : string -> string.
Variable str_title : string -> string.
Variable py_int : string -> option Z.
(** What the store makes of a PUT that carries no value, when it accepts
    it: [true] if it takes the missing value for [null], [false] if it
    leaves its tree alone. (A store that rejects such a request answers
    the round trip with an error status.) *)
Variable empty_put_clears : bool.

(** What the store does with a request it serves: the new tree and the
    body of the answer. *)
Definition serve (m : method) (p : path) (data : json) (w : world) : json * json :=
  match m with
  | GET => (db w, store_get p (db w))
  | PUT => (store_put p data (db w), data)
  | POST => let k := push_id w in
            (store_put (p ++ [k]) data (db w), JObj [("name", JStr k)])
  | DELETE => (store_del p (db w), JNull)
  end.

(** [_make_request]: any transport failure ends the process
    ([sys.exit(1)]). *)
Definition make_request (m : method) (p : path) (data : json) : M json :=
  fun w =>
    let w1 := logged (mkRequest m p data) w in
    match net (length (log w)) with
    | Delivered => let tb := serve m p data w in Ok (snd tb) (with_db (fst tb) w1)
    | _ => Raise (SystemExit 1) w1
    end.

Definition tick (w : world) : world :=
  mkWorld (db w) (log w) (S (ticks w)) (files w) (stdout w).

Definition now_isoformat : M string := fun w => Ok (isoformat (ticks w)) (tick w).
Definition now_strftime : M string := fun w => Ok (strftime (ticks w)) (tick w).

(** [v or {}]. *)
Definition or_empty (v : json) : json := if truthy v then v else JObj [].

(* --------------------------------------------------------------------- *)
(** *** Backup and restore *)

Definition backup_database (filename : option string) : M string :=
  data <- make_request GET [] JNull ;;
  filename <- match filename with
              | Some f => if String.eqb f "" then
                            ts <- now_strftime ;; ret ("backup_" ++ ts ++ ".json")%string
                          else ret f
              | None => ts <- now_strftime ;; ret ("backup_" ++ ts ++ ".json")%string
              end ;;
  write_file (filepath filename) (json_dump data) ;;
  ret (filepath filename).

(** [_make_request('PUT', path, None)]: [requests.put(url, json=None)]
    sends the request without a body. What becomes of the tree is the
    store's doing; the body [JNull] of the logged request stands for the
    missing value. *)
Definition put_without_value (p : path) : M json :=
  fun w =>
    let w1 := logged (mkRequest PUT p JNull) w in
    match net (length (log w)) with
    | Delivered =>
        Ok JNull (with_db (if empty_put_clears then store_put p JNull (db w)
                           else db w) w1)
    | _ => Raise (SystemExit 1) w1
    end.

(** [input(prompt)]: what the operator types, or [EOFError] when
    nothing can be read ([None]). *)
Definition input (typed : option string) : M string :=
  match typed with
  | Some line => ret line
  | None => raise EOFError
  end.

(** [answer] is what the operator types at the prompt; it is read only
    when [confirm] is false. A backup of an empty store decodes to
    [None], which [_make_request] passes on as [json=None]. *)
Definition restore_database (filename : string) (confirm : bool)
           (answer : option string) : M unit :=
  fun w =>
    match file_get (filepath filename) (files w) with
    | None => Raise (SystemExit 1) w
    | Some content =>
        (proceed <- (if confirm then ret true
                     else response <- input answer ;;
                          ret (String.eqb (str_lower response) "yes")) ;;
         if negb proceed then print "Restore cancelled"
         else
           fun w' =>
             match json_load content with
             | None => Raise JSONDecodeError w'
             | Some JNull => (put_without_value [] ;; ret tt) w'
             | Some data => (make_request PUT [] data ;; ret tt) w'
             end) w
    end.

(* --------------------------------------------------------------------- *)
(** *** Section index maintenance *)

(** [section.get(field, [])]: only a dict has [get]. *)
Definition py_get_list (section : json) (field : string) : M json :=
  match section with
  | JObj d => ret (dict_get_default field (JArr []) d)
  | _ => raise AttributeError
  end.

(** [entity_id not in members], then [members.append(entity_id)] and the
    write-back. *)
Definition add_to_section (field entity_id section_id : string) : M unit :=
  section <- make_request GET ["sections"; section_id] JNull ;;
  members <- py_get_list (or_empty section) field ;;
  match py_in entity_id members with
  | None => raise TypeError
  | Some true => ret tt
  | Some false =>
      match members with
      | JArr l =>
          make_request PUT ["sections"; section_id; field]
                       (JArr (l ++ [JStr entity_id])) ;;
          ret tt
      | _ => raise AttributeError
      end
  end.

Definition _add_student_to_section (student_id section_id : string) : M unit :=
  add_to_section "students" student_id section_id.

Definition _add_teacher_to_section (teacher_id section_id : string) : M unit :=
  add_to_section "teachers" teacher_id section_id.

Definition add_student (name admission_number : string) (sections : list string)
           (photo_url : string) : M string :=
  let sections := match sections with [] => ["default"] | _ => sections end in
  created <- now_isoformat ;;
  updated <- now_isoformat ;;
  let student_data := JObj [("name", JStr name);
                            ("admissionNumber", JStr admission_number);
                            ("sections", JArr (map JStr sections));
                            ("photoUrl", JStr photo_url);
                            ("createdAt", JStr created);
                            ("updatedAt", JStr updated)] in
  result <- make_request POST ["students"] student_data ;;
  let student_id := result_name result in
  for_each sections (fun section_id => _add_student_to_section student_id section_id) ;;
  ret student_id.

Definition add_teacher (email name : string) (assigned_sections : list string)
  : M string :=
  created <- now_isoformat ;;
  updated <- now_isoformat ;;
  let teacher_data := JObj [("email", JStr email);
                            ("name", JStr name);
                            ("assignedSections", JArr (map JStr assigned_sections));
                            ("createdAt", JStr created);
                            ("updatedAt", JStr updated)] in
  result <- make_request POST ["teachers"] teacher_data ;;
  let teacher_id := result_name result in
  for_each assigned_sections
           (fun section_id => _add_teacher_to_section teacher_id section_id) ;;
  ret teacher_id.

Definition create_section (name : json) : M string :=
  created <- now_isoformat ;;
  updated <- now_isoformat ;;
  let section_data := JObj [("name", name);
                            ("teachers", JArr []);
                            ("students", JArr []);
                            ("createdAt", JStr created);
                            ("updatedAt", JStr updated)] in
  result <- make_request POST ["sections"] section_data ;;
  ret (result_name result).

(* --------------------------------------------------------------------- *)
(** *** The schema migrator *)

Definition is_null (v : json) : bool :=
  match v with JNull => true | _ => false end.

(** The [(student_id, student_data)] pairs both the migrator and the
    validator iterate over: the items of a dict, or the non-[None]
    entries of a list with their indices. Anything else has neither
    [items] nor, for numbers and booleans, a length. *)
Definition items_of (students_data : json) : list (string * json) :=
  match students_data with
  | JArr l => filter (fun kv => negb (is_null (snd kv))) (enumerate_from 0 l)
  | JObj d => d
  | _ => []
  end.

Definition student_items (students_data : json) : M (list (string * json)) :=
  match students_data with
  | JArr _ | JObj _ => ret (items_of students_data)
  | _ => raise AttributeError
  end.

(** Already migrated: ['sections' in student_data and
    isinstance(student_data['sections'], list)]. *)
Definition migrated (d : dict) : bool :=
  match dict_get "sections" d with
  | Some v => is_list v
  | None => false
  end.

(** [student_data.get('section', 'default')]. *)
Definition old_section_of (d : dict) : json :=
  dict_get_default "section" (JStr "default") d.

(** The record the migrator writes back for a record not yet migrated. *)
Definition migrated_record (stamp : string) (d : dict) : dict :=
  let d1 := dict_set "sections" (JArr [old_section_of d]) d in
  let d2 := dict_set "updatedAt" (JStr stamp) d1 in
  if dict_mem "section" d2 then dict_del "section" d2 else d2.

(** One iteration of the loop over the students; [acc] is
    [(sections_to_create, migrated_count)]. *)
Definition migrate_student (student_id : string) (student_data : json)
           (acc : pyset * nat) : M (pyset * nat) :=
  match student_data with
  | JObj d =>
      if migrated d then ret acc
      else
        let old_section := old_section_of d in
        stamp <- now_isoformat ;;
        make_request PUT ["students"; student_id] (JObj (migrated_record stamp d)) ;;
        if hashable old_section
        then ret (set_add old_section (fst acc), S (snd acc))
        else raise TypeError
  | JArr l =>
      if existsb (is_str "sections") l then raise TypeError else raise AttributeError
  | JStr s =>
      if str_contains "sections" s then raise TypeError else raise AttributeError
  | _ => raise TypeError
  end.

Fixpoint migrate_students (items : list (string * json)) (acc : pyset * nat)
  : M (pyset * nat) :=
  match items with
  | [] => ret acc
  | (student_id, student_data) :: rest =>
      acc' <- migrate_student student_id student_data acc ;;
      migrate_students rest acc'
  end.

(** [if section_name and section_name != 'default']. *)
Definition creatable (section_name : json) : bool :=
  truthy section_name && negb (is_str "default" section_name).

Definition create_sections (names : list json) : M unit :=
  for_each names (fun section_name =>
    if creatable section_name
    then create_section section_name ;; ret tt
    else ret tt).

(** [len(students_data)] in the progress line: numbers and booleans
    have no length. *)
Definition py_len_check (v : json) : M unit :=
  match v with
  | JNum _ | JBool _ | JNull => raise TypeError
  | _ => ret tt
  end.

Definition migrate_to_multisection : M bool :=
  ts <- now_strftime ;;
  backup_file <- backup_database
                   (Some ("pre_migration_backup_" ++ ts ++ ".json")%string) ;;
  students0 <- make_request GET ["students"] JNull ;;
  let students_data := or_empty students0 in
  py_len_check students_data ;;
  items <- student_items students_data ;;
  acc <- migrate_students items ([], 0) ;;
  create_sections (set_iter (fst acc)) ;;
  ret true.

(* --------------------------------------------------------------------- *)
(** *** The integrity validator *)

(** The checks compute on the records alone; [None] is the [TypeError]
    of [in] or of indexing applied to a value that does not support it. *)
Definition check_student (student_id : string) (student_data : json)
  : option (list string) :=
  match student_data with
  | JObj d =>
      match dict_get "sections" d with
      | None => Some [("Student " ++ student_id ++ " missing 'sections' field")%string]
      | Some v =>
          if negb (is_list v)
          then Some [("Student " ++ student_id ++ " 'sections' is not an array")%string]
          else if negb (truthy v)
          then Some [("Student " ++ student_id ++ " has empty sections array")%string]
          else Some []
      end
  | _ =>
      match py_in "sections" student_data with
      | Some false =>
          Some [("Student " ++ student_id ++ " missing 'sections' field")%string]
      | _ => None
      end
  end.

(** One [if field not in section_data: issues.append(...)]. *)
Definition check_field (section_id field : string) (section_data : json)
  : option (list string) :=
  match py_in field section_data with
  | None => None
  | Some true => Some []
  | Some false =>
      Some [("Section " ++ section_id ++ " missing '" ++ field ++ "' field")%string]
  end.

Definition check_section (section_id : string) (section_data : json)
  : option (list string) :=
  match check_field section_id "name" section_data with
  | None => None
  | Some i1 =>
      match check_field section_id "students" section_data with
      | None => None
      | Some i2 =>
          match check_field section_id "teachers" section_data with
          | None => None
          | Some i3 => Some (i1 ++ i2 ++ i3)
          end
      end
  end.

(** Run a check over the items of a collection, appending the issues. *)
Fixpoint check_all (check : string -> json -> option (list string))
         (items : list (string * json)) : option (list string) :=
  match items with
  | [] => Some []
  | (k, v) :: rest =>
      match check k v with
      | None => None
      | Some i =>
          match check_all check rest with
          | None => None
          | Some more => Some (i ++ more)
          end
      end
  end.

(** [if isinstance(sections_data, dict): ...]. *)
Definition check_sections (sections_data : json) : option (list string) :=
  match sections_data with
  | JObj d => check_all check_section d
  | _ => Some []
  end.

Definition or_type_error {A} (o : option A) : M A :=
  match o with Some a => ret a | None => raise TypeError end.

(** The issues list the validator builds. *)
Definition collect_issues : M (list string) :=
  students0 <- make_request GET ["students"] JNull ;;
  sections0 <- make_request GET ["sections"] JNull ;;
  let students_data := or_empty students0 in
  let sections_data := or_empty sections0 in
  items <- student_items students_data ;;
  i1 <- or_type_error (check_all check_student items) ;;
  i2 <- or_type_error (check_sections sections_data) ;;
  ret (i1 ++ i2).

(** [return len(issues) == 0], after printing the issues. *)
Definition validate_data_integrity : M bool :=
  issues <- collect_issues ;;
  for_each issues (fun issue => print ("   - " ++ issue)%string) ;;
  ret (match issues with [] => true | _ => false end).

(* --------------------------------------------------------------------- *)
(** *** Bulk import ([EnhancedSectionMigrator]) *)

(** A row of [csv.DictReader]: a cell is [None] when the line is shorter
    than the header. *)
Definition csv_row := list (string * option string).

Fixpoint row_get (col : string) (row : csv_row) : option (option string) :=
  match row with
  | [] => None
  | (c, v) :: row' => if String.eqb col c then Some v else row_get col row'
  end.

(** The student dict [read_csv_file] builds; the other keys hold
    constants (see [student_json]). *)
Record candidate := mkCandidate {
  c_id : Z;
  c_name : string;
  c_admission_number : string;
  c_sections : list string
}.

(** A batch of five rows, two of which carry the admission numbers of
    the students of [ex_db_import]. *)
Definition ex_batch : list candidate :=
  [mkCandidate 101 "Asha" "101" [];
   mkCandidate 102 "Bo" "102" [];
   mkCandidate 103 "Cy" "103" [];
   mkCandidate 104 "Di" "104" [];
   mkCandidate 105 "Ed" "105" []].

(** Three rows of a sheet; the second has a non-numeric admission number. *)
Definition ex_row (serial admission name : string) : csv_row :=
  [("S.NO", Some serial); ("A.NO.", Some admission); ("Name", Some name)].

Definition ex_rows_before : list csv_row := [ex_row "1" "101" "asha rao"].
Definition ex_row_bad : csv_row := ex_row "2" "12a" "bo sen".
Definition ex_rows_after : list csv_row := [ex_row "3" "103" "cy das"].

Definition student_json (c : candidate) : json :=
  JObj [("id", JNum (inject_Z (c_id c)));
        ("name", JStr (c_name c));
        ("admission_number", JStr (c_admission_number c));
        ("photo_url", JStr "");
        ("sections", JArr (map JStr (c_sections c)));
        ("status", JStr "absent");
        ("activity", JStr "");
        ("timer_end", JNull);
        ("notes", JArr []);
        ("lastResetDate", JStr "")].

Inductive row_result :=
| RowStudent (c : candidate)
| RowMissing
| RowInvalid (admission_no : string)
| RowError.

(** [row.get(col, '').strip()]; [None] has no [strip]. *)
Definition cell (col : string) (row : csv_row) : option string :=
  match row_get col row with
  | None => Some (str_strip "")
  | Some (Some v) => Some (str_strip v)
  | Some None => None
  end.

Definition nonempty (s : string) : bool := negb (String.eqb s "").

(** The body of the loop over the rows, up to its warning. *)
Definition parse_row (row : csv_row) : row_result :=
  match cell "S.NO" row with
  | None => RowError
  | Some serial_no =>
      match cell "A.NO." row with
      | None => RowError
      | Some admission_no =>
          match cell "Name" row with
          | None => RowError
          | Some name =>
              if negb (nonempty serial_no && nonempty admission_no && nonempty name)
              then RowMissing
              else match py_int admission_no with
                   | None => RowInvalid admission_no
                   | Some admission_id =>
                       RowStudent (mkCandidate admission_id (str_title name)
                                               admission_no [])
                   end
          end
      end
  end.

Fixpoint read_rows (row_num : nat) (rows : list csv_row) (students : list candidate)
  : M (list candidate) :=
  match rows with
  | [] => ret students
  | row :: rows' =>
      match parse_row row with
      | RowStudent c => read_rows (S row_num) rows' (students ++ [c])
      | RowMissing =>
          print ("Skipping row " ++ str_of_nat row_num ++ " - missing data")%string ;;
          read_rows (S row_num) rows' students
      | RowInvalid a =>
          print ("Skipping row " ++ str_of_nat row_num
                 ++ " - invalid admission number: " ++ a)%string ;;
          read_rows (S row_num) rows' students
      | RowError =>
          print ("Error processing row " ++ str_of_nat row_num)%string ;;
          read_rows (S row_num) rows' students
      end
  end.

(** [contents] is what the reader yields for the file, [None] when the
    file cannot be read. *)
Definition read_csv_file (contents : option (list csv_row)) : M (list candidate) :=
  match contents with
  | None => print "Error reading CSV file" ;; ret []
  | Some rows => read_rows 1 rows []
  end.

(** [requests.get] and [requests.put] called directly. *)
Record response := mkResponse {
  status_code : Z;
  response_json : json
}.

Definition requests_send (m : method) (p : path) (data : json) : M response :=
  fun w =>
    let w1 := logged (mkRequest m p data) w in
    match net (length (log w)) with
    | Delivered => let tb := serve m p data w in
                   Ok (mkResponse 200 (snd tb)) (with_db (fst tb) w1)
    | HttpError => Ok (mkResponse 500 JNull) w1
    | Unreachable => Raise RequestException w1
    end.

(** The admission numbers already in the store. *)
Fixpoint existing_admissions (values : list json) (acc : pyset) : M pyset :=
  match values with
  | [] => ret acc
  | JObj d :: rest =>
      match dict_get "admission_number" d with
      | Some a => if hashable a then existing_admissions rest (set_add a acc)
                  else raise TypeError
      | None => existing_admissions rest acc
      end
  | _ :: rest => existing_admissions rest acc
  end.

(** [student_id in existing_ids or admission_no in existing_admission_numbers]. *)
Definition collides (existing_ids : list string) (existing_adm : pyset)
           (c : candidate) : bool :=
  existsb (String.eqb (str_of_int (c_id c))) existing_ids
  || set_mem (JStr (c_admission_number c)) existing_adm.

Definition conflict_line (c : candidate) : string :=
  ("   - " ++ c_name c ++ " (ID: " ++ str_of_int (c_id c) ++ ", Admission: "
   ++ c_admission_number c ++ ")")%string.

(** [choice] is what the operator types at the prompt, [None] when
    nothing can be read: the [EOFError] of [input] is caught like any
    other exception. *)
Definition check_existing_students (students : list candidate)
           (choice : option string) : M (list candidate) :=
  try_except
    (response <- requests_send GET ["students"] JNull ;;
     if negb (Z.eqb (status_code response) 200) then
       print "Could not check existing students, proceeding with upload" ;;
       ret students
     else
       let existing_data := response_json response in
       if negb (truthy existing_data) then ret students
       else match existing_data with
            | JObj d =>
                let existing_ids := map fst d in
                existing_adm <- existing_admissions (map snd d) [] ;;
                let new_students :=
                  filter (fun c => negb (collides existing_ids existing_adm c)) students in
                let conflicts := filter (collides existing_ids existing_adm) students in
                match conflicts with
                | [] => ret new_students
                | _ =>
                    print ("Found " ++ str_of_nat (length conflicts)
                           ++ " potential conflicts:")%string ;;
                    for_each (firstn 5 conflicts) (fun c => print (conflict_line c)) ;;
                    (if Nat.ltb 5 (length conflicts)
                     then print ("   ... and " ++ str_of_nat (length conflicts - 5)
                                 ++ " more")%string
                     else ret tt) ;;
                    typed <- input choice ;;
                    if negb (String.eqb (str_lower typed) "y")
                    then print "Migration cancelled" ;; ret []
                    else ret new_students
                end
            | _ => raise AttributeError
            end)
    (fun _ => print "Error checking existing students" ;; ret students).

(** [section_name.replace(' ', '_')]. *)
Fixpoint replace_spaces (s : string) : string :=
  match s with
  | EmptyString => EmptyString
  | String c s' =>
      String (if Ascii.eqb c " "%char then "_"%char else c) (replace_spaces s')
  end.

(** [students_to_upload[i:i + batch_size]] for [i] in
    [range(0, len(students_to_upload), batch_size)]. *)
Fixpoint batches {A} (fuel batch_size : nat) (l : list A) : list (list A) :=
  match fuel with
  | 0 => []
  | S fuel' =>
      match l with
      | [] => []
      | _ => firstn batch_size l :: batches fuel' batch_size (skipn batch_size l)
      end
  end.

Definition upload_student (section_name : string) (c : candidate) (successful : nat)
  : M nat :=
  let student := mkCandidate (c_id c) (c_name c) (c_admission_number c) [section_name] in
  response <- requests_send PUT ["students"; str_of_int (c_id c)] (student_json student) ;;
  if Z.eqb (status_code response) 200 then ret (S successful)
  else print ("Failed to upload " ++ c_name c)%string ;; ret successful.

Fixpoint upload_batch (section_name : string) (batch : list candidate) (successful : nat)
  : M nat :=
  match batch with
  | [] => ret successful
  | c :: batch' =>
      n <- upload_student section_name c successful ;;
      upload_batch section_name batch' n
  end.

Fixpoint upload_batches (section_name : string) (bs : list (list candidate))
         (i successful : nat) : M nat :=
  match bs with
  | [] => ret successful
  | b :: bs' =>
      n <- upload_batch section_name b successful ;;
      print ("Uploaded batch " ++ str_of_nat (S i))%string ;;
      upload_batches section_name bs' (S i) n
  end.

Definition upload_section_to_firebase (section_name : string)
           (students : list candidate) (choice : option string) : M bool :=
  try_except
    (students_to_upload <- check_existing_students students choice ;;
     match students_to_upload with
     | [] => print ("No new students to upload for " ++ section_name)%string ;; ret true
     | _ =>
         let section_key := str_lower (replace_spaces section_name) in
         let section_data :=
           JObj [("name", JStr section_name);
                 ("grade", JStr "XI");
                 ("student_count",
                  JNum (inject_Z (Z.of_nat (length students_to_upload))));
                 ("created_at", JStr "2025-01-27");
                 ("updated_at", JStr "2025-01-27")] in
         response <- requests_send PUT ["sections"; section_key] section_data ;;
         if negb (Z.eqb (status_code response) 200) then
           print "Failed to create section metadata" ;; ret false
         else
           successful <- upload_batches section_name
                           (batches (length students_to_upload) 10 students_to_upload)
                           0 0 ;;
           print ("Section '" ++ section_name ++ "': " ++ str_of_nat successful ++ "/"
                  ++ str_of_nat (length students_to_upload)
                  ++ " students uploaded")%string ;;
           ret (Nat.ltb 0 successful)
     end)
    (fun _ => print ("Error uploading section '" ++ section_name ++ "'")%string ;;
              ret false).

(* ===================================================================== *)
(** ** Notions used to state the properties *)
(* ===================================================================== *)

(** [m] relates every world to the world it leaves behind, whether it
    returns or raises. *)
Definition preserves {A} (R : world -> world -> Prop) (m : M A) : Prop :=
  forall w, R w (final (m w)).

(** [m] returns from [w], with a value and a world satisfying [Q]. *)
Definition returns {A} (m : M A) (w : world) (Q : A -> world -> Prop) : Prop :=
  exists a w', m w = Ok a w' /\ Q a w'.

(** From [w] to [w'] only requests harmless for [pk] were sent, and the
    value stored at [pk] is the same. *)
Definition frame (pk : path) (w w' : world) : Prop :=
  (exists news, log w' = log w ++ news /\ Forall (fun r => harmless pk r = true) news)
  /\ store_get pk (db w') = store_get pk (db w).

(** Every round trip is served. *)
Definition online : Prop := forall n, net n = Delivered.

(** A student record the migration loop gets through: a dict that is
    migrated already or whose section value can go into a set. *)
Definition record_ok (v : json) : bool :=
  match v with
  | JObj d => migrated d || hashable (old_section_of d)
  | _ => false
  end.

(** The keys of the records the migration loop rewrites. *)
Definition unmigrated (kv : string * json) : bool :=
  match snd kv with
  | JObj d => negb (migrated d)
  | _ => false
  end.

(** What [GET students] yields, after [or {}]. *)
Definition students_of (w : world) : json := or_empty (store_get ["students"] (db w)).
Definition sections_of (w : world) : json := or_empty (store_get ["sections"] (db w)).

Definition is_collection (v : json) : bool := is_dict v || is_list v.

(** The section values the migration loop collects from the records it
    rewrites, in the order of their first appearance. *)
Definition collect_sections (items : list (string * json)) (s : pyset) : pyset :=
  fold_left (fun s kv =>
               match snd kv with
               | JObj d => if migrated d then s else set_add (old_section_of d) s
               | _ => s
               end) items s.

(** Records the validator can scan without a [TypeError]: a student
    record is a dict, or a list or string that does not contain
    ['sections']; a section record is a dict, a list or a string. *)
Definition student_scannable (v : json) : bool :=
  match v with
  | JObj _ => true
  | _ => match py_in "sections" v with Some false => true | _ => false end
  end.

Definition section_scannable (v : json) : bool :=
  match v with JArr _ | JObj _ | JStr _ => true | _ => false end.

Definition sections_scannable (sections_data : json) : bool :=
  match sections_data with
  | JObj d => forallb (fun kv => section_scannable (snd kv)) d
  | _ => true
  end.

(** The shapes the specification lists for the validator (section 4.6):
    a student record passes when its [sections] is a non-empty list. *)
Definition spec_sound_student (v : json) : bool :=
  match v with
  | JObj d => match dict_get "sections" d with
              | Some (JArr (_ :: _)) => true
              | _ => false
              end
  | _ => false
  end.



(** The issue the validator files for a student record without a
    list-valued [sections]. *)
Definition shape_issue (student_id : string) (d : dict) : string :=
  match dict_get "sections" d with
  | None => ("Student " ++ student_id ++ " missing 'sections' field")%string
  | Some _ => ("Student " ++ student_id ++ " 'sections' is not an array")%string
  end.

(** The [name] a request carries in its body. *)
Definition posted_name (r : request) : option json :=
  match r_body r with
  | JObj d => dict_get "name" d
  | _ => None
  end.

(** The membership list [add_to_section] reads from the tree:
    [(GET sections/<id> or {}).get(field, [])]; [None] when the section
    node has no [get]. *)
Definition members (field section_id : string) (t : json) : option json :=
  match or_empty (store_get ["sections"; section_id] t) with
  | JObj d => Some (dict_get_default field (JArr []) d)
  | _ => None
  end.

(** From [w] to [w'] only requests satisfying [P] were sent. *)
Definition sends (P : request -> Prop) (w w' : world) : Prop :=
  exists news, log w' = log w ++ news /\ Forall P news.

(** What [add_student] may send: a write under [students] is the POST of
    a record whose [sections] is a non-empty list of names. *)
Definition student_post_ok (rq : request) : Prop :=
  is_write rq = true -> hd_error (r_path rq) = Some "students" ->
  r_method rq = POST /\ r_path rq = ["students"]
  /\ exists ss, ss <> []
               /\ match r_body rq with
                  | JObj d => dict_get "sections" d = Some (JArr (map JStr ss))
                  | _ => False
                  end.

(** The students [read_csv_file] keeps from a list of rows. *)
Definition row_students (rows : list csv_row) : list candidate :=
  flat_map (fun row => match parse_row row with
                       | RowStudent c => [c]
                       | _ => []
                       end) rows.

(** The admission numbers of the existing records, as a set. *)
Fixpoint admission_set (values : list json) (acc : pyset) : pyset :=
  match values with
  | [] => acc
  | JObj d :: rest =>
      match dict_get "admission_number" d with
      | Some a => admission_set rest (set_add a acc)
      | None => admission_set rest acc
      end
  | _ :: rest => admission_set rest acc
  end.

(** An existing record whose admission number, if any, can go into a set. *)
Definition admission_hashable (v : json) : bool :=
  match v with
  | JObj d => match dict_get "admission_number" d with
              | Some a => hashable a
              | None => true
              end
  | _ => true
  end.

(** The PUT that uploads a candidate to a section. *)
Definition put_candidate (section_name : string) (c : candidate) : request :=
  mkRequest PUT ["students"; str_of_int (c_id c)]
            (student_json (mkCandidate (c_id c) (c_name c) (c_admission_number c)
                                       [section_name])).

(** The PUT of the section metadata. *)
Definition put_section_meta (section_name : string) (count : nat) : request :=
  mkRequest PUT ["sections"; str_lower (replace_spaces section_name)]
            (JObj [("name", JStr section_name);
                   ("grade", JStr "XI");
                   ("student_count", JNum (inject_Z (Z.of_nat count)));
                   ("created_at", JStr "2025-01-27");
                   ("updated_at", JStr "2025-01-27")]).

(** The first line of the conflict report. *)
Definition conflicts_header (conflicts : list candidate) : string :=
  ("Found " ++ str_of_nat (length conflicts) ++ " potential conflicts:")%string.

(** The PUT that rewrites a student record. *)
Definition put_student (student_id : string) (stamp : string) (d : dict) : request :=
  mkRequest PUT ["students"; student_id] (JObj (migrated_record stamp d)).

(** The PUTs of the migration loop over [items], the clock having been
    read [t] times before. *)
Fixpoint student_puts (t : nat) (items : list (string * json)) : list request :=
  match items with
  | [] => []
  | (k, JObj d) :: rest =>
      if migrated d then student_puts t rest
      else put_student k (isoformat t) d :: student_puts (S t) rest
  | _ :: rest => student_puts t rest
  end.

(** The tree after a list of served PUTs. *)
Definition apply_puts (puts : list request) (t : json) : json :=
  fold_left (fun t r => store_put (r_path r) (r_body r) t) puts t.

(** The POSTs of the section-creation loop over [names]. *)
Definition post_section (name : json) (t : nat) : request :=
  mkRequest POST ["sections"]
            (JObj [("name", name);
                   ("teachers", JArr []);
                   ("students", JArr []);
                   ("createdAt", JStr (isoformat t));
                   ("updatedAt", JStr (isoformat (S t)))]).

Fixpoint section_posts (t : nat) (names : list json) : list request :=
  match names with
  | [] => []
  | n :: rest =>
      if creatable n then post_section n t :: section_posts (S (S t)) rest
      else section_posts t rest
  end.

(* --------------------------------------------------------------------- *)
(** *** Removal ([remove_student], [remove_teacher]) *)

(** Look the record up, delete it when there is one, and name it in the
    closing line ([entity.get('name', entity_id)]: only a dict has
    [get]). *)
Definition remove_entity (collection entity_id : string) : M unit :=
  entity <- make_request GET [collection; entity_id] JNull ;;
  if negb (truthy entity) then ret tt
  else
    make_request DELETE [collection; entity_id] JNull ;;
    match entity with
    | JObj _ => ret tt
    | _ => raise AttributeError
    end.

Definition remove_student (student_id : string) : M unit :=
  remove_entity "students" student_id.

Definition remove_teacher (teacher_id : string) : M unit :=
  remove_entity "teachers" teacher_id.

(* --------------------------------------------------------------------- *)
(** *** Further notions *)

(** The sections [add_student] registers a student in. *)
Definition sections_or_default (sections : list string) : list string :=
  match sections with [] => ["default"] | _ => sections end.

(** From [w] to [w'] the tree and the files are the same and only reads
    were sent. *)
Definition read_only (w w' : world) : Prop :=
  db w' = db w /\ files w' = files w
  /\ sends (fun r => r_method r = GET) w w'.

(** The example store with a backup of it on disk. *)
Definition ex_world_backup : world :=
  mkWorld ex_db [] 0 [(filepath_ex "b.json", "backup of the example tree")] [].

(** The steps of [migrate_to_multisection] after the backup. *)
Definition migrate_after_backup : M bool :=
  students0 <- make_request GET ["students"] JNull ;;
  let students_data := or_empty students0 in
  py_len_check students_data ;;
  items <- student_items students_data ;;
  acc <- migrate_students items ([], 0) ;;
  create_sections (set_iter (fst acc)) ;;
  ret true.

(** The name of the backup file the migrator writes first. *)
Definition pre_migration_backup (w : world) : string :=
  ("pre_migration_backup_" ++ strftime (ticks w) ++ ".json")%string.

(** The students collection after the migration loop, the clock having
    been read [t] times before: same keys, same order, every record not
    yet migrated replaced by its migrated form. *)
Fixpoint migrate_items (t : nat) (items : list (string * json))
  : list (string * json) :=
  match items with
  | [] => []
  | (k, JObj d) :: rest =>
      if migrated d then (k, JObj d) :: migrate_items t rest
      else (k, JObj (migrated_record (isoformat t) d)) :: migrate_items (S t) rest
  | kv :: rest => kv :: migrate_items t rest
  end.

(** A run ended by [sys.exit(1)]. *)
Definition exited {A} (o : outcome A) : Prop :=
  exists w', o = Raise (SystemExit 1) w'.

(** A run stops at the first round trip that is not served: such a
    round trip is the last one of the run, and the run ends with
    [sys.exit(1)]. *)
Definition stops_at_failure (A : Type) (w : world) (o : outcome A) : Prop :=
  exists news,
    log (final o) = log w ++ news
    /\ forall i, i < length news -> net (length (log w) + i) <> Delivered ->
                 S i = length news /\ exited o.

(** A network that answers the [n]-th round trip with an HTTP error and
    serves the others. *)
Definition net_fail_at (n : nat) : nat -> transport :=
  fun i => if Nat.eqb i n then HttpError else Delivered.

(** A run ends well: it returns with [Q], or raises with [E]. *)
Definition outcome_sat {A} (o : outcome A) (Q : A -> world -> Prop)
           (E : exn -> world -> Prop) : Prop :=
  match o with
  | Ok a w => Q a w
  | Raise e w => E e w
  end.

(** Existing data the conflict check can work through: a dict whose
    records carry admission numbers that can go into a set. *)
Definition conflicts_checkable (existing_data : json) : bool :=
  match existing_data with
  | JObj d => forallb admission_hashable (map snd d)
  | _ => false
  end.

(** How many of the [n] round trips from the [from]-th on are served. *)
Fixpoint served (from n : nat) : nat :=
  match n with
  | 0 => 0
  | S n' => (match net from with Delivered => 1 | _ => 0 end) + served (S from) n'
  end.

(* --------------------------------------------------------------------- *)
(** *** CSV import of [StutraDB] ([import_students_csv]) *)

(** [for ch in s] on a [str]: its characters, each a [str]. *)
Variable str_chars : string -> list string.

(** [add_student] as [import_students_csv] calls it: with the section
    cell, a [str], where the signature says a list. A non-empty [str]
    is truthy, so it goes into the record as it is, and the loop over
    it runs over its characters. *)
Definition add_student_str (name admission_number sections photo_url : string)
  : M string :=
  if String.eqb sections "" then add_student name admission_number [] photo_url
  else
    created <- now_isoformat ;;
    updated <- now_isoformat ;;
    let student_data := JObj [("name", JStr name);
                              ("admissionNumber", JStr admission_number);
                              ("sections", JStr sections);
                              ("photoUrl", JStr photo_url);
                              ("createdAt", JStr created);
                              ("updatedAt", JStr updated)] in
    result <- make_request POST ["students"] student_data ;;
    let student_id := result_name result in
    for_each (str_chars sections)
             (fun section_id => _add_student_to_section student_id section_id) ;;
    ret student_id.

(** The body of the loop over the rows; [count] is the number of
    students imported so far. *)
Definition import_row (row : csv_row) (count : nat) : M nat :=
  match cell "name" row, cell "admission_number" row,
        cell "section" row, cell "photo_url" row with
  | Some name, Some admission, Some section, Some photo_url =>
      if negb (nonempty name) || negb (nonempty admission) || negb (nonempty section)
      then print "Skipping incomplete row" ;; ret count
      else
        try_except
          (add_student_str name admission section photo_url ;; ret (S count))
          (fun _ => print ("Failed to add student " ++ name)%string ;; ret count)
  | _, _, _, _ => raise AttributeError
  end.

Fixpoint import_rows (rows : list csv_row) (count : nat) : M nat :=
  match rows with
  | [] => ret count
  | row :: rows' => n <- import_row row count ;; import_rows rows' n
  end.

(** [contents] is what the reader yields for the file, [None] when
    there is no such file. *)
Definition import_students_csv (contents : option (list csv_row)) : M unit :=
  match contents with
  | None => raise (SystemExit 1)
  | Some rows =>
      count <- import_rows rows 0 ;;
      print ("Successfully imported " ++ str_of_nat count ++ " students")%string
  end.

(** What [import_students_csv] may send: a write under [students] is
    the POST of a record whose [sections] is a non-empty string. *)
Definition import_post_ok (rq : request) : Prop :=
  is_write rq = true -> hd_error (r_path rq) = Some "students" ->
  r_method rq = POST /\ r_path rq = ["students"]
  /\ exists s, s <> ""
               /\ match r_body rq with
                  | JObj d => dict_get "sections" d = Some (JStr s)
                  | _ => False
                  end.

(** The characters of an ASCII string. *)
Fixpoint chars_ex (s : string) : list string :=
  match s with
  | EmptyString => []
  | String c s' => String c EmptyString :: chars_ex s'
  end.

(** A row of the sheet [import_students_csv] reads. *)
Definition ex_import_row : csv_row :=
  [("name", Some "Di"); ("admission_number", Some "104");
   ("section", Some "A1"); ("photo_url", Some "")].

(** A candidate collides with the existing records [d]: its id is one
    of their keys, or its admission number is the [admission_number] of
    one of them. *)
Definition collision (d : dict) (c : candidate) : Prop :=
  In (str_of_int (c_id c)) (map fst d)
  \/ exists k r, In (k, JObj r) d
                 /\ dict_get "admission_number" r = Some (JStr (c_admission_number c)).


(** The record [StutraDB.add_student] stores. *)
Definition added_student (v : json) : Prop :=
  exists name admission_number sections photo_url created updated,
    v = JObj [("name", JStr name);
              ("admissionNumber", JStr admission_number);
              ("sections", sections);
              ("photoUrl", JStr photo_url);
              ("createdAt", JStr created);
              ("updatedAt", JStr updated)].

(** A store holding one student added through [StutraDB.add_student],
    with admission number 104. *)
Definition ex_db_added : json :=
  JObj [("students",
         JObj [("-Nabc", JObj [("name", JStr "Di");
                               ("admissionNumber", JStr "104");
                               ("sections", JArr [JStr "A"]);
                               ("photoUrl", JStr "");
                               ("createdAt", JStr "2025-01-27T10:00:00");
                               ("updatedAt", JStr "2025-01-27T10:00:00")])])].

Definition ex_world_added : world := mkWorld ex_db_added [] 0 [] [].



(** A network that cannot be reached at the [n]-th round trip and
    serves the others. *)
Definition net_down_at (n : nat) : nat -> transport :=
  fun i => if Nat.eqb i n then Unreachable else Delivered.

(** A store without students. *)
Definition ex_world_fresh : world := mkWorld (JObj []) [] 0 [] [].

(** The name [backup_database] gives its file. *)
Definition backup_name (filename : option string) (w : world) : string :=
  match filename with
  | Some f => if String.eqb f "" then ("backup_" ++ strftime (ticks w) ++ ".json")%string
              else f
  | None => ("backup_" ++ strftime (ticks w) ++ ".json")%string
  end.

(* --------------------------------------------------------------------- *)
(** *** The driver of the bulk import ([migrate_all_sections]) *)

(** [s.replace(old, new)], [ch.isdigit()] on a character, and
    [s.capitalize()]. *)
Variable str_replace : string -> string -> string -> string.
Variable str_isdigit : string -> bool.
Variable str_capitalize : string -> string.

Definition name_mapping : list (string * string) :=
  [("amartya", "Amartya"); ("ambedkar", "Ambedkar"); ("curie", "Curie");
   ("eliot", "Eliot"); ("hawking", "Hawking"); ("lewis", "Lewis");
   ("raman", "Raman"); ("satyarthi", "Satyarthi"); ("tagore", "Tagore");
   ("yunus", "Yunus")].

Fixpoint mapping_get (k : string) (m : list (string * string)) : option string :=
  match m with
  | [] => None
  | (k', v) :: m' => if String.eqb k k' then Some v else mapping_get k m'
  end.

Definition extract_section_name (filename : string) : string :=
  let name := str_replace filename ".csv" "" in
  let base_name :=
    str_lower (str_strip (String.concat ""
                 (filter (fun ch => negb (str_isdigit ch)) (str_chars name)))) in
  let proper_name := match mapping_get base_name name_mapping with
                     | Some p => p
                     | None => str_capitalize base_name
                     end in
  ("XI " ++ proper_name)%string.

(** One file of the directory: its name and what the reader yields for
    it. The body of the loop over the files; [acc] is
    [(successful_migrations, total_students)], [answer] what the
    operator types if the upload asks ([None] when nothing can be
    read). *)
Definition migrate_file (answer : option string)
           (file : string * option (list csv_row))
           (acc : nat * nat) : M (nat * nat) :=
  let section_name := extract_section_name (fst file) in
  if String.eqb (str_lower section_name) "xi raman" then ret acc
  else
    students <- read_csv_file (snd file) ;;
    match students with
    | [] => print ("No valid students found in " ++ fst file)%string ;; ret acc
    | _ =>
        ok <- upload_section_to_firebase section_name students answer ;;
        if ok then ret (S (fst acc), snd acc + length students)
        else print ("Failed to migrate " ++ section_name)%string ;; ret acc
    end.

Fixpoint migrate_files (answers : nat -> option string) (i : nat)
         (files : list (string * option (list csv_row))) (acc : nat * nat)
  : M (nat * nat) :=
  match files with
  | [] => ret acc
  | file :: rest =>
      acc' <- migrate_file (answers i) file acc ;;
      migrate_files answers (S i) rest acc'
  end.

(** [answers i] is the operator's answer during the [i]-th file. *)
Definition migrate_all_sections (answers : nat -> option string)
           (csv_files : list (string * option (list csv_row))) : M unit :=
  match csv_files with
  | [] => print "No CSV files found in csv_output directory"
  | _ =>
      acc <- migrate_files answers 0 csv_files (0, 0) ;;
      print ("Successfully migrated: " ++ str_of_nat (fst acc) ++ " sections")%string ;;
      print ("Total students processed: " ++ str_of_nat (snd acc))%string
  end.

(** A file the driver uploads: its section is not on the skip list and
    it yields at least one valid student. *)
Definition processable (file : string * option (list csv_row)) : bool :=
  negb (String.eqb (str_lower (extract_section_name (fst file))) "xi raman")
  && match snd file with
     | Some rows => match row_students rows with [] => false | _ => true end
     | None => false
     end.

Definition is_get (r : request) : bool :=
  match r_method r with GET => true | _ => false end.

(** [str.replace], [str.isdigit] and [str.capitalize] on ASCII text. *)
Fixpoint replace_from (old : string) (skip : nat) (s : string) : string :=
  match s with
  | EmptyString => EmptyString
  | String c s' =>
      match skip with
      | S k => replace_from old k s'
      | 0 => if String.prefix old s then replace_from old (String.length old - 1) s'
             else String c (replace_from old 0 s')
      end
  end.

Definition replace_ex (s old new : string) : string :=
  if String.eqb new "" then replace_from old 0 s else s.

Definition isdigit_ex (ch : string) : bool :=
  match ch with
  | String c EmptyString => let n := nat_of_ascii c in Nat.leb 48 n && Nat.leb n 57
  | _ => false
  end.

Definition capitalize_ex (s : string) : string :=
  match s with
  | EmptyString => EmptyString
  | String c s' => String (upper_ascii c) (lower_ex s')
  end.

(** A directory of three sheets: one on the skip list, one without a
    valid row, one with a student. *)
Definition ex_files : list (string * option (list csv_row)) :=
  [("raman.csv", Some ex_rows_before);
   ("eliot2.csv", Some [ex_row_bad]);
   ("curie1.csv", Some ex_rows_after)].

(** A directory whose only sheet is on the skip list. *)
Definition ex_files_skipped : list (string * option (list csv_row)) :=
  [("raman.csv", Some ex_rows_before)].

(* ===================================================================== *)
(** ** Dictionaries and the store tree *)
(* ===================================================================== *)

Lemma dict_get_set_same (k : string) (v : json) (d : dict) :
  dict_get k (dict_set k v d) = Some v.
Proof.
  induction d as [|[k' v'] d IH]; simpl.
  - now rewrite String.eqb_refl.
  - destruct (String.eqb k k') eqn:E; simpl.
    + now rewrite String.eqb_refl.
    + now rewrite E.
Qed.

Lemma dict_get_set_other (k k' : string) (v : json) (d : dict) :
  k <> k' -> dict_get k' (dict_set k v d) = dict_get k' d.
Proof.
  intros Hne. induction d as [|[k0 v0] d IH]; simpl.
  - destruct (String.eqb k' k) eqn:E; [|reflexivity].
    apply String.eqb_eq in E. congruence.
  - destruct (String.eqb k k0) eqn:E; simpl.
    + apply String.eqb_eq in E. subst k0.
      destruct (String.eqb k' k) eqn:E'; [|reflexivity].
      apply String.eqb_eq in E'. congruence.
    + now rewrite IH.
Qed.

Lemma dict_get_del_same (k : string) (d : dict) : dict_get k (dict_del k d) = None.
Proof.
  induction d as [|[k' v'] d IH]; simpl; [reflexivity|].
  destruct (String.eqb k k') eqn:E; simpl; [assumption|now rewrite E].
Qed.

Lemma dict_get_del_other (k k' : string) (d : dict) :
  k <> k' -> dict_get k' (dict_del k d) = dict_get k' d.
Proof.
  intros Hne. induction d as [|[k0 v0] d IH]; simpl; [reflexivity|].
  destruct (String.eqb k k0) eqn:E; simpl.
  - apply String.eqb_eq in E. subst k0.
    destruct (String.eqb k' k) eqn:E'; [|assumption].
    apply String.eqb_eq in E'. congruence.
  - now rewrite IH.
Qed.

Lemma dict_get_in (k : string) (v : json) (d : dict) :
  NoDup (map fst d) -> In (k, v) d -> dict_get k d = Some v.
Proof.
  induction d as [|[k0 v0] d IH]; simpl; intros Hnd Hin; [contradiction|].
  inversion Hnd as [|? ? Hnotin Hnd']; subst.
  destruct Hin as [Heq|Hin].
  - inversion Heq; subst. now rewrite String.eqb_refl.
  - destruct (String.eqb k k0) eqn:E.
    + apply String.eqb_eq in E. subst k0.
      exfalso. apply Hnotin. change k with (fst (k, v)). now apply in_map.
    + now apply IH.
Qed.

Lemma dict_get_some_in (k : string) (v : json) (d : dict) :
  dict_get k d = Some v -> In (k, v) d.
Proof.
  induction d as [|[k0 v0] d IH]; simpl; [discriminate|].
  destruct (String.eqb k k0) eqn:E; intros H.
  - apply String.eqb_eq in E. inversion H; subst. now left.
  - right. now apply IH.
Qed.

(** The keys of a list-format collection are distinct. *)
Lemma to_uint_nonnil (n : nat) : Nat.to_uint n <> Decimal.Nil.
Proof.
  intros H. pose proof (Unsigned.to_of (Nat.to_uint n)) as E.
  rewrite Unsigned.of_to in E. rewrite H in E. discriminate.
Qed.

Lemma str_of_nat_inj (n m : nat) : str_of_nat n = str_of_nat m -> n = m.
Proof.
  unfold str_of_nat. intros H. apply Unsigned.to_uint_inj.
  apply (f_equal NilZero.uint_of_string) in H.
  rewrite !NilZero.usu in H by apply to_uint_nonnil. now inversion H.
Qed.

Lemma enumerate_from_keys (i : nat) (l : list json) (k : string) :
  In k (map fst (enumerate_from i l)) -> exists j, i <= j /\ k = str_of_nat j.
Proof.
  revert i. induction l as [|x l IH]; intros i; simpl; [contradiction|].
  intros [H|H].
  - exists i. split; [lia|now symmetry].
  - destruct (IH (S i) H) as [j [Hj Hk]]. exists j. split; [lia|exact Hk].
Qed.

Lemma enumerate_from_nodup (i : nat) (l : list json) :
  NoDup (map fst (enumerate_from i l)).
Proof.
  revert i. induction l as [|x l IH]; intros i; simpl; constructor; [|apply IH].
  intros H. apply enumerate_from_keys in H. destruct H as [j [Hj Hk]].
  apply str_of_nat_inj in Hk. lia.
Qed.

Lemma list_format_keys_distinct (l : list json) :
  NoDup (map fst (node_items (JArr l))).
Proof. apply enumerate_from_nodup. Qed.

Lemma child_put_same (k : string) (v t : json) :
  child k (JObj (dict_set k v (node_items t))) = v.
Proof. unfold child, dict_get_default. simpl. now rewrite dict_get_set_same. Qed.

Lemma child_put_other (k k' : string) (v t : json) :
  k <> k' -> child k' (JObj (dict_set k v (node_items t))) = child k' t.
Proof.
  intros Hne. unfold child, dict_get_default. simpl.
  now rewrite dict_get_set_other.
Qed.

Lemma store_get_put_same (p : path) (v t : json) :
  store_get p (store_put p v t) = v.
Proof.
  revert t. induction p as [|k p IH]; intros t; simpl; [reflexivity|].
  now rewrite child_put_same.
Qed.

Lemma store_get_app (p q : path) (t : json) :
  store_get (p ++ q) t = store_get q (store_get p t).
Proof. revert t. induction p as [|k p IH]; intros t; simpl; auto. Qed.

Lemma store_get_put_prefix (p q : path) (v t : json) :
  store_get p (store_put (p ++ q) v t) = store_put q v (store_get p t).
Proof.
  revert t. induction p as [|k p IH]; intros t; simpl; [reflexivity|].
  now rewrite child_put_same.
Qed.

Lemma store_get_put_apart (p q : path) (v t : json) :
  apartb p q = true -> store_get q (store_put p v t) = store_get q t.
Proof.
  revert q t. induction p as [|a p IH]; intros [|b q] t H; simpl in *;
    try discriminate.
  destruct (String.eqb a b) eqn:E.
  - apply String.eqb_eq in E. subst b. rewrite child_put_same. now apply IH.
  - apply String.eqb_neq in E. now rewrite child_put_other.
Qed.

Lemma apartb_app (p q : path) (k : string) :
  apartb p q = true -> apartb (p ++ [k]) q = true.
Proof.
  revert q. induction p as [|a p IH]; intros [|b q] H; simpl in *;
    try discriminate.
  destruct (String.eqb a b); auto.
Qed.

Lemma store_get_null (p : path) : store_get p JNull = JNull.
Proof. induction p; simpl; auto. Qed.

Lemma store_get_del_apart (p q : path) (t : json) :
  apartb p q = true -> store_get q (store_del p t) = store_get q t.
Proof.
  revert q t. induction p as [|a p IH]; intros [|b q] t H; simpl in *;
    try discriminate.
  destruct (String.eqb a b) eqn:E.
  - apply String.eqb_eq in E. subst b.
    destruct p as [|a' p]; [destruct q; discriminate|].
    destruct (dict_mem a (node_items t)); [|reflexivity].
    rewrite child_put_same. now apply IH.
  - apply String.eqb_neq in E.
    assert (Hdel : child b (JObj (dict_del a (node_items t))) = child b t).
    { unfold child, dict_get_default. simpl. now rewrite dict_get_del_other. }
    destruct p as [|a' p].
    + now rewrite Hdel.
    + destruct (dict_mem a (node_items t)); [|reflexivity].
      now rewrite child_put_other.
Qed.

(* ===================================================================== *)
(** ** Reasoning about runs *)
(* ===================================================================== *)

Section Preserves.

Variable R : world -> world -> Prop.
Hypothesis R_refl : forall w, R w w.
Hypothesis R_trans : forall w1 w2 w3, R w1 w2 -> R w2 w3 -> R w1 w3.

Lemma preserves_ret {A} (a : A) : preserves R (ret a).
Proof using R_refl. intros w. apply R_refl. Qed.

Lemma preserves_raise {A} (e : exn) : preserves R (@raise A e).
Proof using R_refl. intros w. apply R_refl. Qed.

Lemma preserves_bind {A B} (m : M A) (f : A -> M B) :
  preserves R m -> (forall a, preserves R (f a)) -> preserves R (bind m f).
Proof using R_trans.
  intros Hm Hf w. unfold bind. specialize (Hm w).
  destruct (m w) as [a w1|e w1]; simpl in *.
  - eapply R_trans; [exact Hm|apply Hf].
  - exact Hm.
Qed.

Lemma preserves_try {A} (m : M A) (h : exn -> M A) :
  preserves R m -> (forall e, preserves R (h e)) -> preserves R (try_except m h).
Proof using R_trans.
  intros Hm Hh w. unfold try_except. specialize (Hm w).
  destruct (m w) as [a w1|e w1]; simpl in *; [exact Hm|].
  destruct e; simpl; try exact Hm; (eapply R_trans; [exact Hm|apply Hh]).
Qed.

Lemma preserves_for_each {A} (xs : list A) (body : A -> M unit) :
  (forall x, In x xs -> preserves R (body x)) -> preserves R (for_each xs body).
Proof using R_refl R_trans.
  induction xs as [|x xs IH]; intros H; simpl.
  - apply preserves_ret.
  - apply preserves_bind.
    + apply H. now left.
    + intros _. apply IH. intros y Hy. apply H. now right.
Qed.

End Preserves.

Lemma frame_refl (pk : path) (w : world) : frame pk w w.
Proof.
  split; [|reflexivity]. exists []. split; [now rewrite app_nil_r|constructor].
Qed.

Lemma frame_trans (pk : path) (w1 w2 w3 : world) :
  frame pk w1 w2 -> frame pk w2 w3 -> frame pk w1 w3.
Proof.
  intros [[n1 [L1 F1]] D1] [[n2 [L2 F2]] D2]. split.
  - exists (n1 ++ n2). split.
    + now rewrite L2, L1, app_assoc.
    + apply Forall_app. now split.
  - congruence.
Qed.

(** A step that leaves the tree and the log alone. *)
Lemma frame_quiet (pk : path) (w w' : world) :
  db w' = db w -> log w' = log w -> frame pk w w'.
Proof.
  intros Hd Hl. split; [|now rewrite Hd].
  exists []. split; [now rewrite app_nil_r|constructor].
Qed.

Lemma frame_print (pk : path) (line : string) : preserves (frame pk) (print line).
Proof. intros w. now apply frame_quiet. Qed.

Lemma frame_now_isoformat (pk : path) : preserves (frame pk) now_isoformat.
Proof. intros w. now apply frame_quiet. Qed.

Lemma frame_now_strftime (pk : path) : preserves (frame pk) now_strftime.
Proof. intros w. now apply frame_quiet. Qed.

Lemma frame_write_file (pk : path) (name content : string) :
  preserves (frame pk) (write_file name content).
Proof. intros w. now apply frame_quiet. Qed.

Lemma frame_make_request (pk : path) (m : method) (p : path) (data : json) :
  harmless pk (mkRequest m p data) = true ->
  preserves (frame pk) (make_request m p data).
Proof.
  intros H w. unfold make_request.
  assert (Hlog : forall w', log w' = log w ++ [mkRequest m p data] ->
            exists news, log w' = log w ++ news
                         /\ Forall (fun r => harmless pk r = true) news).
  { intros w' E. exists [mkRequest m p data]. split; [exact E|].
    constructor; [exact H|constructor]. }
  destruct (net (length (log w))); simpl; (split; [now apply Hlog|]); try reflexivity.
  unfold harmless, is_write in H. simpl in H.
  destruct m; simpl in *; try reflexivity.
  - now apply store_get_put_apart.
  - apply store_get_put_apart. now apply apartb_app.
  - now apply store_get_del_apart.
Qed.

Lemma frame_requests_send (pk : path) (m : method) (p : path) (data : json) :
  harmless pk (mkRequest m p data) = true ->
  preserves (frame pk) (requests_send m p data).
Proof.
  intros H w. unfold requests_send.
  assert (Hlog : forall w', log w' = log w ++ [mkRequest m p data] ->
            exists news, log w' = log w ++ news
                         /\ Forall (fun r => harmless pk r = true) news).
  { intros w' E. exists [mkRequest m p data]. split; [exact E|].
    constructor; [exact H|constructor]. }
  destruct (net (length (log w))); simpl; (split; [now apply Hlog|]); try reflexivity.
  unfold harmless, is_write in H. simpl in H.
  destruct m; simpl in *; try reflexivity.
  - now apply store_get_put_apart.
  - apply store_get_put_apart. now apply apartb_app.
  - now apply store_get_del_apart.
Qed.

(** What a frame says about the requests a run sent. *)
Lemma frame_sent {A} (pk : path) (w : world) (o : outcome A) :
  frame pk w (final o) ->
  Forall (fun r => harmless pk r = true) (sent w o)
  /\ store_get pk (db (final o)) = store_get pk (db w).
Proof.
  intros [[news [L F]] D]. split; [|exact D].
  unfold sent. rewrite L.
  rewrite skipn_app, skipn_all, Nat.sub_diag. exact F.
Qed.

(** Pointwise versions: the continuation may use what the first step
    returned at this very world. *)
Lemma frame_bind_at {A B} (pk : path) (m : M A) (f : A -> M B) (w : world) :
  frame pk w (final (m w)) ->
  (forall a w1, m w = Ok a w1 -> frame pk w1 (final (f a w1))) ->
  frame pk w (final (bind m f w)).
Proof.
  intros Hm Hf. unfold bind. destruct (m w) as [a w1|e w1] eqn:E; simpl in *.
  - eapply frame_trans; [exact Hm|now apply Hf].
  - exact Hm.
Qed.

Lemma returns_bind {A B} (m : M A) (f : A -> M B) (w : world)
      (Q : B -> world -> Prop) :
  returns m w (fun a w1 => returns (f a) w1 Q) -> returns (bind m f) w Q.
Proof.
  intros [a [w1 [E [b [w2 [E2 HQ]]]]]]. exists b, w2. split; [|exact HQ].
  unfold bind. now rewrite E.
Qed.

Lemma returns_ret {A} (a : A) (w : world) (Q : A -> world -> Prop) :
  Q a w -> returns (ret a) w Q.
Proof. intros H. now exists a, w. Qed.

Lemma returns_weaken {A} (m : M A) (w : world) (Q Q' : A -> world -> Prop) :
  returns m w Q -> (forall a w', Q a w' -> Q' a w') -> returns m w Q'.
Proof. intros [a [w' [E H]]] HQ. exists a, w'. auto. Qed.

Lemma returns_preserves {A} (R : world -> world -> Prop) (m : M A) (w : world)
      (Q : A -> world -> Prop) :
  returns m w Q -> preserves R m -> returns m w (fun a w' => Q a w' /\ R w w').
Proof.
  intros [a [w' [E H]]] HR. exists a, w'. repeat split; auto.
  specialize (HR w). now rewrite E in HR.
Qed.

(** The store client, when the round trip is served. *)
Lemma make_request_online (m : method) (p : path) (data : json) (w : world) :
  online ->
  make_request m p data w =
  Ok (snd (serve m p data w))
     (with_db (fst (serve m p data w)) (logged (mkRequest m p data) w)).
Proof. intros H. unfold make_request. now rewrite H. Qed.

(** What a served GET returns. *)
Lemma make_request_get_value (p : path) (data a : json) (w w1 : world) :
  make_request GET p data w = Ok a w1 ->
  a = store_get p (db w) /\ db w1 = db w /\ ticks w1 = ticks w
  /\ files w1 = files w.
Proof.
  unfold make_request. destruct (net (length (log w))); simpl; intros E;
    inversion E; subst; auto.
Qed.

Lemma now_strftime_value (a : string) (w w1 : world) :
  now_strftime w = Ok a w1 -> db w1 = db w /\ log w1 = log w.
Proof. unfold now_strftime. intros E. inversion E; subst. auto. Qed.

Lemma frame_backup_database (pk : path) (filename : option string) :
  preserves (frame pk) (backup_database filename).
Proof.
  unfold backup_database.
  apply preserves_bind; try apply frame_refl; try apply frame_trans.
  { now apply frame_make_request. }
  intros data. apply preserves_bind; try apply frame_refl; try apply frame_trans.
  { destruct filename as [f|].
    - destruct (String.eqb f "").
      + apply preserves_bind; try apply frame_refl; try apply frame_trans.
        * apply frame_now_strftime.
        * intros ts. apply preserves_ret. apply frame_refl.
      + apply preserves_ret. apply frame_refl.
    - apply preserves_bind; try apply frame_refl; try apply frame_trans.
      + apply frame_now_strftime.
      + intros ts. apply preserves_ret. apply frame_refl. }
  intros fn. apply preserves_bind; try apply frame_refl; try apply frame_trans.
  { apply frame_write_file. }
  intros _. apply preserves_ret. apply frame_refl.
Qed.

(** The backup leaves the tree as it is. *)
Lemma backup_database_db (filename : option string) (w : world) :
  db (final (backup_database filename w)) = db w.
Proof.
  unfold backup_database, bind, make_request.
  destruct (net (length (log w))); simpl; try reflexivity.
  destruct filename as [f|]; [destruct (String.eqb f "")|]; reflexivity.
Qed.

Ltac frame_bind :=
  apply preserves_bind; [apply frame_trans | | intros ? ].

Ltac frame_done := apply preserves_ret; apply frame_refl.

Lemma frame_create_section (pk : path) (name : json) :
  apartb ["sections"] pk = true -> preserves (frame pk) (create_section name).
Proof.
  intros H. unfold create_section.
  frame_bind; [apply frame_now_isoformat|].
  frame_bind; [apply frame_now_isoformat|].
  frame_bind; [|frame_done].
  apply frame_make_request. unfold harmless. simpl r_path. rewrite H.
  apply orb_true_r.
Qed.

Lemma frame_create_sections (pk : path) (names : list json) :
  apartb ["sections"] pk = true -> preserves (frame pk) (create_sections names).
Proof.
  intros H. unfold create_sections.
  apply preserves_for_each; [apply frame_refl|apply frame_trans|].
  intros n _. destruct (creatable n); [|frame_done].
  frame_bind; [now apply frame_create_section|frame_done].
Qed.

Lemma frame_migrate_student (k : string) (q : path) (student_id : string)
      (student_data : json) (acc : pyset * nat) :
  (unmigrated (student_id, student_data) = true -> student_id <> k) ->
  preserves (frame ("students" :: k :: q)) (migrate_student student_id student_data acc).
Proof.
  intros H. unfold migrate_student.
  destruct student_data as [| | | s | l | d];
    try (apply preserves_raise; apply frame_refl).
  - destruct (str_contains "sections" s); apply preserves_raise; apply frame_refl.
  - destruct (existsb (is_str "sections") l); apply preserves_raise; apply frame_refl.
  - unfold unmigrated in H. simpl in H.
    destruct (migrated d); [frame_done|].
    frame_bind; [apply frame_now_isoformat|].
    frame_bind.
    + apply frame_make_request. unfold harmless. simpl.
      specialize (H eq_refl). apply String.eqb_neq in H. now rewrite H.
    + destruct (hashable (old_section_of d)); [frame_done|].
      apply preserves_raise. apply frame_refl.
Qed.

Lemma frame_migrate_students (k : string) (q : path) (items : list (string * json)) :
  (forall kv, In kv items -> unmigrated kv = true -> fst kv <> k) ->
  forall acc, preserves (frame ("students" :: k :: q)) (migrate_students items acc).
Proof.
  induction items as [|[k0 v0] items IH]; intros H acc; simpl.
  - frame_done.
  - frame_bind.
    + apply frame_migrate_student. intros Hu. apply (H (k0, v0)); [now left|exact Hu].
    + apply IH. intros kv Hin. apply H. now right.
Qed.

Lemma student_items_value (sd : json) (items : list (string * json)) (w w1 : world) :
  student_items sd w = Ok items w1 ->
  items = items_of sd /\ w1 = w /\ is_collection sd = true.
Proof.
  destruct sd; simpl; intros E; inversion E; subst; auto.
Qed.

Lemma frame_student_items (pk : path) (sd : json) :
  preserves (frame pk) (student_items sd).
Proof. intros w. destruct sd; simpl; apply frame_refl. Qed.

Lemma py_len_check_value (v : json) (w w1 : world) :
  py_len_check v w = Ok tt w1 -> w1 = w.
Proof. destruct v; simpl; intros E; inversion E; auto. Qed.

Lemma frame_py_len_check (pk : path) (v : json) :
  preserves (frame pk) (py_len_check v).
Proof. intros w. destruct v; simpl; apply frame_refl. Qed.

Lemma items_of_node_items (sd : json) (kv : string * json) :
  In kv (items_of sd) -> In kv (node_items sd).
Proof.
  destruct sd; simpl; auto. intros H. now apply filter_In in H.
Qed.

(** The record stored under a key of the students collection. *)
Lemma students_of_get (w : world) (k : string) (v : json) :
  NoDup (map fst (node_items (students_of w))) ->
  In (k, v) (items_of (students_of w)) ->
  store_get ["students"; k] (db w) = v.
Proof.
  intros Hnd Hin. apply items_of_node_items in Hin.
  pose proof (dict_get_in _ _ _ Hnd Hin) as Hget.
  unfold students_of, or_empty in *. simpl store_get in *.
  destruct (truthy (child "students" (db w))) eqn:T.
  - unfold child at 1, dict_get_default. now rewrite Hget.
  - simpl in Hin. contradiction.
Qed.

(** The migrator's run as a whole is a frame for a record the loop does
    not rewrite. *)
Lemma frame_migrate (w : world) (k : string) :
  (forall kv, In kv (items_of (students_of w)) -> unmigrated kv = true -> fst kv <> k) ->
  frame ["students"; k] w (final (migrate_to_multisection w)).
Proof.
  intros Hk. unfold migrate_to_multisection.
  apply frame_bind_at; [apply frame_now_strftime|]. intros ts w1 E1.
  apply now_strftime_value in E1. destruct E1 as [D1 _].
  apply frame_bind_at; [apply frame_backup_database|]. intros bf w2 E2.
  assert (D2 : db w2 = db w1).
  { pose proof (backup_database_db
                  (Some ("pre_migration_backup_" ++ ts ++ ".json")%string) w1) as Hb.
    now rewrite E2 in Hb. }
  apply frame_bind_at; [now apply frame_make_request|]. intros s0 w3 E3.
  apply make_request_get_value in E3. destruct E3 as [Hs0 [D3 _]].
  assert (Hsd : or_empty s0 = students_of w).
  { unfold students_of. now rewrite Hs0, D2, D1. }
  rewrite Hsd.
  apply frame_bind_at; [apply frame_py_len_check|]. intros [] w4 _.
  apply frame_bind_at; [apply frame_student_items|]. intros items w5 E5.
  apply student_items_value in E5. destruct E5 as [Hitems _]. subst items.
  apply frame_bind_at; [now apply frame_migrate_students|]. intros acc w6 _.
  apply frame_bind_at; [now apply frame_create_sections|]. intros _ w7 _.
  apply frame_refl.
Qed.

(** C2. A student record that already has a list-valued [sections] is
    left alone by a run of the migrator: no request of the run is a
    write at, above or below [students/<id>], and the record stored
    there is the same afterwards; this holds however the run ends. *)
Theorem migrate_skips_migrated (w : world) (k : string) (r : dict) (l : list json) :
  NoDup (map fst (node_items (students_of w))) ->
  In (k, JObj r) (items_of (students_of w)) ->
  dict_get "sections" r = Some (JArr l) ->
  Forall (fun rq => harmless ["students"; k] rq = true)
         (sent w (migrate_to_multisection w))
  /\ store_get ["students"; k] (db w) = JObj r
  /\ store_get ["students"; k] (db (final (migrate_to_multisection w))) = JObj r.
Proof.
  intros Hnd Hin Hsec.
  pose proof (students_of_get w k (JObj r) Hnd Hin) as Hget.
  assert (Hframe : frame ["students"; k] w (final (migrate_to_multisection w))).
  { apply frame_migrate. intros [k' v] Hin' Hu Hk. simpl in Hk. subst k'.
    pose proof (students_of_get w k v Hnd Hin') as Hget'.
    rewrite Hget in Hget'. subst v.
    unfold unmigrated, migrated in Hu. simpl in Hu. rewrite Hsec in Hu.
    discriminate. }
  apply frame_sent in Hframe. destruct Hframe as [Hs Hd].
  repeat split; [exact Hs|exact Hget|]. now rewrite Hd.
Qed.

(* ===================================================================== *)
(** ** The migrator, when every round trip is served *)
(* ===================================================================== *)

Lemma world_eta (w : world) :
  mkWorld (db w) (log w) (ticks w) (files w) (stdout w) = w.
Proof. now destruct w. Qed.

Lemma migrate_student_online (k : string) (d : dict) (acc : pyset * nat) (w : world) :
  online -> record_ok (JObj d) = true ->
  migrate_student k (JObj d) acc w =
  if migrated d then Ok acc w
  else Ok (set_add (old_section_of d) (fst acc), S (snd acc))
          (mkWorld (store_put ["students"; k]
                              (JObj (migrated_record (isoformat (ticks w)) d)) (db w))
                   (log w ++ [put_student k (isoformat (ticks w)) d])
                   (S (ticks w)) (files w) (stdout w)).
Proof.
  intros Hon Hok. unfold migrate_student. simpl in Hok.
  destruct (migrated d); [reflexivity|]. simpl in Hok.
  unfold bind, now_isoformat. rewrite make_request_online by exact Hon.
  rewrite Hok. reflexivity.
Qed.

Lemma migrate_students_online (items : list (string * json)) :
  online -> Forall (fun kv => record_ok (snd kv) = true) items ->
  forall acc w,
    let puts := student_puts (ticks w) items in
    migrate_students items acc w =
    Ok (collect_sections items (fst acc), snd acc + length puts)
       (mkWorld (apply_puts puts (db w)) (log w ++ puts)
                (ticks w + length puts) (files w) (stdout w)).
Proof.
  intros Hon. induction items as [|[k v] items IH]; intros Hok acc w; simpl.
  - unfold ret. rewrite app_nil_r, !Nat.add_0_r. simpl.
    rewrite world_eta. now destruct acc.
  - inversion Hok as [|? ? Hv Hrest]; subst. simpl in Hv.
    destruct v as [| | | | |d]; try discriminate.
    unfold bind. rewrite migrate_student_online by assumption.
    destruct (migrated d) eqn:Hm.
    + rewrite IH by assumption. reflexivity.
    + rewrite IH by assumption. simpl.
      rewrite <- !app_assoc. simpl. rewrite !Nat.add_succ_r. reflexivity.
Qed.

(** The PUTs of the loop leave a key outside [items] alone. *)
Lemma apply_student_puts_other (k : string) (q : path) (items : list (string * json)) :
  ~ In k (map fst items) ->
  forall t tree,
    store_get ("students" :: k :: q) (apply_puts (student_puts t items) tree)
    = store_get ("students" :: k :: q) tree.
Proof.
  unfold apply_puts.
  induction items as [|[k0 v0] items IH]; intros Hk t tree; [reflexivity|].
  cbn [map fst In] in Hk.
  assert (Hrest : ~ In k (map fst items)) by (intros H; apply Hk; now right).
  assert (Hne : k0 <> k) by (intros H; apply Hk; now left).
  cbn [student_puts].
  destruct v0 as [| | | | |d]; try now apply IH.
  destruct (migrated d); [now apply IH|].
  cbn [fold_left]. rewrite IH by assumption.
  apply store_get_put_apart. simpl.
  apply String.eqb_neq in Hne. now rewrite Hne.
Qed.

(** Every record the loop rewrites ends as [migrated_record] of itself. *)
Lemma apply_student_puts_get (k : string) (d : dict) (items : list (string * json)) :
  NoDup (map fst items) -> In (k, JObj d) items -> migrated d = false ->
  forall t tree, exists t',
    store_get ["students"; k] (apply_puts (student_puts t items) tree)
    = JObj (migrated_record (isoformat t') d).
Proof.
  induction items as [|[k0 v0] items IH]; intros Hnd Hin Hm t tree;
    [contradiction|].
  inversion Hnd as [|? ? Hnotin Hnd']; subst.
  destruct Hin as [Heq|Hin].
  - inversion Heq; subst. exists t.
    cbn [student_puts]. rewrite Hm. unfold apply_puts. cbn [fold_left].
    pose proof (apply_student_puts_other k [] items Hnotin) as Ho.
    unfold apply_puts in Ho. rewrite Ho.
    apply (store_get_put_same ["students"; k]).
  - cbn [student_puts]. destruct v0 as [| | | | |d0]; try now apply IH.
    destruct (migrated d0); [now apply IH|].
    unfold apply_puts. cbn [fold_left]. now apply IH.
Qed.

(** The three fields of the record the migrator writes back. *)
Lemma migrated_record_sections (stamp : string) (d : dict) :
  dict_get "sections" (migrated_record stamp d) = Some (JArr [old_section_of d]).
Proof.
  unfold migrated_record.
  match goal with |- context [if ?b then _ else _] => destruct b end.
  - rewrite dict_get_del_other by discriminate.
    rewrite dict_get_set_other by discriminate. apply dict_get_set_same.
  - rewrite dict_get_set_other by discriminate. apply dict_get_set_same.
Qed.

Lemma migrated_record_updatedAt (stamp : string) (d : dict) :
  dict_get "updatedAt" (migrated_record stamp d) = Some (JStr stamp).
Proof.
  unfold migrated_record.
  match goal with |- context [if ?b then _ else _] => destruct b end.
  - rewrite dict_get_del_other by discriminate. apply dict_get_set_same.
  - apply dict_get_set_same.
Qed.

Lemma migrated_record_section (stamp : string) (d : dict) :
  dict_get "section" (migrated_record stamp d) = None.
Proof.
  unfold migrated_record, dict_mem.
  set (d2 := dict_set "updatedAt" (JStr stamp)
                      (dict_set "sections" (JArr [old_section_of d]) d)).
  destruct (dict_get "section" d2) eqn:E.
  - apply dict_get_del_same.
  - exact E.
Qed.

(** The other fields are kept. *)
Lemma migrated_record_other (stamp : string) (d : dict) (k : string) :
  k <> "sections" -> k <> "updatedAt" -> k <> "section" ->
  dict_get k (migrated_record stamp d) = dict_get k d.
Proof.
  intros H1 H2 H3. unfold migrated_record.
  match goal with |- context [if ?b then _ else _] => destruct b end.
  - rewrite dict_get_del_other by congruence.
    rewrite !dict_get_set_other by congruence. reflexivity.
  - rewrite !dict_get_set_other by congruence. reflexivity.
Qed.

Lemma create_section_online (name : json) (w : world) :
  online ->
  create_section name w =
  Ok (push_id (tick (tick w)))
     (mkWorld (store_put ["sections"; push_id (tick (tick w))]
                         (r_body (post_section name (ticks w))) (db w))
              (log w ++ [post_section name (ticks w)])
              (S (S (ticks w))) (files w) (stdout w)).
Proof.
  intros Hon. unfold create_section, bind, now_isoformat.
  rewrite make_request_online by exact Hon. reflexivity.
Qed.

Lemma create_sections_online (names : list json) :
  online ->
  forall w, returns (create_sections names) w
              (fun _ w' => log w' = log w ++ section_posts (ticks w) names
                           /\ files w' = files w).
Proof.
  intros Hon. unfold create_sections.
  induction names as [|n names IH]; intros w; simpl.
  - apply returns_ret. now rewrite app_nil_r.
  - destruct (creatable n).
    + apply returns_bind. apply returns_bind.
      eexists _, _. split; [now apply create_section_online|].
      apply returns_ret.
      eapply returns_weaken; [apply IH|].
      simpl. intros _ w' [Hl Hf]. rewrite Hl, <- app_assoc. now split.
    + apply returns_bind. apply returns_ret. apply IH.
Qed.

Lemma backup_database_online (f : string) (w : world) :
  online -> String.eqb f "" = false ->
  backup_database (Some f) w =
  Ok (filepath f)
     (mkWorld (db w) (log w ++ [mkRequest GET [] JNull]) (ticks w)
              (file_set (filepath f) (json_dump (db w)) (files w)) (stdout w)).
Proof.
  intros Hon Hf. unfold backup_database, bind.
  rewrite make_request_online by exact Hon. rewrite Hf. reflexivity.
Qed.

Lemma py_len_check_collection (v : json) (w : world) :
  is_collection v = true -> py_len_check v w = Ok tt w.
Proof. destruct v; simpl; intros H; try discriminate; reflexivity. Qed.

Lemma student_items_collection (v : json) (w : world) :
  is_collection v = true -> student_items v w = Ok (items_of v) w.
Proof. destruct v; simpl; intros H; try discriminate; reflexivity. Qed.

(** The whole run of the migrator when every round trip is served and
    the students collection has the expected shape: it returns [True],
    and the requests it sent are the two reads, one PUT per record not
    yet migrated and one POST per section name to create. *)
Lemma migrate_online (w : world) :
  online ->
  is_collection (students_of w) = true ->
  Forall (fun kv => record_ok (snd kv) = true) (items_of (students_of w)) ->
  let items := items_of (students_of w) in
  let puts := student_puts (S (ticks w)) items in
  let names := set_iter (collect_sections items []) in
  exists w',
    migrate_to_multisection w = Ok true w'
    /\ log w' = log w ++ mkRequest GET [] JNull :: mkRequest GET ["students"] JNull
                      :: puts ++ section_posts (S (ticks w) + length puts) names
    /\ (forall k q, store_get ("students" :: k :: q) (db w')
                    = store_get ("students" :: k :: q) (apply_puts puts (db w))).
Proof.
  intros Hon Hcol Hok items puts names.
  unfold migrate_to_multisection.
  unfold bind at 1. unfold now_strftime at 1.
  unfold bind at 1. rewrite backup_database_online by (exact Hon || reflexivity).
  unfold bind at 1. rewrite make_request_online by exact Hon.
  cbn [serve snd fst db with_db logged log ticks files stdout tick].
  fold (students_of w).
  unfold bind at 1. rewrite py_len_check_collection by exact Hcol.
  unfold bind at 1. rewrite student_items_collection by exact Hcol.
  unfold bind at 1. rewrite migrate_students_online by assumption.
  cbn [fst snd db log ticks files stdout with_db logged].
  fold items. fold puts. fold names.
  match goal with
  | |- context [bind (create_sections names) _ ?w6] =>
      destruct (create_sections_online names Hon w6) as [[] [w7 [E7 [L7 _]]]];
      pose proof (fun pk H => frame_create_sections pk names H w6) as Hfr;
      unfold bind; rewrite E7; rewrite E7 in Hfr
  end.
  exists w7. split; [reflexivity|]. split.
  - rewrite L7. cbn [log ticks]. rewrite <- !app_assoc. reflexivity.
  - intros k q. specialize (Hfr ("students" :: k :: q) eq_refl).
    destruct Hfr as [_ Hd]. exact Hd.
Qed.

Lemma nodup_keys_filter (f : string * json -> bool) (l : list (string * json)) :
  NoDup (map fst l) -> NoDup (map fst (filter f l)).
Proof.
  induction l as [|x l IH]; simpl; intros H; [constructor|].
  inversion H as [|? ? Hn Hnd]; subst.
  destruct (f x); simpl; [constructor|]; auto.
  intros Hin. apply Hn. apply in_map_iff in Hin. destruct Hin as [y [Hy Hin]].
  apply filter_In in Hin. rewrite <- Hy. apply in_map. apply Hin.
Qed.

Lemma nodup_items_of (sd : json) :
  NoDup (map fst (node_items sd)) -> NoDup (map fst (items_of sd)).
Proof. destruct sd; simpl; auto. apply nodup_keys_filter. Qed.

(** What the migrator leaves under the key of a record it rewrites. *)
Lemma migrate_rewrites (w : world) (k : string) (r : dict) :
  online ->
  is_collection (students_of w) = true ->
  Forall (fun kv => record_ok (snd kv) = true) (items_of (students_of w)) ->
  NoDup (map fst (node_items (students_of w))) ->
  In (k, JObj r) (items_of (students_of w)) ->
  migrated r = false ->
  exists w' t,
    migrate_to_multisection w = Ok true w'
    /\ store_get ["students"; k] (db w') = JObj (migrated_record (isoformat t) r).
Proof.
  intros Hon Hcol Hok Hnd Hin Hm.
  destruct (migrate_online w Hon Hcol Hok) as [w' [E [_ Hdb]]].
  destruct (apply_student_puts_get k r (items_of (students_of w))
              (nodup_items_of _ Hnd) Hin Hm (S (ticks w)) (db w)) as [t Ht].
  exists w', t. split; [exact E|]. rewrite Hdb. exact Ht.
Qed.

(** C1. A legacy record (a [section] string, no list-valued [sections])
    is stored after one run of the migrator with [sections] equal to the
    one-element list of the old [section] value, without a [section]
    field, and with an [updatedAt] stamp read from the clock; its other
    fields are kept. *)
Theorem migrate_legacy_record (w : world) (k : string) (r : dict) (s : string) :
  online ->
  is_collection (students_of w) = true ->
  Forall (fun kv => record_ok (snd kv) = true) (items_of (students_of w)) ->
  NoDup (map fst (node_items (students_of w))) ->
  In (k, JObj r) (items_of (students_of w)) ->
  dict_get "section" r = Some (JStr s) ->
  migrated r = false ->
  exists w' r' t,
    migrate_to_multisection w = Ok true w'
    /\ store_get ["students"; k] (db w') = JObj r'
    /\ dict_get "sections" r' = Some (JArr [JStr s])
    /\ dict_get "section" r' = None
    /\ dict_get "updatedAt" r' = Some (JStr (isoformat t))
    /\ (forall f, f <> "sections" -> f <> "updatedAt" -> f <> "section" ->
                  dict_get f r' = dict_get f r).
Proof.
  intros Hon Hcol Hok Hnd Hin Hsec Hm.
  destruct (migrate_rewrites w k r Hon Hcol Hok Hnd Hin Hm) as [w' [t [E Hget]]].
  exists w', (migrated_record (isoformat t) r), t.
  split; [exact E|]. split; [exact Hget|].
  split.
  { rewrite migrated_record_sections. unfold old_section_of, dict_get_default.
    now rewrite Hsec. }
  split; [apply migrated_record_section|].
  split; [apply migrated_record_updatedAt|].
  intros f H1 H2 H3. now apply migrated_record_other.
Qed.

(* ===================================================================== *)
(** ** The validator *)
(* ===================================================================== *)

Lemma check_all_total (check : string -> json -> option (list string))
      (items : list (string * json)) :
  (forall kv, In kv items -> check (fst kv) (snd kv) <> None) ->
  exists issues, check_all check items = Some issues.
Proof.
  induction items as [|[k v] items IH]; intros H; simpl; [now exists []|].
  destruct (check k v) as [i|] eqn:E.
  - destruct IH as [more Hmore]; [intros kv Hin; apply H; now right|].
    rewrite Hmore. now eexists.
  - exfalso. apply (H (k, v)); [now left|exact E].
Qed.


Lemma check_all_incl (check : string -> json -> option (list string))
      (items : list (string * json)) (issues i : list string) (k : string) (v : json) :
  check_all check items = Some issues -> In (k, v) items -> check k v = Some i ->
  incl i issues.
Proof.
  revert issues. induction items as [|[k0 v0] items IH]; intros issues; simpl;
    [contradiction|].
  destruct (check k0 v0) as [i0|] eqn:E0; [|discriminate].
  destruct (check_all check items) as [more|]; [|discriminate].
  intros H [Heq|Hin] Hc; inversion H; subst.
  - inversion Heq; subst. rewrite Hc in E0. inversion E0; subst.
    apply incl_appl. apply incl_refl.
  - apply incl_appr. now apply (IH more).
Qed.


Lemma check_student_total (k : string) (v : json) :
  student_scannable v = true -> check_student k v <> None.
Proof.
  unfold check_student, student_scannable.
  destruct v as [| | | s | l | d]; simpl; try discriminate.
  - destruct (str_contains "sections" s); discriminate.
  - destruct (existsb (is_str "sections") l); discriminate.
  - intros _. destruct (dict_get "sections" d) as [x|]; [|discriminate].
    destruct (negb (is_list x)); [discriminate|].
    destruct (negb (truthy x)); discriminate.
Qed.


Lemma check_section_total (k : string) (v : json) :
  section_scannable v = true -> check_section k v <> None.
Proof.
  unfold check_section, check_field, section_scannable.
  destruct v; simpl; try discriminate; intros _;
    repeat match goal with
           | |- context [if ?b then _ else _] => destruct b
           end; discriminate.
Qed.

Lemma check_sections_total (sd : json) :
  sections_scannable sd = true -> exists issues, check_sections sd = Some issues.
Proof.
  destruct sd; simpl; try (intros _; now eexists).
  intros H. apply check_all_total. intros kv Hin.
  apply check_section_total. rewrite forallb_forall in H. now apply H.
Qed.


Lemma for_each_print (lines : list string) (f : string -> string) (w : world) :
  exists w', for_each lines (fun l => print (f l)) w = Ok tt w'
             /\ db w' = db w /\ log w' = log w.
Proof.
  revert w. induction lines as [|l lines IH]; intros w; simpl.
  - now exists w.
  - unfold bind. simpl.
    match goal with |- context [for_each lines _ ?w1] =>
      destruct (IH w1) as [w' [E [D L]]] end.
    exists w'. now rewrite E.
Qed.

(** The validator when both reads are served: the issues are those of
    the pure checks, and the tree is left as it is. *)
Lemma collect_issues_online (w : world) (i1 i2 : list string) :
  online ->
  is_collection (students_of w) = true ->
  check_all check_student (items_of (students_of w)) = Some i1 ->
  check_sections (sections_of w) = Some i2 ->
  exists w', collect_issues w = Ok (i1 ++ i2) w' /\ db w' = db w.
Proof.
  intros Hon Hcol H1 H2. unfold collect_issues.
  unfold bind at 1. rewrite make_request_online by exact Hon.
  unfold bind at 1. rewrite make_request_online by exact Hon.
  cbn [serve snd fst db with_db logged log ticks files stdout].
  fold (students_of w). fold (sections_of w).
  unfold bind at 1. rewrite student_items_collection by exact Hcol.
  unfold bind. rewrite H1, H2. simpl. eexists. split; reflexivity.
Qed.

Lemma validate_online (w : world) (i1 i2 : list string) :
  online ->
  is_collection (students_of w) = true ->
  check_all check_student (items_of (students_of w)) = Some i1 ->
  check_sections (sections_of w) = Some i2 ->
  exists w',
    validate_data_integrity w
    = Ok (match i1 ++ i2 with [] => true | _ => false end) w'
    /\ db w' = db w.
Proof.
  intros Hon Hcol H1 H2.
  destruct (collect_issues_online w Hon Hcol H1 H2) as [w1 [E1 D1]].
  unfold validate_data_integrity, bind. rewrite E1.
  destruct (for_each_print (i1 ++ i2) (fun issue => ("   - " ++ issue)%string) w1)
    as [w2 [E2 [D2 _]]].
  rewrite E2. exists w2. split; [reflexivity|congruence].
Qed.

Lemma scan_students_total (items : list (string * json)) :
  forallb (fun kv => student_scannable (snd kv)) items = true ->
  exists issues, check_all check_student items = Some issues.
Proof.
  intros H. apply check_all_total. intros kv Hin.
  apply check_student_total. rewrite forallb_forall in H. now apply H.
Qed.


(** C3 (as the code has it). A student record with neither [section]
    nor [sections], or with a [sections] that is not a list, is reported
    by the validator (an issue naming the record, and the validation
    fails). The migrator has no class of malformed records: it treats
    the record as not yet migrated and writes it back with [sections]
    set to the one-element list of its [section] value, or of
    ["default"] when it has none. *)
Theorem malformed_record_handling (w : world) (k : string) (r : dict) :
  online ->
  is_collection (students_of w) = true ->
  Forall (fun kv => record_ok (snd kv) = true) (items_of (students_of w)) ->
  forallb (fun kv => student_scannable (snd kv)) (items_of (students_of w)) = true ->
  sections_scannable (sections_of w) = true ->
  NoDup (map fst (node_items (students_of w))) ->
  In (k, JObj r) (items_of (students_of w)) ->
  (dict_get "section" r = None /\ dict_get "sections" r = None)
  \/ (exists v, dict_get "sections" r = Some v /\ is_list v = false) ->
  (exists issues w1 w2,
      collect_issues w = Ok issues w1
      /\ In (shape_issue k r) issues
      /\ validate_data_integrity w = Ok false w2)
  /\ (exists w3 r' t,
         migrate_to_multisection w = Ok true w3
         /\ store_get ["students"; k] (db w3) = JObj r'
         /\ dict_get "sections" r'
            = Some (JArr [dict_get_default "section" (JStr "default") r])
         /\ dict_get "updatedAt" r' = Some (JStr (isoformat t))).
Proof.
  intros Hon Hcol Hok Hst Hse Hnd Hin Hmal.
  assert (Hm : migrated r = false).
  { unfold migrated. destruct Hmal as [[_ H]|[v [H Hv]]]; rewrite H; auto. }
  assert (Hissue : check_student k (JObj r) = Some [shape_issue k r]).
  { unfold check_student, shape_issue.
    destruct Hmal as [[_ H]|[v [H Hv]]]; rewrite H; [reflexivity|].
    now rewrite Hv. }
  split.
  - destruct (scan_students_total _ Hst) as [i1 H1].
    destruct (check_sections_total _ Hse) as [i2 H2].
    destruct (collect_issues_online w Hon Hcol H1 H2) as [w1 [E1 _]].
    destruct (validate_online w Hon Hcol H1 H2) as [w2 [E2 _]].
    assert (Hi : In (shape_issue k r) i1).
    { eapply check_all_incl; [exact H1|exact Hin|exact Hissue|now left]. }
    exists (i1 ++ i2), w1, w2. split; [exact E1|]. split.
    + apply in_or_app. now left.
    + rewrite E2. destruct i1; [contradiction|reflexivity].
  - destruct (migrate_rewrites w k r Hon Hcol Hok Hnd Hin Hm) as [w3 [t [E Hget]]].
    exists w3, (migrated_record (isoformat t) r), t.
    split; [exact E|]. split; [exact Hget|]. split.
    + apply migrated_record_sections.
    + apply migrated_record_updatedAt.
Qed.

Lemma section_posts_names (t : nat) (names : list json) :
  map posted_name (section_posts t names) = map Some (filter creatable names)
  /\ Forall (fun r => r_method r = POST /\ r_path r = ["sections"])
            (section_posts t names).
Proof.
  revert t. induction names as [|n names IH]; intros t; simpl.
  - split; [reflexivity|constructor].
  - destruct (creatable n); simpl.
    + destruct (IH (S (S t))) as [H1 H2]. split.
      * now rewrite H1.
      * constructor; [now split|exact H2].
    + apply IH.
Qed.

Lemma permutation_filter {A} (f : A -> bool) (l l' : list A) :
  Permutation l l' -> Permutation (filter f l) (filter f l').
Proof.
  induction 1 as [|x l l' H IH|x y l|l l' l'' H1 IH1 H2 IH2]; simpl.
  - constructor.
  - destruct (f x); [now constructor|assumption].
  - destruct (f x), (f y); try reflexivity. apply perm_swap.
  - now transitivity (filter f l').
Qed.

(** C8 (as the code has it). After the loop over the students the
    migrator calls [create_section] - a POST to [sections], stored under
    a key the store generates - once for every collected section name
    that is non-empty and not ["default"] (the names come in the order
    in which the set is iterated). The run reads the root (for the
    backup) and [students] and nothing else: no section is looked up
    before it is created. *)
Theorem migrate_creates_sections (w : world) :
  online ->
  is_collection (students_of w) = true ->
  Forall (fun kv => record_ok (snd kv) = true) (items_of (students_of w)) ->
  let items := items_of (students_of w) in
  let names := set_iter (collect_sections items []) in
  exists w' t,
    migrate_to_multisection w = Ok true w'
    /\ sent w (migrate_to_multisection w)
       = mkRequest GET [] JNull :: mkRequest GET ["students"] JNull
         :: student_puts (S (ticks w)) items ++ section_posts t names
    /\ map posted_name (section_posts t names) = map Some (filter creatable names)
    /\ Forall (fun r => r_method r = POST /\ r_path r = ["sections"])
              (section_posts t names)
    /\ ((forall s, Permutation (set_iter s) s) ->
        Permutation (filter creatable names)
                    (filter creatable (collect_sections items []))).
Proof.
  intros Hon Hcol Hok items names.
  destruct (migrate_online w Hon Hcol Hok) as [w' [E [L _]]].
  fold items in L. fold names in L.
  exists w', (S (ticks w) + length (student_puts (S (ticks w)) items)).
  split; [exact E|]. split.
  - unfold sent. rewrite E. simpl final. rewrite L.
    rewrite skipn_app, skipn_all, Nat.sub_diag. reflexivity.
  - destruct (section_posts_names
                (S (ticks w) + length (student_puts (S (ticks w)) items)) names)
      as [H1 H2].
    repeat split; [exact H1|exact H2|].
    intros Hp. apply permutation_filter. apply Hp.
Qed.

(* ===================================================================== *)
(** ** The section index *)
(* ===================================================================== *)

Lemma is_str_true (s : string) (x : json) : is_str s x = true <-> x = JStr s.
Proof.
  destruct x; simpl; try (split; discriminate).
  rewrite String.eqb_eq. split; intros H; [now subst|now inversion H].
Qed.

Lemma existsb_is_str (s : string) (l : list json) :
  existsb (is_str s) l = true <-> In (JStr s) l.
Proof.
  rewrite existsb_exists. split.
  - intros [x [Hin Hx]]. apply is_str_true in Hx. now subst.
  - intros Hin. exists (JStr s). split; [exact Hin|now apply is_str_true].
Qed.

Lemma dict_set_truthy (k : string) (v : json) (d : dict) :
  truthy (JObj (dict_set k v d)) = true.
Proof. destruct d as [|[k' v'] d]; simpl; [reflexivity|]. now destruct (String.eqb k k'). Qed.

(** Reading the list back after the write-back. *)
Lemma members_put (field section_id : string) (v t : json) :
  members field section_id (store_put ["sections"; section_id; field] v t) = Some v.
Proof.
  unfold members.
  change ["sections"; section_id; field] with (["sections"; section_id] ++ [field]).
  rewrite store_get_put_prefix. cbn [store_put].
  unfold or_empty. rewrite dict_set_truthy.
  unfold dict_get_default. now rewrite dict_get_set_same.
Qed.

(** An absent section record reads as an empty membership list. *)
Lemma members_absent (field section_id : string) (t : json) :
  store_get ["sections"; section_id] t = JNull ->
  members field section_id t = Some (JArr []).
Proof. intros H. unfold members. rewrite H. reflexivity. Qed.

Lemma add_to_section_online (field entity_id section_id : string) (w : world)
      (l : list json) :
  online ->
  members field section_id (db w) = Some (JArr l) ->
  add_to_section field entity_id section_id w =
  Ok tt
     (if existsb (is_str entity_id) l
      then logged (mkRequest GET ["sections"; section_id] JNull) w
      else mkWorld (store_put ["sections"; section_id; field]
                              (JArr (l ++ [JStr entity_id])) (db w))
                   (log w ++ [mkRequest GET ["sections"; section_id] JNull;
                              mkRequest PUT ["sections"; section_id; field]
                                        (JArr (l ++ [JStr entity_id]))])
                   (ticks w) (files w) (stdout w)).
Proof.
  intros Hon Hm. unfold add_to_section.
  unfold bind at 1. rewrite make_request_online by exact Hon.
  cbn [serve snd fst]. unfold members in Hm.
  destruct (or_empty (store_get ["sections"; section_id] (db w))) as [| | | | |d];
    try discriminate.
  inversion Hm as [Hl]. unfold bind at 1. cbn [py_get_list ret]. rewrite Hl.
  cbn [py_in]. destruct (existsb (is_str entity_id) l).
  - reflexivity.
  - unfold bind. rewrite make_request_online by exact Hon.
    unfold ret, with_db, logged. simpl. now rewrite <- app_assoc.
Qed.

(** However the call ends, it either leaves the tree alone or has
    appended the id to a list that did not hold it. *)
Lemma add_to_section_cases (field entity_id section_id : string) (w : world) :
  (exists e w1, add_to_section field entity_id section_id w = Raise e w1
                /\ db w1 = db w)
  \/ (exists w1 m, add_to_section field entity_id section_id w = Ok tt w1
                   /\ db w1 = db w
                   /\ members field section_id (db w) = Some m
                   /\ py_in entity_id m = Some true)
  \/ (exists w1 l, add_to_section field entity_id section_id w = Ok tt w1
                   /\ db w1 = store_put ["sections"; section_id; field]
                                        (JArr (l ++ [JStr entity_id])) (db w)).
Proof.
  remember (add_to_section field entity_id section_id w) as o eqn:Ho.
  unfold add_to_section, bind, make_request at 1 in Ho.
  destruct (net (length (log w)));
    cbn [serve fst snd with_db logged] in Ho;
    try (left; subst o; eexists _, _; split; reflexivity).
  unfold members.
  destruct (or_empty (store_get ["sections"; section_id] (db w))) as [| | | | |d];
    cbn [py_get_list raise ret] in Ho;
    try (left; subst o; eexists _, _; split; reflexivity).
  destruct (py_in entity_id (dict_get_default field (JArr []) d)) as [[|]|] eqn:Hin;
    try (left; subst o; eexists _, _; split; reflexivity).
  - right. left. subst o. eexists _, _.
    split; [reflexivity|]. split; [reflexivity|]. split; [reflexivity|exact Hin].
  - destruct (dict_get_default field (JArr []) d) as [| | | | l |];
      try (left; subst o; eexists _, _; split; reflexivity).
    unfold make_request in Ho. cbn [log] in Ho.
    destruct (net _); cbn [serve fst snd with_db logged] in Ho;
      try (left; subst o; eexists _, _; split; reflexivity).
    right. right. subst o. eexists _, l. split; reflexivity.
Qed.

(** With the id already in the list, nothing is written. *)
Lemma add_to_section_member (field entity_id section_id : string) (w : world)
      (m : json) :
  members field section_id (db w) = Some m ->
  py_in entity_id m = Some true ->
  db (final (add_to_section field entity_id section_id w)) = db w.
Proof.
  intros Hm Hin. unfold add_to_section, bind, make_request at 1.
  destruct (net (length (log w))); cbn [serve fst snd with_db logged];
    try reflexivity.
  unfold members in Hm.
  destruct (or_empty (store_get ["sections"; section_id] (db w))) as [| | | | |d];
    try discriminate.
  inversion Hm as [Hd]. cbn [py_get_list ret]. rewrite Hd, Hin. reflexivity.
Qed.

Lemma add_to_section_twice (field entity_id section_id : string) (w : world) :
  db (final ((add_to_section field entity_id section_id ;;
              add_to_section field entity_id section_id) w))
  = db (final (add_to_section field entity_id section_id w)).
Proof.
  unfold bind.
  destruct (add_to_section_cases field entity_id section_id w)
    as [[e [w1 [E D]]]|[[w1 [m [E [D [Hm Hin]]]]]|[w1 [l [E D]]]]]; rewrite E.
  - reflexivity.
  - simpl. eapply add_to_section_member; [rewrite D; exact Hm|exact Hin].
  - simpl. eapply add_to_section_member.
    + rewrite D. apply members_put.
    + simpl. f_equal. apply existsb_is_str. apply in_or_app. right. now left.
Qed.

Lemma nodup_snoc {A} (x : A) (l : list A) :
  NoDup l -> ~ In x l -> NoDup (l ++ [x]).
Proof.
  intros Hnd Hin. apply (Permutation_NoDup (Permutation_cons_append l x)).
  now constructor.
Qed.

Lemma add_to_section_law (field entity_id section_id : string) (w : world) :
  (store_get ["sections"; section_id] (db w) = JNull ->
   members field section_id (db w) = Some (JArr []))
  /\ (online ->
      forall l, members field section_id (db w) = Some (JArr l) ->
        let l' := if existsb (is_str entity_id) l then l else l ++ [JStr entity_id] in
        exists w',
          add_to_section field entity_id section_id w = Ok tt w'
          /\ members field section_id (db w') = Some (JArr l')
          /\ In (JStr entity_id) l'
          /\ (In (JStr entity_id) l -> l' = l /\ db w' = db w)
          /\ (NoDup l -> NoDup l'))
  /\ db (final ((add_to_section field entity_id section_id ;;
                 add_to_section field entity_id section_id) w))
     = db (final (add_to_section field entity_id section_id w)).
Proof.
  split; [apply members_absent|]. split; [|apply add_to_section_twice].
  intros Hon l Hm l'.
  rewrite (@add_to_section_online field entity_id section_id w l Hon Hm).
  eexists. split; [reflexivity|].
  subst l'. destruct (existsb (is_str entity_id) l) eqn:Ex.
  - apply existsb_is_str in Ex. cbn [db logged]. repeat split; auto.
  - assert (Hnot : ~ In (JStr entity_id) l).
    { intros Hin. apply existsb_is_str in Hin. congruence. }
    cbn [db]. split; [apply members_put|]. split.
    { apply in_or_app. right. now left. }
    split; [intros Hin; contradiction|].
    intros Hnd. now apply nodup_snoc.
Qed.

(** C5. Adding an entity to a section, for students and for teachers:
    an absent section record reads as an empty membership list; when
    the round trips are served the id is appended only if the list does
    not hold it, and the list read back afterwards holds it; with the id
    already present the list and the whole tree stay as they are, so no
    duplicate is introduced. Calling the operation twice leaves the same
    tree as calling it once, however the calls end. *)
Theorem add_to_section_idempotent (field : string) (add : string -> string -> M unit)
        (entity_id section_id : string) (w : world) :
  (field = "students" /\ add = _add_student_to_section)
  \/ (field = "teachers" /\ add = _add_teacher_to_section) ->
  (store_get ["sections"; section_id] (db w) = JNull ->
   members field section_id (db w) = Some (JArr []))
  /\ (online ->
      forall l, members field section_id (db w) = Some (JArr l) ->
        let l' := if existsb (is_str entity_id) l then l else l ++ [JStr entity_id] in
        exists w',
          add entity_id section_id w = Ok tt w'
          /\ members field section_id (db w') = Some (JArr l')
          /\ In (JStr entity_id) l'
          /\ (In (JStr entity_id) l -> l' = l /\ db w' = db w)
          /\ (NoDup l -> NoDup l'))
  /\ db (final ((add entity_id section_id ;; add entity_id section_id) w))
     = db (final (add entity_id section_id w)).
Proof.
  intros [[-> ->]|[-> ->]]; apply add_to_section_law.
Qed.

Section Sends.

Variable P : request -> Prop.

Lemma sends_refl (w : world) : sends P w w.
Proof. exists []. split; [now rewrite app_nil_r|constructor]. Qed.

Lemma sends_trans (w1 w2 w3 : world) : sends P w1 w2 -> sends P w2 w3 -> sends P w1 w3.
Proof.
  intros [n1 [L1 F1]] [n2 [L2 F2]]. exists (n1 ++ n2). split.
  - now rewrite L2, L1, app_assoc.
  - apply Forall_app. now split.
Qed.

Lemma sends_quiet (w w' : world) : log w' = log w -> sends P w w'.
Proof. intros H. exists []. split; [now rewrite app_nil_r|constructor]. Qed.

Lemma sends_make_request (m : method) (p : path) (data : json) :
  P (mkRequest m p data) -> preserves (sends P) (make_request m p data).
Proof.
  intros H w. exists [mkRequest m p data].
  split; [|constructor; [exact H|constructor]].
  unfold make_request. now destruct (net (length (log w))).
Qed.

Lemma sends_sent {A} (w : world) (o : outcome A) :
  sends P w (final o) -> Forall P (sent w o).
Proof.
  intros [news [L F]]. unfold sent. rewrite L.
  now rewrite skipn_app, skipn_all, Nat.sub_diag.
Qed.

End Sends.

Ltac sends_bind :=
  apply preserves_bind; [apply sends_trans | | intros ? ].

Lemma sends_add_to_section (P : request -> Prop) (field entity_id section_id : string) :
  (forall rq, hd_error (r_path rq) = Some "sections" -> P rq) ->
  preserves (sends P) (add_to_section field entity_id section_id).
Proof.
  intros HP. unfold add_to_section.
  sends_bind; [apply sends_make_request; now apply HP|].
  sends_bind.
  { intros w. destruct (or_empty a); simpl; apply sends_refl. }
  destruct (py_in entity_id a0) as [[|]|];
    try (intros w; apply sends_refl).
  destruct a0; try (intros w; apply sends_refl).
  sends_bind; [apply sends_make_request; now apply HP|].
  intros w. apply sends_refl.
Qed.

(** [add_student] posts one student record, with the sections it was
    given or the sentinel, and otherwise touches only [sections]. *)
Lemma sends_add_student (name admission_number : string) (sections : list string)
      (photo_url : string) :
  preserves (sends student_post_ok)
            (add_student name admission_number sections photo_url).
Proof.
  unfold add_student.
  sends_bind; [intros w; now apply sends_quiet|].
  sends_bind; [intros w; now apply sends_quiet|].
  sends_bind.
  { apply sends_make_request. intros _ _. split; [reflexivity|].
    split; [reflexivity|].
    exists (match sections with [] => ["default"] | _ => sections end).
    split; [destruct sections; discriminate|reflexivity]. }
  sends_bind; [|intros w; apply sends_refl].
  apply preserves_for_each; [apply sends_refl|apply sends_trans|].
  intros section_id _. apply sends_add_to_section.
  intros rq Hhd _ Hst. rewrite Hhd in Hst. discriminate.
Qed.

Lemma result_name_post (k : string) : result_name (JObj [("name", JStr k)]) = k.
Proof. reflexivity. Qed.

Lemma members_other_tree (field section_id : string) (p : path) (v t : json) :
  apartb p ["sections"; section_id] = true ->
  members field section_id (store_put p v t) = members field section_id t.
Proof. intros H. unfold members. now rewrite store_get_put_apart. Qed.

(** C10. [add_student] with an empty list of sections stores the record
    with [sections == ["default"]] and makes the new id a member of
    section ["default"] (appended to its [students] list when not there
    yet); and whatever sections it is given, every student record it
    writes carries a non-empty [sections] list. *)
Theorem add_student_default_section (name admission_number photo_url : string)
        (w : world) (l : list json) :
  online ->
  members "students" "default" (db w) = Some (JArr l) ->
  (exists student_id w' r l',
      add_student name admission_number [] photo_url w = Ok student_id w'
      /\ store_get ["students"; student_id] (db w') = JObj r
      /\ dict_get "sections" r = Some (JArr [JStr "default"])
      /\ members "students" "default" (db w') = Some (JArr l')
      /\ In (JStr student_id) l'
      /\ (~ In (JStr student_id) l -> l' = l ++ [JStr student_id]))
  /\ (forall sections w0,
         Forall student_post_ok
                (sent w0 (add_student name admission_number sections photo_url w0))).
Proof.
  intros Hon Hm. split.
  - unfold add_student.
    unfold bind at 1. unfold now_isoformat at 1.
    unfold bind at 1. unfold now_isoformat at 1.
    unfold bind at 1. rewrite make_request_online by exact Hon.
    cbn [serve fst snd]. rewrite result_name_post.
    set (student_id := push_id (tick (tick w))).
    cbn [for_each].
    unfold _add_student_to_section, bind.
    match goal with
    | |- context [add_to_section "students" ?i "default" ?w1] =>
        assert (Hm1 : members "students" "default" (db w1) = Some (JArr l));
        [ cbn [db with_db]; rewrite members_other_tree by reflexivity; exact Hm
        | rewrite (@add_to_section_online "students" i "default" w1 l Hon Hm1) ]
    end.
    cbn [ret].
    destruct (existsb (is_str student_id) l) eqn:Ex;
      (eexists student_id, _, _, _; split; [reflexivity|]);
      cbn [db logged with_db].
    + split; [apply (store_get_put_same ["students"; student_id])|].
      split; [reflexivity|]. split; [exact Hm1|].
      apply existsb_is_str in Ex. split; [exact Ex|]. intros H. contradiction.
    + split.
      { rewrite store_get_put_apart by reflexivity.
        apply (store_get_put_same ["students"; student_id]). }
      split; [reflexivity|]. split; [apply members_put|].
      split; [apply in_or_app; right; now left|reflexivity].
  - intros sections w0. apply sends_sent. apply sends_add_student.
Qed.

(* ===================================================================== *)
(** ** Backup and restore *)
(* ===================================================================== *)

Lemma file_get_set (name content : string) (fs : list (string * string)) :
  file_get name (file_set name content fs) = Some content.
Proof. unfold file_get, file_set. simpl. now rewrite String.eqb_refl. Qed.

Lemma sent_of_log {A} (w : world) (o : outcome A) (news : list request) :
  log (final o) = log w ++ news -> sent w o = news.
Proof.
  intros L. unfold sent. rewrite L.
  now rewrite skipn_app, skipn_all, Nat.sub_diag.
Qed.

Lemma restore_database_online (name : string) (confirm : bool)
      (answer : option string) (w : world) (t : json) :
  online ->
  file_get (filepath name) (files w) = Some (json_dump t) ->
  json_load (json_dump t) = Some t ->
  t <> JNull ->
  confirm = true \/ (exists a, answer = Some a /\ str_lower a = "yes") ->
  restore_database name confirm answer w
  = Ok tt (with_db t (logged (mkRequest PUT [] t) w)).
Proof.
  intros Hon Hf Hl Hn Hc. unfold restore_database. rewrite Hf.
  assert (Hgate : (if confirm then ret true
                   else response <- input answer ;;
                        ret (String.eqb (str_lower response) "yes")) w
                  = Ok true w).
  { destruct Hc as [->|[a [-> Ha]]]; [reflexivity|].
    destruct confirm; [reflexivity|].
    unfold input, bind, ret. now rewrite Ha. }
  unfold bind at 1. rewrite Hgate. cbn [negb]. rewrite Hl.
  assert (Hput : (make_request PUT [] t ;; ret tt) w
                 = Ok tt (with_db t (logged (mkRequest PUT [] t) w))).
  { unfold bind. rewrite make_request_online by exact Hon. reflexivity. }
  destruct t; solve [exact Hput | contradiction].
Qed.

(** The restore of an artifact that holds [null]: the one request is a
    PUT without a value, and the tree is what the store makes of it. *)
Lemma restore_database_null (name : string) (confirm : bool)
      (answer : option string) (content : string) (w : world) :
  file_get (filepath name) (files w) = Some content ->
  json_load content = Some JNull ->
  confirm = true \/ (exists a, answer = Some a /\ str_lower a = "yes") ->
  restore_database name confirm answer w
  = match net (length (log w)) with
    | Delivered =>
        Ok tt (with_db (if empty_put_clears then JNull else db w)
                       (logged (mkRequest PUT [] JNull) w))
    | _ => Raise (SystemExit 1) (logged (mkRequest PUT [] JNull) w)
    end.
Proof.
  intros Hf Hl Hc. unfold restore_database. rewrite Hf.
  assert (Hgate : (if confirm then ret true
                   else response <- input answer ;;
                        ret (String.eqb (str_lower response) "yes")) w
                  = Ok true w).
  { destruct Hc as [->|[a [-> Ha]]]; [reflexivity|].
    destruct confirm; [reflexivity|].
    unfold input, bind, ret. now rewrite Ha. }
  unfold bind at 1. rewrite Hgate. cbn [negb]. rewrite Hl.
  unfold bind, put_without_value.
  destruct (net (length (log w))); reflexivity.
Qed.

(** X26. A backup of a store that holds something, followed by a restore
    of its artifact, writes back the tree that was backed up: the backup
    reads the root and leaves the tree alone; the restore, once
    confirmed, reads the artifact and writes its content at the root,
    over whatever the tree is by then. [json.load] is taken to give back
    the tree [json.dump] wrote. *)
Theorem backup_then_restore_nonempty (filename : option string) (confirm : bool)
        (answer : option string) (w : world) :
  online ->
  db w <> JNull ->
  json_load (json_dump (db w)) = Some (db w) ->
  confirm = true \/ (exists a, answer = Some a /\ str_lower a = "yes") ->
  exists name w1,
    backup_database filename w = Ok (filepath name) w1
    /\ db w1 = db w
    /\ file_get (filepath name) (files w1) = Some (json_dump (db w))
    /\ forall w2,
        file_get (filepath name) (files w2) = Some (json_dump (db w)) ->
        exists w3, restore_database name confirm answer w2 = Ok tt w3
                   /\ db w3 = db w
                   /\ sent w2 (restore_database name confirm answer w2)
                      = [mkRequest PUT [] (db w)].
Proof.
  intros Hon Hne Hl Hc.
  assert (Hrestore : forall name w2,
             file_get (filepath name) (files w2) = Some (json_dump (db w)) ->
             exists w3, restore_database name confirm answer w2 = Ok tt w3
                        /\ db w3 = db w
                        /\ sent w2 (restore_database name confirm answer w2)
                           = [mkRequest PUT [] (db w)]).
  { intros name w2 Hf.
    rewrite (@restore_database_online name confirm answer w2 (db w)) by assumption.
    eexists. split; [reflexivity|]. split; [reflexivity|].
    unfold sent. cbn [final log with_db logged].
    rewrite skipn_app, skipn_all, Nat.sub_diag. reflexivity. }
  unfold backup_database, bind. rewrite make_request_online by exact Hon.
  cbn [serve fst snd].
  destruct filename as [f|]; [destruct (String.eqb f "") eqn:Ef|].
  - eexists _, _. split; [reflexivity|]. cbn [db files write_file with_db logged tick].
    split; [reflexivity|]. split; [apply file_get_set|apply Hrestore].
  - eexists f, _. split; [reflexivity|]. cbn [db files write_file with_db logged].
    split; [reflexivity|]. split; [apply file_get_set|apply Hrestore].
  - eexists _, _. split; [reflexivity|]. cbn [db files write_file with_db logged tick].
    split; [reflexivity|]. split; [apply file_get_set|apply Hrestore].
Qed.

(** C9. The round trip does not hold for the empty store. The backup of
    a store that holds nothing writes the dump of [None]; [json.load]
    gives [None] back, taken here from [json.dump]'s output, and the
    restore hands it to [requests.put] as [json=None]: the one request
    of the restore is a PUT without a value, over whatever the tree is
    by then. If the store does not serve it the run ends with
    [sys.exit(1)] and the tree stays as it was; if the store serves it
    the run returns, and the tree is empty only if the store takes the
    missing value for [null], and stays as it was otherwise. *)
Theorem restore_of_empty_backup (filename : option string) (confirm : bool)
        (answer : option string) (w : world) :
  db w = JNull ->
  net (length (log w)) = Delivered ->
  json_load (json_dump JNull) = Some JNull ->
  confirm = true \/ (exists a, answer = Some a /\ str_lower a = "yes") ->
  let name := backup_name filename w in
  exists w1,
    backup_database filename w = Ok (filepath name) w1
    /\ file_get (filepath name) (files w1) = Some (json_dump JNull)
    /\ forall w2,
        file_get (filepath name) (files w2) = Some (json_dump JNull) ->
        let o := restore_database name confirm answer w2 in
        sent w2 o = [mkRequest PUT [] JNull]
        /\ (net (length (log w2)) <> Delivered ->
            o = Raise (SystemExit 1) (final o) /\ db (final o) = db w2)
        /\ (net (length (log w2)) = Delivered ->
            o = Ok tt (final o)
            /\ db (final o) = if empty_put_clears then JNull else db w2).
Proof.
  intros Hdb Hnet Hl Hc bname.
  assert (Hrestore : forall name w2,
             file_get (filepath name) (files w2) = Some (json_dump JNull) ->
             let o := restore_database name confirm answer w2 in
             sent w2 o = [mkRequest PUT [] JNull]
             /\ (net (length (log w2)) <> Delivered ->
                 o = Raise (SystemExit 1) (final o) /\ db (final o) = db w2)
             /\ (net (length (log w2)) = Delivered ->
                 o = Ok tt (final o)
                 /\ db (final o) = if empty_put_clears then JNull else db w2)).
  { intros name w2 Hf o.
    assert (E : o = match net (length (log w2)) with
                    | Delivered =>
                        Ok tt (with_db (if empty_put_clears then JNull else db w2)
                                       (logged (mkRequest PUT [] JNull) w2))
                    | _ => Raise (SystemExit 1) (logged (mkRequest PUT [] JNull) w2)
                    end)
      by (apply (@restore_database_null name confirm answer _ w2 Hf Hl Hc)).
    rewrite E. destruct (net (length (log w2))).
    - split; [now apply sent_of_log|]. split; [intros H; now destruct H|].
      intros _. split; reflexivity.
    - split; [now apply sent_of_log|]. split; [|discriminate].
      intros _. split; reflexivity.
    - split; [now apply sent_of_log|]. split; [|discriminate].
      intros _. split; reflexivity. }
  unfold bname, backup_name, backup_database, bind, make_request. rewrite Hnet.
  cbn [serve fst snd store_get]. rewrite Hdb.
  destruct filename as [f|]; [destruct (String.eqb f "") eqn:Ef|];
    (eexists; split; [reflexivity|];
     cbn [db files write_file with_db logged tick];
     split; [apply file_get_set|apply Hrestore]).
Qed.

(* ===================================================================== *)
(** ** Bulk import *)
(* ===================================================================== *)

Lemma row_students_app (rows1 rows2 : list csv_row) :
  row_students (rows1 ++ rows2) = row_students rows1 ++ row_students rows2.
Proof. unfold row_students. apply flat_map_app. Qed.

(** The loop over the rows returns, whatever the rows are, keeps the
    students of the rows that parse, and prints one line for each row it
    leaves out. *)
Lemma read_rows_value (rows : list csv_row) :
  forall row_num students w,
    exists w', read_rows row_num rows students w
               = Ok (students ++ row_students rows) w'
               /\ db w' = db w /\ log w' = log w
               /\ length (stdout w') + length (row_students rows)
                  = length (stdout w) + length rows.
Proof.
  induction rows as [|row rows IH]; intros row_num students w.
  - exists w. simpl. unfold ret. rewrite app_nil_r. repeat split; lia.
  - cbn [read_rows]. unfold row_students. cbn [flat_map].
    fold (row_students rows).
    destruct (parse_row row) as [c| |a|].
    + destruct (IH (S row_num) (students ++ [c]) w) as [w' [E [D [L S]]]].
      exists w'. rewrite E. rewrite <- app_assoc.
      repeat split; auto. simpl. lia.
    + unfold bind, print.
      match goal with |- context [read_rows _ rows students ?w1] =>
        destruct (IH (S row_num) students w1) as [w' [E [D [L S]]]] end.
      exists w'. rewrite E. repeat split; auto.
      simpl in S. rewrite length_app in S. simpl in *. lia.
    + unfold bind, print.
      match goal with |- context [read_rows _ rows students ?w1] =>
        destruct (IH (S row_num) students w1) as [w' [E [D [L S]]]] end.
      exists w'. rewrite E. repeat split; auto.
      simpl in S. rewrite length_app in S. simpl in *. lia.
    + unfold bind, print.
      match goal with |- context [read_rows _ rows students ?w1] =>
        destruct (IH (S row_num) students w1) as [w' [E [D [L S]]]] end.
      exists w'. rewrite E. repeat split; auto.
      simpl in S. rewrite length_app in S. simpl in *. lia.
Qed.

(** A row whose admission number [int] rejects is not a student. *)
Lemma parse_row_non_numeric (row : csv_row) (a : string) :
  cell "A.NO." row = Some a -> py_int a = None ->
  forall c, parse_row row <> RowStudent c.
Proof.
  intros Ha Hint c. unfold parse_row. rewrite Ha.
  destruct (cell "S.NO" row); [|discriminate].
  destruct (cell "Name" row); [|discriminate].
  destruct (negb _); [discriminate|]. rewrite Hint. discriminate.
Qed.

(** A row with its three cells filled and a numeric admission number is
    a student. *)
Lemma parse_row_well_formed (row : csv_row) (sn a nm : string) (n : Z) :
  cell "S.NO" row = Some sn -> cell "A.NO." row = Some a ->
  cell "Name" row = Some nm ->
  sn <> "" -> a <> "" -> nm <> "" -> py_int a = Some n ->
  parse_row row = RowStudent (mkCandidate n (str_title nm) a []).
Proof.
  intros H1 H2 H3 N1 N2 N3 Hint. unfold parse_row. rewrite H1, H2, H3.
  unfold nonempty.
  apply String.eqb_neq in N1, N2, N3. rewrite N1, N2, N3. simpl.
  now rewrite Hint.
Qed.

(** C7. A row with a non-numeric admission number is left out of what
    [read_csv_file] returns, and the rows before and after it are
    processed as if it were not there: every later row with its three
    cells filled and a numeric admission number is among the students
    returned. One line is printed for each row left out. *)
Theorem read_csv_skips_non_numeric (pre post : list csv_row) (bad : csv_row)
        (a : string) (w : world) :
  cell "A.NO." bad = Some a ->
  py_int a = None ->
  exists w',
    read_csv_file (Some (pre ++ bad :: post)) w
    = Ok (row_students pre ++ row_students post) w'
    /\ row_students [bad] = []
    /\ length (stdout w') + length (row_students pre ++ row_students post)
       = length (stdout w) + length (pre ++ bad :: post)
    /\ (forall good sn a' nm n,
           In good post ->
           cell "S.NO" good = Some sn -> cell "A.NO." good = Some a' ->
           cell "Name" good = Some nm ->
           sn <> "" -> a' <> "" -> nm <> "" -> py_int a' = Some n ->
           In (mkCandidate n (str_title nm) a' [])
              (row_students pre ++ row_students post)).
Proof.
  intros Ha Hint.
  assert (Hbad : row_students [bad] = []).
  { unfold row_students. simpl.
    destruct (parse_row bad) eqn:E; try reflexivity.
    exfalso. eapply parse_row_non_numeric; eauto. }
  assert (Hall : row_students (pre ++ bad :: post)
                 = row_students pre ++ row_students post).
  { change (bad :: post) with ([bad] ++ post).
    now rewrite !row_students_app, Hbad. }
  destruct (read_rows_value (pre ++ bad :: post) 1 [] w) as [w' [E [_ [_ S]]]].
  rewrite Hall in E, S.
  exists w'. split; [|split; [exact Hbad|split; [exact S|]]].
  - unfold read_csv_file. exact E.
  - intros good sn a' nm n Hin H1 H2 H3 N1 N2 N3 Hn.
    apply in_or_app. right. unfold row_students. apply in_flat_map.
    exists good. split; [exact Hin|].
    rewrite (parse_row_well_formed good H1 H2 H3 N1 N2 N3 Hn). now left.
Qed.

Lemma returns_try {A} (m : M A) (h : exn -> M A) (w : world)
      (Q : A -> world -> Prop) :
  returns m w Q -> returns (try_except m h) w Q.
Proof.
  intros [a [w' [E H]]]. exists a, w'. split; [|exact H].
  unfold try_except. now rewrite E.
Qed.


Lemma requests_send_online (m : method) (p : path) (data : json) (w : world) :
  online ->
  requests_send m p data w =
  Ok (mkResponse 200 (snd (serve m p data w)))
     (with_db (fst (serve m p data w)) (logged (mkRequest m p data) w)).
Proof. intros H. unfold requests_send. now rewrite H. Qed.

Lemma existing_admissions_value (values : list json) :
  forallb admission_hashable values = true ->
  forall acc w, existing_admissions values acc w = Ok (admission_set values acc) w.
Proof.
  induction values as [|v values IH]; intros H acc w; simpl; [reflexivity|].
  simpl in H. apply andb_true_iff in H. destruct H as [Hv Hrest].
  destruct v as [| | | | |d]; try now apply IH.
  simpl in Hv. destruct (dict_get "admission_number" d); [|now apply IH].
  rewrite Hv. now apply IH.
Qed.

(** Printing adds lines and leaves every earlier line in place. *)
Lemma for_each_conflict_lines (cs : list candidate) (w : world) :
  exists w', for_each cs (fun c => print (conflict_line c)) w = Ok tt w'
             /\ db w' = db w /\ log w' = log w
             /\ forall line, In line (stdout w) -> In line (stdout w').
Proof.
  revert w. induction cs as [|c cs IH]; intros w; simpl.
  - exists w. repeat split; auto.
  - unfold bind. simpl.
    match goal with |- context [for_each cs _ ?w1] =>
      destruct (IH w1) as [w' [E [D [L S]]]] end.
    exists w'. rewrite E. repeat split; auto.
    intros line Hin. apply S. simpl. apply in_or_app. now left.
Qed.

(** Membership in a list built by appending. *)
Ltac in_app_solve H :=
  first [ exact H
        | left; exact H
        | apply in_or_app; first [ left; in_app_solve H | right; in_app_solve H ]
        | right; in_app_solve H ].

Lemma for_each_conflict_run (cs : list candidate) (w : world) :
  for_each cs (fun c => print (conflict_line c)) w
  = Ok tt (mkWorld (db w) (log w) (ticks w) (files w)
                   (stdout w ++ map conflict_line cs)).
Proof.
  revert w. induction cs as [|c cs IH]; intros w; cbn [for_each map].
  - unfold ret. rewrite app_nil_r. now rewrite world_eta.
  - unfold bind. cbn [print]. rewrite IH. cbn [db log ticks files stdout].
    now rewrite <- app_assoc.
Qed.

(** The conflict check when the read is served and the existing
    collection is a dict of records: the batch is split by [collides];
    with conflicts the report is printed, and the answer at the prompt
    decides between the new records and nothing; when the prompt cannot
    be read the whole batch comes back. *)
Lemma check_existing_online (students : list candidate) (choice : option string)
      (w : world) (d : dict) :
  online ->
  store_get ["students"] (db w) = JObj d ->
  d <> [] ->
  forallb admission_hashable (map snd d) = true ->
  let ids := map fst d in
  let adm := admission_set (map snd d) [] in
  let conflicts := filter (collides ids adm) students in
  let new_students := filter (fun c => negb (collides ids adm c)) students in
  returns (check_existing_students students choice) w
          (fun res w' =>
             res = match conflicts with
                   | [] => new_students
                   | _ => match choice with
                          | Some typed => if String.eqb (str_lower typed) "y"
                                          then new_students else []
                          | None => students
                          end
                   end
             /\ db w' = db w
             /\ log w' = log w ++ [mkRequest GET ["students"] JNull]
             /\ (conflicts <> [] ->
                 In (conflicts_header conflicts) (stdout w')
                 /\ forall c, In c (firstn 5 conflicts) ->
                              In (conflict_line c) (stdout w'))).
Proof.
  intros Hon Hd Hne Hh ids adm conflicts new_students.
  unfold returns, check_existing_students, try_except.
  unfold bind at 1. rewrite requests_send_online by exact Hon.
  cbn [status_code response_json serve fst snd Z.eqb Pos.eqb negb].
  rewrite Hd.
  assert (Ht : truthy (JObj d) = true) by (destruct d; [contradiction|reflexivity]).
  rewrite Ht. cbn [negb].
  unfold bind at 1. rewrite existing_admissions_value by exact Hh.
  fold ids. fold adm. fold conflicts. fold new_students.
  destruct conflicts as [|c0 cs] eqn:Ec.
  - eexists _, _. split; [reflexivity|]. repeat split; auto; contradiction.
  - rewrite <- Ec. clear Ec.
    unfold bind at 1. cbn [print].
    unfold bind at 1. rewrite for_each_conflict_run.
    cbn [db log ticks files stdout with_db logged].
    unfold bind at 1.
    destruct (Nat.ltb 5 (length conflicts)); cbn [print ret];
      unfold bind at 1; destruct choice as [typed|]; cbn [input ret raise];
      try (destruct (String.eqb (str_lower typed) "y"); cbn [negb];
           unfold bind; cbn [print ret]);
      (eexists _, _; split; [reflexivity|]; cbn [db log stdout];
       split; [reflexivity|]; split; [reflexivity|]; split; [reflexivity|];
       intros _; split;
       [ in_app_solve (eq_refl (conflicts_header conflicts))
       | intros c Hin;
         in_app_solve (in_map conflict_line (firstn 5 conflicts) c Hin) ]).
Qed.

Lemma batches_concat {A} (fuel batch_size : nat) (l : list A) :
  length l <= fuel -> 0 < batch_size ->
  concat (batches fuel batch_size l) = l.
Proof.
  revert l. induction fuel as [|fuel IH]; intros l Hlen Hpos.
  - destruct l; [reflexivity|simpl in Hlen; lia].
  - destruct l as [|x l]; [reflexivity|].
    cbn [batches concat]. rewrite IH; [apply firstn_skipn| |exact Hpos].
    rewrite length_skipn. cbn [length] in *. lia.
Qed.








(* ===================================================================== *)
(** ** Removal of a record *)
(* ===================================================================== *)

Lemma store_get_del_same (p : path) (t : json) :
  p <> [] -> store_get p (store_del p t) = JNull.
Proof.
  revert t. induction p as [|k p IH]; intros t Hp; [contradiction|].
  destruct p as [|k' p].
  - simpl. unfold child, dict_get_default. simpl. now rewrite dict_get_del_same.
  - cbn [store_del]. destruct (dict_mem k (node_items t)) eqn:E.
    + change (store_get (k :: k' :: p) ?x) with (store_get (k' :: p) (child k x)).
      rewrite child_put_same. apply IH. discriminate.
    + change (store_get (k :: k' :: p) t) with (store_get (k' :: p) (child k t)).
      unfold dict_mem in E. unfold child, dict_get_default.
      destruct (dict_get k (node_items t)); [discriminate|].
      apply store_get_null.
Qed.

Lemma frame_remove_entity (pk : path) (collection entity_id : string) :
  apartb [collection; entity_id] pk = true ->
  preserves (frame pk) (remove_entity collection entity_id).
Proof.
  intros H. unfold remove_entity.
  frame_bind; [now apply frame_make_request|].
  destruct (negb (truthy a)); [frame_done|].
  frame_bind.
  { apply frame_make_request. unfold harmless, is_write.
    cbn [r_method r_path negb orb]. exact H. }
  destruct a; try frame_done; apply preserves_raise; apply frame_refl.
Qed.

Lemma remove_entity_absent (collection entity_id : string) (w : world) :
  truthy (store_get [collection; entity_id] (db w)) = false ->
  sent w (remove_entity collection entity_id w)
  = [mkRequest GET [collection; entity_id] JNull]
  /\ db (final (remove_entity collection entity_id w)) = db w.
Proof.
  intros H. unfold remove_entity, bind, make_request.
  destruct (net (length (log w))); cbn [serve fst snd];
    try (split; [now apply sent_of_log|reflexivity]).
  rewrite H. cbn [negb ret]. split; [now apply sent_of_log|reflexivity].
Qed.

Lemma remove_entity_present (collection entity_id : string) (w : world) :
  online ->
  truthy (store_get [collection; entity_id] (db w)) = true ->
  let o := remove_entity collection entity_id w in
  sent w o = [mkRequest GET [collection; entity_id] JNull;
              mkRequest DELETE [collection; entity_id] JNull]
  /\ db (final o) = store_del [collection; entity_id] (db w)
  /\ (is_dict (store_get [collection; entity_id] (db w)) = true -> value o = Some tt).
Proof.
  intros Hon H o. unfold o, remove_entity, bind.
  rewrite make_request_online by exact Hon. cbn [serve fst snd].
  rewrite H. cbn [negb]. rewrite make_request_online by exact Hon.
  cbn [serve fst snd].
  destruct (store_get [collection; entity_id] (db w)); unfold ret, raise;
    (split; [apply sent_of_log; cbn [final log logged with_db];
             now rewrite <- app_assoc|]);
    (split; [reflexivity|]); cbn [is_dict value]; intros; congruence.
Qed.

(** Removing a record deletes the node under its key and nothing else. *)
Lemma remove_entity_law (collection entity_id : string) (w : world) :
  let o := remove_entity collection entity_id w in
  let record := store_get [collection; entity_id] (db w) in
  (forall pk, apartb [collection; entity_id] pk = true ->
              store_get pk (db (final o)) = store_get pk (db w))
  /\ (truthy record = false ->
      sent w o = [mkRequest GET [collection; entity_id] JNull]
      /\ db (final o) = db w)
  /\ (online -> truthy record = true ->
      sent w o = [mkRequest GET [collection; entity_id] JNull;
                  mkRequest DELETE [collection; entity_id] JNull]
      /\ store_get [collection; entity_id] (db (final o)) = JNull
      /\ (is_dict record = true -> value o = Some tt)).
Proof.
  intros o record. split; [|split].
  - intros pk H. now destruct (frame_remove_entity pk collection entity_id H w).
  - now apply remove_entity_absent.
  - intros Hon H.
    destruct (remove_entity_present collection entity_id w Hon H) as [S [D V]].
    split; [exact S|]. split; [|exact V].
    unfold o. rewrite D. apply store_get_del_same. discriminate.
Qed.

(** X1. [remove_student] deletes the student record and nothing else.
    When no record is stored under the id, the run sends the one read
    and changes nothing. When there is one and the store serves the
    run, the record is gone afterwards. However the run goes, every
    other student record and every section record are as before: the
    removed id stays in the [students] lists that name it. *)
Theorem remove_student_law (student_id : string) (w : world) :
  let o := remove_student student_id w in
  let record := store_get ["students"; student_id] (db w) in
  (forall k, k <> student_id ->
             store_get ["students"; k] (db (final o)) = store_get ["students"; k] (db w))
  /\ (forall section_id,
         store_get ["sections"; section_id] (db (final o))
         = store_get ["sections"; section_id] (db w))
  /\ (truthy record = false ->
      sent w o = [mkRequest GET ["students"; student_id] JNull]
      /\ db (final o) = db w)
  /\ (online -> truthy record = true ->
      sent w o = [mkRequest GET ["students"; student_id] JNull;
                  mkRequest DELETE ["students"; student_id] JNull]
      /\ store_get ["students"; student_id] (db (final o)) = JNull
      /\ (is_dict record = true -> value o = Some tt)).
Proof.
  intros o record.
  destruct (remove_entity_law "students" student_id w) as [F [A P]].
  split; [|split; [|split]].
  - intros k Hk. apply F. simpl. apply String.eqb_neq in Hk.
    rewrite String.eqb_sym. now rewrite Hk.
  - intros section_id. now apply F.
  - exact A.
  - exact P.
Qed.

(** X2. [remove_teacher] deletes the teacher record and nothing else:
    no DELETE when no record is stored under the id; the record is gone
    after a served run; and every section record is as before, so the
    removed id stays in the [teachers] lists that name it. *)
Theorem remove_teacher_law (teacher_id : string) (w : world) :
  let o := remove_teacher teacher_id w in
  let record := store_get ["teachers"; teacher_id] (db w) in
  (forall k, k <> teacher_id ->
             store_get ["teachers"; k] (db (final o)) = store_get ["teachers"; k] (db w))
  /\ (forall section_id,
         store_get ["sections"; section_id] (db (final o))
         = store_get ["sections"; section_id] (db w))
  /\ (truthy record = false ->
      sent w o = [mkRequest GET ["teachers"; teacher_id] JNull]
      /\ db (final o) = db w)
  /\ (online -> truthy record = true ->
      sent w o = [mkRequest GET ["teachers"; teacher_id] JNull;
                  mkRequest DELETE ["teachers"; teacher_id] JNull]
      /\ store_get ["teachers"; teacher_id] (db (final o)) = JNull
      /\ (is_dict record = true -> value o = Some tt)).
Proof.
  intros o record.
  destruct (remove_entity_law "teachers" teacher_id w) as [F [A P]].
  split; [|split; [|split]].
  - intros k Hk. apply F. simpl. apply String.eqb_neq in Hk.
    rewrite String.eqb_sym. now rewrite Hk.
  - intros section_id. now apply F.
  - exact A.
  - exact P.
Qed.

(* ===================================================================== *)
(** ** Registration in several sections *)
(* ===================================================================== *)

Lemma apartb_head (a : string) (rest pk : path) :
  apartb [a] pk = true -> apartb (a :: rest) pk = true.
Proof.
  destruct pk as [|b q]; simpl; [discriminate|].
  destruct (String.eqb a b); [discriminate|reflexivity].
Qed.

(** One step of index maintenance on a section whose membership list is
    a list: other parts of the tree are untouched, every membership list
    keeps its members, and the section's list now has the id. *)
Lemma add_to_section_grows (field entity_id section_id : string) (w : world)
      (l : list json) :
  online ->
  members field section_id (db w) = Some (JArr l) ->
  exists w',
    add_to_section field entity_id section_id w = Ok tt w'
    /\ (forall pk, apartb ["sections"] pk = true ->
                   store_get pk (db w') = store_get pk (db w))
    /\ (forall s0 l0, members field s0 (db w) = Some (JArr l0) ->
          exists l0', members field s0 (db w') = Some (JArr l0')
                      /\ (forall x, In x l0 -> In x l0')
                      /\ (s0 = section_id -> In (JStr entity_id) l0')).
Proof.
  intros Hon Hm.
  rewrite (@add_to_section_online field entity_id section_id w l Hon Hm).
  destruct (existsb (is_str entity_id) l) eqn:Ex; eexists; (split; [reflexivity|]).
  - split; [reflexivity|]. intros s0 l0 H0. exists l0. cbn [db logged].
    split; [exact H0|]. split; [auto|].
    intros ->. rewrite Hm in H0. inversion H0; subst.
    now apply existsb_is_str.
  - cbn [db]. split.
    { intros pk Hpk. apply store_get_put_apart. now apply apartb_head. }
    intros s0 l0 H0. destruct (String.eqb section_id s0) eqn:Es.
    + apply String.eqb_eq in Es. subst s0. rewrite Hm in H0. inversion H0; subst.
      exists (l0 ++ [JStr entity_id]). split; [apply members_put|].
      split; [intros x Hx; apply in_or_app; now left|].
      intros _. apply in_or_app. right. now left.
    + exists l0. split.
      { rewrite members_other_tree; [exact H0|]. simpl. now rewrite Es. }
      split; [auto|]. intros ->. rewrite String.eqb_refl in Es. discriminate.
Qed.

Lemma add_to_sections_online (field entity_id : string) (sections : list string) :
  online ->
  forall w,
    (forall s, In s sections -> exists l, members field s (db w) = Some (JArr l)) ->
    exists w',
      for_each sections (fun s => add_to_section field entity_id s) w = Ok tt w'
      /\ (forall pk, apartb ["sections"] pk = true ->
                     store_get pk (db w') = store_get pk (db w))
      /\ (forall s0 l0, members field s0 (db w) = Some (JArr l0) ->
            exists l0', members field s0 (db w') = Some (JArr l0')
                        /\ (forall x, In x l0 -> In x l0')
                        /\ (In s0 sections -> In (JStr entity_id) l0')).
Proof.
  intros Hon. induction sections as [|s sections IH]; intros w Hsh.
  - exists w. split; [reflexivity|]. split; [reflexivity|].
    intros s0 l0 H0. exists l0. split; [exact H0|]. split; [auto|]. intros [].
  - destruct (Hsh s (or_introl eq_refl)) as [l Hl].
    destruct (add_to_section_grows field entity_id s w Hon Hl) as [w1 [E1 [F1 G1]]].
    assert (Hsh1 : forall s', In s' sections ->
                     exists l', members field s' (db w1) = Some (JArr l')).
    { intros s' Hs'. destruct (Hsh s' (or_intror Hs')) as [l' Hl'].
      destruct (G1 s' l' Hl') as [l1 [M1 _]]. now exists l1. }
    destruct (IH w1 Hsh1) as [w2 [E2 [F2 G2]]].
    exists w2. split; [|split].
    + cbn [for_each]. unfold bind. now rewrite E1.
    + intros pk Hpk. now rewrite F2, F1.
    + intros s0 l0 H0. destruct (G1 s0 l0 H0) as [l1 [M1 [I1 J1]]].
      destruct (G2 s0 l1 M1) as [l2 [M2 [I2 J2]]].
      exists l2. split; [exact M2|]. split; [auto|].
      intros [->|Hin]; [apply I2; now apply J1|now apply J2].
Qed.

(** X3. [add_student] keeps the membership index of every section it is
    given: when the store serves the run and the [students] entry of
    each of these sections is a list (or absent), the record is stored
    under the generated key with the listed sections, and the key is in
    the [students] list of each of them afterwards; no membership list
    loses a member. *)
Theorem add_student_registers (name admission_number : string)
        (sections : list string) (photo_url : string) (w : world) :
  online ->
  (forall s, In s (sections_or_default sections) ->
             exists l, members "students" s (db w) = Some (JArr l)) ->
  exists student_id w',
    add_student name admission_number sections photo_url w = Ok student_id w'
    /\ store_get ["students"; student_id] (db w')
       = JObj [("name", JStr name);
               ("admissionNumber", JStr admission_number);
               ("sections", JArr (map JStr (sections_or_default sections)));
               ("photoUrl", JStr photo_url);
               ("createdAt", JStr (isoformat (ticks w)));
               ("updatedAt", JStr (isoformat (S (ticks w))))]
    /\ (forall s, In s (sections_or_default sections) ->
          exists l', members "students" s (db w') = Some (JArr l')
                     /\ In (JStr student_id) l')
    /\ (forall s l, members "students" s (db w) = Some (JArr l) ->
          exists l', members "students" s (db w') = Some (JArr l')
                     /\ forall x, In x l -> In x l').
Proof.
  intros Hon Hsh. unfold add_student.
  change (match sections with [] => ["default"] | _ => sections end)
    with (sections_or_default sections).
  unfold bind at 1. unfold now_isoformat at 1.
  unfold bind at 1. unfold now_isoformat at 1.
  unfold bind at 1. rewrite make_request_online by exact Hon.
  cbn [serve fst snd tick ticks]. rewrite result_name_post.
  set (student_id := push_id (tick (tick w))).
  unfold _add_student_to_section.
  match goal with
  | |- context [bind (for_each _ _) _ ?w1] =>
      assert (Hm1 : forall s l, members "students" s (db w) = Some (JArr l) ->
                      members "students" s (db w1) = Some (JArr l));
      [ intros s l Hl; cbn [db with_db];
        rewrite members_other_tree by reflexivity; exact Hl
      | destruct (@add_to_sections_online "students" student_id
                    (sections_or_default sections) Hon w1) as [w2 [E2 [F2 G2]]] ]
  end.
  { intros s Hs. destruct (Hsh s Hs) as [l Hl]. exists l. now apply Hm1. }
  unfold bind. rewrite E2. cbn [ret].
  exists student_id, w2. split; [reflexivity|]. split; [|split].
  - rewrite F2 by reflexivity. cbn [db with_db].
    apply (store_get_put_same ["students"; student_id]).
  - intros s Hs. destruct (Hsh s Hs) as [l Hl].
    destruct (G2 s l (Hm1 s l Hl)) as [l' [M [_ J]]].
    exists l'. split; [exact M|now apply J].
  - intros s l Hl. destruct (G2 s l (Hm1 s l Hl)) as [l' [M [I _]]].
    exists l'. now split.
Qed.

(** X4. [add_teacher] keeps the membership index of every assigned
    section: when the store serves the run and the [teachers] entry of
    each assigned section is a list (or absent), the record is stored
    under the generated key with its [assignedSections], and the key is
    in the [teachers] list of each of them afterwards; with no assigned
    section no section is written. *)
Theorem add_teacher_registers (email name : string) (assigned_sections : list string)
        (w : world) :
  online ->
  (forall s, In s assigned_sections ->
             exists l, members "teachers" s (db w) = Some (JArr l)) ->
  exists teacher_id w',
    add_teacher email name assigned_sections w = Ok teacher_id w'
    /\ store_get ["teachers"; teacher_id] (db w')
       = JObj [("email", JStr email);
               ("name", JStr name);
               ("assignedSections", JArr (map JStr assigned_sections));
               ("createdAt", JStr (isoformat (ticks w)));
               ("updatedAt", JStr (isoformat (S (ticks w))))]
    /\ (forall s, In s assigned_sections ->
          exists l', members "teachers" s (db w') = Some (JArr l')
                     /\ In (JStr teacher_id) l')
    /\ (assigned_sections = [] ->
        store_get ["sections"] (db w') = store_get ["sections"] (db w)).
Proof.
  intros Hon Hsh. unfold add_teacher.
  unfold bind at 1. unfold now_isoformat at 1.
  unfold bind at 1. unfold now_isoformat at 1.
  unfold bind at 1. rewrite make_request_online by exact Hon.
  cbn [serve fst snd tick ticks]. rewrite result_name_post.
  set (teacher_id := push_id (tick (tick w))).
  unfold _add_teacher_to_section.
  match goal with
  | |- context [bind (for_each _ _) _ ?w1] =>
      assert (Hm1 : forall s l, members "teachers" s (db w) = Some (JArr l) ->
                      members "teachers" s (db w1) = Some (JArr l));
      [ intros s l Hl; cbn [db with_db];
        rewrite members_other_tree by reflexivity; exact Hl
      | destruct (@add_to_sections_online "teachers" teacher_id
                    assigned_sections Hon w1) as [w2 [E2 [F2 G2]]] ]
  end.
  { intros s Hs. destruct (Hsh s Hs) as [l Hl]. exists l. now apply Hm1. }
  unfold bind. rewrite E2. cbn [ret].
  exists teacher_id, w2. split; [reflexivity|]. split; [|split].
  - rewrite F2 by reflexivity. cbn [db with_db].
    apply (store_get_put_same ["teachers"; teacher_id]).
  - intros s Hs. destruct (Hsh s Hs) as [l Hl].
    destruct (G2 s l (Hm1 s l Hl)) as [l' [M [_ J]]].
    exists l'. split; [exact M|now apply J].
  - intros ->. apply (f_equal (fun o => db (final o))) in E2.
    cbn [for_each] in E2. unfold ret in E2. cbn [final db with_db] in E2.
    rewrite <- E2. apply store_get_put_apart. reflexivity.
Qed.

(* ===================================================================== *)
(** ** What restore and the validator never do *)
(* ===================================================================== *)

(** X5. [restore_database] is gated and all-or-nothing. Without the
    backup file it ends with [sys.exit(1)] at once. When the caller did
    not confirm and the operator answers anything but yes, or the
    prompt cannot be read, nothing is sent and the tree is as before. In
    every run the tree afterwards is either the tree before, or the
    decoded content of the backup file, put by the single root write of
    the run. *)
Theorem restore_database_gate (filename : string) (confirm : bool)
        (answer : option string) (w : world) :
  let o := restore_database filename confirm answer w in
  (file_get (filepath filename) (files w) = None -> o = Raise (SystemExit 1) w)
  /\ (confirm = false -> (forall a, answer = Some a -> str_lower a <> "yes") ->
      sent w o = [] /\ db (final o) = db w)
  /\ (db (final o) = db w
      \/ exists content,
           file_get (filepath filename) (files w) = Some content
           /\ json_load content = Some (db (final o))
           /\ sent w o = [mkRequest PUT [] (db (final o))]).
Proof.
  intros o. unfold o, restore_database. split; [|split].
  - intros ->. reflexivity.
  - intros -> Hno.
    destruct (file_get (filepath filename) (files w));
      [|split; [apply sent_of_log; cbn [final log]; now rewrite app_nil_r
               |reflexivity]].
    match goal with
    | |- sent w (?m w) = [] /\ _ =>
        assert (E : m w = Ok tt (final (print "Restore cancelled" w))
                    \/ m w = Raise EOFError w)
    end.
    { unfold bind at 1. destruct answer as [a|]; cbn [input].
      - left. unfold bind at 1. cbn [ret].
        assert (Ha : String.eqb (str_lower a) "yes" = false)
          by (apply String.eqb_neq; now apply Hno).
        rewrite Ha. reflexivity.
      - right. reflexivity. }
    destruct E as [E|E]; rewrite E;
      (split; [apply sent_of_log; cbn [final log print]; now rewrite app_nil_r
              |reflexivity]).
  - destruct (file_get (filepath filename) (files w)) as [content|]; [|now left].
    unfold bind, input, ret, raise.
    destruct confirm;
      [|destruct answer as [a|];
        [destruct (String.eqb (str_lower a) "yes")|]];
      cbn [negb]; try (now left);
      (destruct (json_load content) as [data|] eqn:Hload; [|now left];
       destruct data; unfold make_request, put_without_value;
       destruct (net (length (log w))); try (now left);
       try (destruct empty_put_clears; [|now left]);
       right; exists content; cbn [serve fst snd final db with_db store_put];
       (split; [reflexivity|]); (split; [exact Hload|]); now apply sent_of_log).
Qed.

Lemma read_only_refl (w : world) : read_only w w.
Proof. split; [reflexivity|]. split; [reflexivity|apply sends_refl]. Qed.

Lemma read_only_trans (w1 w2 w3 : world) :
  read_only w1 w2 -> read_only w2 w3 -> read_only w1 w3.
Proof.
  intros [D1 [F1 S1]] [D2 [F2 S2]]. split; [congruence|]. split; [congruence|].
  eapply sends_trans; eassumption.
Qed.

Lemma read_only_quiet (w w' : world) :
  db w' = db w -> files w' = files w -> log w' = log w -> read_only w w'.
Proof. intros D F L. split; [exact D|]. split; [exact F|now apply sends_quiet]. Qed.

Lemma read_only_get (p : path) (data : json) :
  preserves read_only (make_request GET p data).
Proof.
  intros w. split; [|split].
  - unfold make_request. now destruct (net (length (log w))).
  - unfold make_request. now destruct (net (length (log w))).
  - now apply sends_make_request.
Qed.

Ltac read_only_bind :=
  apply preserves_bind; [apply read_only_trans | | intros ? ].

Ltac read_only_pure :=
  intros ?w; apply read_only_quiet; reflexivity.

Lemma read_only_collect_issues : preserves read_only collect_issues.
Proof.
  unfold collect_issues.
  read_only_bind; [apply read_only_get|].
  read_only_bind; [apply read_only_get|].
  read_only_bind.
  { destruct (or_empty a); read_only_pure. }
  read_only_bind.
  { destruct (check_all check_student a1); read_only_pure. }
  read_only_bind.
  { destruct (check_sections (or_empty a0)); read_only_pure. }
  read_only_pure.
Qed.

Lemma read_only_validate : preserves read_only validate_data_integrity.
Proof.
  unfold validate_data_integrity.
  read_only_bind; [apply read_only_collect_issues|].
  read_only_bind; [|read_only_pure].
  apply preserves_for_each; [apply read_only_refl|apply read_only_trans|].
  intros line _. read_only_pure.
Qed.

(** X6. The validator only reads. However a run of
    [validate_data_integrity] goes (served or not, returning or
    raising), every request it sent is a GET, and the tree and the
    files are as before: it repairs nothing. *)
Theorem validate_never_writes (w : world) :
  let o := validate_data_integrity w in
  Forall (fun r => r_method r = GET) (sent w o)
  /\ db (final o) = db w
  /\ files (final o) = files w.
Proof.
  intros o. destruct (read_only_validate w) as [D [F S]].
  split; [now apply sends_sent|]. now split.
Qed.

(* ===================================================================== *)
(** ** Laws that every run of the store client obeys *)
(* ===================================================================== *)

Section Laws.

(** A property of runs that holds of steps that send nothing, of single
    requests, and of sequences of runs that have it. *)
Variable Q : forall A : Type, world -> outcome A -> Prop.
Hypothesis Q_pure :
  forall A (o : outcome A) w,
    db (final o) = db w -> log (final o) = log w -> files (final o) = files w ->
    Q w o.
Hypothesis Q_bind :
  forall A B (m : M A) (f : A -> M B) w,
    Q w (m w) -> (forall a w1, m w = Ok a w1 -> Q w1 (f a w1)) -> Q w (bind m f w).
Hypothesis Q_request : forall m p d w, Q w (make_request m p d w).

Lemma law_for_each {A} (xs : list A) (body : A -> M unit) :
  (forall x w, Q w (body x w)) -> forall w, Q w (for_each xs body w).
Proof using Q_pure Q_bind.
  intros Hb. induction xs as [|x xs IH]; intros w; cbn [for_each].
  - now apply Q_pure.
  - apply Q_bind; [apply Hb|]. intros _ w1 _. apply IH.
Qed.

Lemma law_create_section (name : json) (w : world) : Q w (create_section name w).
Proof using Q_pure Q_bind Q_request.
  unfold create_section.
  apply Q_bind; [now apply Q_pure|]. intros created w1 _.
  apply Q_bind; [now apply Q_pure|]. intros updated w2 _.
  apply Q_bind; [apply Q_request|]. intros result w3 _.
  now apply Q_pure.
Qed.

Lemma law_create_sections (names : list json) (w : world) :
  Q w (create_sections names w).
Proof using Q_pure Q_bind Q_request.
  unfold create_sections. apply law_for_each. intros n w0.
  destruct (creatable n); [|now apply Q_pure].
  apply Q_bind; [apply law_create_section|]. intros _ w1 _. now apply Q_pure.
Qed.

Lemma law_migrate_student (student_id : string) (student_data : json)
      (acc : pyset * nat) (w : world) :
  Q w (migrate_student student_id student_data acc w).
Proof using Q_pure Q_bind Q_request.
  unfold migrate_student. destruct student_data as [| | |s|l|d];
    try (now apply Q_pure).
  - destruct (str_contains "sections" s); now apply Q_pure.
  - destruct (existsb (is_str "sections") l); now apply Q_pure.
  - destruct (migrated d); [now apply Q_pure|].
    apply Q_bind; [now apply Q_pure|]. intros stamp w1 _.
    apply Q_bind; [apply Q_request|]. intros _ w2 _.
    destruct (hashable (old_section_of d)); now apply Q_pure.
Qed.

Lemma law_migrate_students (items : list (string * json)) :
  forall acc w, Q w (migrate_students items acc w).
Proof using Q_pure Q_bind Q_request.
  induction items as [|[k v] items IH]; intros acc w; cbn [migrate_students].
  - now apply Q_pure.
  - apply Q_bind; [apply law_migrate_student|]. intros acc' w1 _. apply IH.
Qed.

Lemma law_migrate_after_backup (w : world) : Q w (migrate_after_backup w).
Proof using Q_pure Q_bind Q_request.
  unfold migrate_after_backup.
  apply Q_bind; [apply Q_request|]. intros students0 w1 _.
  apply Q_bind.
  { destruct (or_empty students0); now apply Q_pure. }
  intros _ w2 _. apply Q_bind.
  { destruct (or_empty students0); now apply Q_pure. }
  intros items w3 _. apply Q_bind; [apply law_migrate_students|].
  intros acc w4 _. apply Q_bind; [apply law_create_sections|].
  intros _ w5 _. now apply Q_pure.
Qed.

Lemma law_add_to_section (field entity_id section_id : string) (w : world) :
  Q w (add_to_section field entity_id section_id w).
Proof using Q_pure Q_bind Q_request.
  unfold add_to_section.
  apply Q_bind; [apply Q_request|]. intros section w1 _.
  apply Q_bind.
  { destruct (or_empty section); now apply Q_pure. }
  intros members0 w2 _.
  destruct (py_in entity_id members0) as [[|]|]; try (now apply Q_pure).
  destruct members0; try (now apply Q_pure).
  apply Q_bind; [apply Q_request|]. intros _ w3 _. now apply Q_pure.
Qed.

Hypothesis Q_write_file : forall name content w, Q w (write_file name content w).

Lemma law_backup_database (filename : option string) (w : world) :
  Q w (backup_database filename w).
Proof using Q_pure Q_bind Q_request Q_write_file.
  unfold backup_database.
  apply Q_bind; [apply Q_request|]. intros data w1 _.
  apply Q_bind.
  { destruct filename as [f|]; [destruct (String.eqb f "")|];
      try (now apply Q_pure);
      (apply Q_bind; [now apply Q_pure|]; intros ts w2 _; now apply Q_pure). }
  intros fn w2 _. apply Q_bind; [apply Q_write_file|]. intros _ w3 _.
  now apply Q_pure.
Qed.

Lemma law_migrate (w : world) : Q w (migrate_to_multisection w).
Proof using Q_pure Q_bind Q_request Q_write_file.
  change migrate_to_multisection
    with (ts <- now_strftime ;;
          backup_database (Some ("pre_migration_backup_" ++ ts ++ ".json")%string) ;;
          migrate_after_backup).
  apply Q_bind; [now apply Q_pure|]. intros ts w1 _.
  apply Q_bind; [apply law_backup_database|]. intros bf w2 _.
  apply law_migrate_after_backup.
Qed.

End Laws.

(* --------------------------------------------------------------------- *)
(** *** A run stops at the first round trip that fails *)

Lemma stops_pure (A : Type) (o : outcome A) (w : world) :
  db (final o) = db w -> log (final o) = log w -> files (final o) = files w ->
  stops_at_failure w o.
Proof.
  intros _ L _. exists []. split; [now rewrite app_nil_r|].
  intros i Hi. inversion Hi.
Qed.

Lemma stops_write_file (name content : string) (w : world) :
  stops_at_failure w (write_file name content w).
Proof.
  exists []. split; [now rewrite app_nil_r|]. intros i Hi. inversion Hi.
Qed.

Lemma stops_request (m : method) (p : path) (d : json) (w : world) :
  stops_at_failure w (make_request m p d w).
Proof.
  exists [mkRequest m p d]. unfold make_request.
  destruct (net (length (log w))) eqn:E; (split; [reflexivity|]);
    intros i Hi Hn; cbn [length] in Hi;
    assert (i = 0) by lia; subst i; rewrite Nat.add_0_r in Hn;
    try contradiction; (split; [reflexivity|]); eexists; reflexivity.
Qed.

Lemma stops_bind (A B : Type) (m : M A) (f : A -> M B) (w : world) :
  stops_at_failure w (m w) ->
  (forall a w1, m w = Ok a w1 -> stops_at_failure w1 (f a w1)) ->
  stops_at_failure w (bind m f w).
Proof.
  intros [n1 [L1 H1]] Hf. unfold bind.
  destruct (m w) as [a w1|e w1] eqn:E; cbn [final] in *.
  - destruct (Hf a w1 eq_refl) as [n2 [L2 H2]].
    exists (n1 ++ n2). split; [now rewrite L2, L1, app_assoc|].
    intros i Hi Hn. rewrite length_app in *.
    destruct (Nat.lt_ge_cases i (length n1)) as [Hlt|Hge].
    + destruct (H1 i Hlt Hn) as [_ [w' Hw']]. discriminate.
    + destruct (H2 (i - length n1)) as [S2 X2]; [lia| |].
      * rewrite L1, length_app.
        replace (length (log w) + length n1 + (i - length n1))
          with (length (log w) + i) by lia.
        exact Hn.
      * split; [lia|exact X2].
  - exists n1. split; [exact L1|].
    intros i Hi Hn. destruct (H1 i Hi Hn) as [S1 [w' Hw']].
    split; [exact S1|]. inversion Hw'; subst. eexists; reflexivity.
Qed.

(** X7. The migrator stops at the first round trip that is not served:
    whatever the state of the network, a request of a run of
    [migrate_to_multisection] that fails is the last request of the
    run, and the run ends there with [sys.exit(1)]. The records after
    the failing one are not visited. *)
Theorem migrate_stops_at_first_failure (w : world) (i : nat) :
  let o := migrate_to_multisection w in
  i < length (sent w o) ->
  net (length (log w) + i) <> Delivered ->
  S i = length (sent w o) /\ o = Raise (SystemExit 1) (final o).
Proof.
  intros o Hi Hn.
  destruct (law_migrate stops_at_failure stops_pure stops_bind stops_request
                        stops_write_file w) as [news [L H]].
  fold o in L, H. rewrite (sent_of_log w o news L) in *.
  destruct (H i Hi Hn) as [S1 [w' Hw']]. split; [exact S1|].
  rewrite Hw'. reflexivity.
Qed.

(* --------------------------------------------------------------------- *)
(** *** The backup comes first *)

Lemma files_kept_after_backup (w : world) :
  files (final (migrate_after_backup w)) = files w.
Proof.
  apply (law_migrate_after_backup
           (fun A w (o : outcome A) => files (final o) = files w)).
  - intros A o w0 _ _ F. exact F.
  - intros A B m f w0 Hm Hf. unfold bind.
    destruct (m w0) as [a w1|e w1] eqn:E; cbn [final] in *; [|exact Hm].
    rewrite (Hf a w1 eq_refl). exact Hm.
  - intros m p d w0. unfold make_request.
    now destruct (net (length (log w0))).
Qed.

(** The run of the migrator, up to the end of its backup step. *)
Lemma migrate_after_backup_eq (w : world) :
  migrate_to_multisection w =
  match net (length (log w)) with
  | Delivered =>
      migrate_after_backup
        (mkWorld (db w) (log w ++ [mkRequest GET [] JNull]) (S (ticks w))
                 (file_set (filepath (pre_migration_backup w)) (json_dump (db w))
                           (files w))
                 (stdout w))
  | _ => Raise (SystemExit 1) (logged (mkRequest GET [] JNull) (tick w))
  end.
Proof.
  change migrate_to_multisection
    with (ts <- now_strftime ;;
          backup_database (Some ("pre_migration_backup_" ++ ts ++ ".json")%string) ;;
          migrate_after_backup).
  unfold bind at 1. unfold now_strftime at 1.
  unfold bind at 1. unfold backup_database.
  unfold bind at 1. unfold make_request at 1.
  cbn [log tick].
  destruct (net (length (log w))); reflexivity.
Qed.

(** X8. The migrator writes nothing before its backup is on disk: in
    every run of [migrate_to_multisection] that sent a write, the file
    [pre_migration_backup_<timestamp>.json] holds the dump of the tree
    as it was when the run began. *)
Theorem migrate_backs_up_first (w : world) :
  let o := migrate_to_multisection w in
  (exists r, In r (sent w o) /\ is_write r = true) ->
  file_get (filepath (pre_migration_backup w)) (files (final o))
  = Some (json_dump (db w)).
Proof.
  intros o [r [Hin Hw]]. unfold o in *. clear o.
  rewrite migrate_after_backup_eq in *.
  destruct (net (length (log w))) eqn:E.
  - rewrite files_kept_after_backup. cbn [files]. apply file_get_set.
  - rewrite (@sent_of_log _ w _ [mkRequest GET [] JNull]) in Hin by reflexivity.
    destruct Hin as [<-|[]]. discriminate.
  - rewrite (@sent_of_log _ w _ [mkRequest GET [] JNull]) in Hin by reflexivity.
    destruct Hin as [<-|[]]. discriminate.
Qed.

(* --------------------------------------------------------------------- *)
(** *** A second run of the migrator *)

Lemma dict_set_middle (k : string) (v v' : json) (done rest : dict) :
  ~ In k (map fst done) ->
  dict_set k v' (done ++ (k, v) :: rest) = done ++ (k, v') :: rest.
Proof.
  induction done as [|[k0 v0] done IH]; intros Hk; simpl.
  - now rewrite String.eqb_refl.
  - destruct (String.eqb k k0) eqn:E.
    + apply String.eqb_eq in E. subst k0. exfalso. apply Hk. now left.
    + rewrite IH; [reflexivity|]. intros H. apply Hk. now right.
Qed.

(** The students node after the PUTs of the loop. *)
Lemma apply_student_puts_node (rest : list (string * json)) :
  forall done t tree,
    store_get ["students"] tree = JObj (done ++ rest) ->
    NoDup (map fst (done ++ rest)) ->
    store_get ["students"] (apply_puts (student_puts t rest) tree)
    = JObj (done ++ migrate_items t rest).
Proof.
  induction rest as [|[k v] rest IH]; intros done t tree Hnode Hnd.
  - exact Hnode.
  - assert (Hstep : forall v' t' tree',
              store_get ["students"] tree' = JObj (done ++ (k, v') :: rest) ->
              store_get ["students"] (apply_puts (student_puts t' rest) tree')
              = JObj (done ++ (k, v') :: migrate_items t' rest)).
    { intros v' t' tree' H'.
      specialize (IH (done ++ [(k, v')]) t' tree').
      rewrite <- !app_assoc in IH. apply IH; [exact H'|].
      rewrite map_app in *. exact Hnd. }
    cbn [student_puts migrate_items].
    destruct v as [| | | | |d]; try (now apply Hstep).
    destruct (migrated d); [now apply Hstep|].
    unfold apply_puts. cbn [fold_left]. fold (apply_puts (student_puts (S t) rest)).
    apply Hstep. cbn [put_student r_path r_body].
    rewrite (store_get_put_prefix ["students"] [k]). rewrite Hnode.
    cbn [store_put node_items]. f_equal. apply dict_set_middle.
    rewrite map_app in Hnd. cbn [map fst] in Hnd.
    apply NoDup_remove_2 in Hnd. intros H. apply Hnd. apply in_or_app. now left.
Qed.

Lemma migrate_items_migrated (items : list (string * json)) :
  Forall (fun kv => record_ok (snd kv) = true) items ->
  forall t, Forall (fun kv => exists r, snd kv = JObj r /\ migrated r = true)
                   (migrate_items t items).
Proof.
  induction 1 as [|[k v] items Hv _ IH]; intros t; cbn [migrate_items];
    [constructor|].
  cbn [snd] in Hv. destruct v as [| | | | |d]; try discriminate.
  destruct (migrated d) eqn:Hm; constructor; try apply IH.
  - exists d. now split.
  - eexists. split; [reflexivity|]. unfold migrated.
    now rewrite migrated_record_sections.
Qed.

Lemma migrated_items_quiet (items : list (string * json)) :
  Forall (fun kv => exists r, snd kv = JObj r /\ migrated r = true) items ->
  forall t s,
    student_puts t items = [] /\ collect_sections items s = s
    /\ Forall (fun kv => record_ok (snd kv) = true) items.
Proof.
  unfold collect_sections.
  induction 1 as [|[k v] items [r [Hv Hm]] _ IH]; intros t s.
  - repeat split. constructor.
  - cbn [snd] in Hv. subst v. destruct (IH t s) as [P [C R]].
    cbn [student_puts fold_left snd]. rewrite Hm.
    split; [exact P|]. split; [exact C|].
    constructor; [|exact R]. cbn [snd record_ok]. now rewrite Hm.
Qed.

Lemma or_empty_obj (d : dict) : or_empty (JObj d) = JObj d.
Proof. now destruct d. Qed.

(** The served run of the migrator again, with what it leaves of the
    tree outside [sections]. *)
Lemma migrate_online_tree (w : world) :
  online ->
  is_collection (students_of w) = true ->
  Forall (fun kv => record_ok (snd kv) = true) (items_of (students_of w)) ->
  let items := items_of (students_of w) in
  let puts := student_puts (S (ticks w)) items in
  let names := set_iter (collect_sections items []) in
  exists w',
    migrate_to_multisection w = Ok true w'
    /\ log w' = log w ++ mkRequest GET [] JNull :: mkRequest GET ["students"] JNull
                      :: puts ++ section_posts (S (ticks w) + length puts) names
    /\ (forall pk, apartb ["sections"] pk = true ->
                   store_get pk (db w') = store_get pk (apply_puts puts (db w)))
    /\ (names = [] -> db w' = apply_puts puts (db w)).
Proof.
  intros Hon Hcol Hok items puts names.
  unfold migrate_to_multisection.
  unfold bind at 1. unfold now_strftime at 1.
  unfold bind at 1. rewrite backup_database_online by (exact Hon || reflexivity).
  unfold bind at 1. rewrite make_request_online by exact Hon.
  cbn [serve snd fst db with_db logged log ticks files stdout tick].
  fold (students_of w).
  unfold bind at 1. rewrite py_len_check_collection by exact Hcol.
  unfold bind at 1. rewrite student_items_collection by exact Hcol.
  unfold bind at 1. rewrite migrate_students_online by assumption.
  cbn [fst snd db log ticks files stdout with_db logged].
  fold items. fold puts. fold names.
  match goal with
  | |- context [bind (create_sections names) _ ?w6] =>
      destruct (create_sections_online names Hon w6) as [[] [w7 [E7 [L7 _]]]];
      pose proof (fun pk H => frame_create_sections pk names H w6) as Hfr;
      assert (Hnil : names = [] -> db w7 = db w6)
        by (intros Hn; rewrite Hn in E7;
            apply (f_equal (fun o => db (final o))) in E7; now symmetry);
      unfold bind; rewrite E7; rewrite E7 in Hfr
  end.
  exists w7. split; [reflexivity|]. split; [|split].
  - rewrite L7. cbn [log ticks]. rewrite <- !app_assoc. reflexivity.
  - intros pk Hpk. specialize (Hfr pk Hpk). destruct Hfr as [_ Hd]. exact Hd.
  - intros Hn. now rewrite (Hnil Hn).
Qed.

(** X9. A second run of the migrator is a no-op. When the students
    collection is a dict whose records the loop can process and the
    store serves both runs, the first run leaves the collection with
    the same keys in the same order, every record carrying a
    list-valued [sections]; the second run then sends its two reads and
    no write, and leaves the whole tree as the first run left it. *)
Theorem migrate_twice (w : world) (d : dict) :
  online ->
  set_iter [] = [] ->
  store_get ["students"] (db w) = JObj d ->
  NoDup (map fst d) ->
  Forall (fun kv => record_ok (snd kv) = true) d ->
  exists w1,
    migrate_to_multisection w = Ok true w1
    /\ store_get ["students"] (db w1) = JObj (migrate_items (S (ticks w)) d)
    /\ Forall (fun kv => exists r, snd kv = JObj r /\ migrated r = true)
              (migrate_items (S (ticks w)) d)
    /\ exists w2,
         migrate_to_multisection w1 = Ok true w2
         /\ sent w1 (migrate_to_multisection w1)
            = [mkRequest GET [] JNull; mkRequest GET ["students"] JNull]
         /\ db w2 = db w1.
Proof.
  intros Hon Hset Hd Hnd Hok.
  assert (Hs : students_of w = JObj d).
  { unfold students_of. rewrite Hd. apply or_empty_obj. }
  destruct (migrate_online_tree w Hon) as [w1 [E1 [_ [T1 _]]]];
    [now rewrite Hs|now rewrite Hs|].
  rewrite Hs in T1. cbn [items_of] in T1.
  assert (Hnode : store_get ["students"] (db w1)
                  = JObj (migrate_items (S (ticks w)) d)).
  { rewrite T1 by reflexivity.
    apply (apply_student_puts_node d [] (S (ticks w)) (db w) Hd Hnd). }
  pose proof (migrate_items_migrated Hok (S (ticks w))) as Hall.
  exists w1. split; [exact E1|]. split; [exact Hnode|]. split; [exact Hall|].
  assert (Hs1 : students_of w1 = JObj (migrate_items (S (ticks w)) d)).
  { unfold students_of. rewrite Hnode. apply or_empty_obj. }
  destruct (migrated_items_quiet Hall (S (ticks w1)) []) as [P [C R]].
  destruct (migrate_online_tree w1 Hon) as [w2 [E2 [L2 [_ D2]]]];
    [now rewrite Hs1|now rewrite Hs1|].
  rewrite Hs1 in L2, D2. cbn [items_of] in L2, D2.
  rewrite P, C, Hset in L2, D2. cbn [section_posts app] in L2.
  exists w2. split; [exact E2|]. split.
  - apply sent_of_log. rewrite E2. exact L2.
  - now apply D2.
Qed.

(* ===================================================================== *)
(** ** Index maintenance has no rollback *)
(* ===================================================================== *)

(** X10. [add_student] does not undo the POST when the index update
    fails: if the store serves the POST of the record and not the read
    of the first section that follows, the run ends with [sys.exit(1)],
    the record stays stored under its new key, and no section record
    has been touched - the student is in none of the [students]
    lists. *)
Theorem add_student_no_rollback (name admission_number : string)
        (sections : list string) (photo_url : string) (w : world) :
  net (length (log w)) = Delivered ->
  net (S (length (log w))) <> Delivered ->
  let o := add_student name admission_number sections photo_url w in
  let student_id := push_id (tick (tick w)) in
  let record := JObj [("name", JStr name);
                      ("admissionNumber", JStr admission_number);
                      ("sections", JArr (map JStr (sections_or_default sections)));
                      ("photoUrl", JStr photo_url);
                      ("createdAt", JStr (isoformat (ticks w)));
                      ("updatedAt", JStr (isoformat (S (ticks w))))] in
  o = Raise (SystemExit 1) (final o)
  /\ sent w o = [mkRequest POST ["students"] record;
                 mkRequest GET ["sections"; hd "default" (sections_or_default sections)]
                           JNull]
  /\ store_get ["students"; student_id] (db (final o)) = record
  /\ store_get ["sections"] (db (final o)) = store_get ["sections"] (db w).
Proof.
  intros H0 H1 o student_id record.
  assert (E : o = Raise (SystemExit 1)
                    (logged (mkRequest GET ["sections";
                                            hd "default" (sections_or_default sections)]
                                       JNull)
                            (with_db (store_put ["students"; student_id] record (db w))
                                     (logged (mkRequest POST ["students"] record)
                                             (tick (tick w)))))).
  { unfold o, add_student.
    change (match sections with [] => ["default"] | _ => sections end)
      with (sections_or_default sections).
    fold record.
    unfold bind at 1. unfold now_isoformat at 1.
    unfold bind at 1. unfold now_isoformat at 1.
    unfold bind at 1. unfold make_request at 1. cbn [log tick]. rewrite H0.
    cbn [serve fst snd tick ticks]. rewrite result_name_post. fold student_id.
    assert (Hs : exists s rest, sections_or_default sections = s :: rest).
    { destruct sections as [|s rest]; [now exists "default", []|now exists s, rest]. }
    destruct Hs as [s [rest Hs]]. unfold record. rewrite Hs.
    cbn [for_each hd]. unfold _add_student_to_section, add_to_section.
    unfold bind. unfold make_request at 1.
    cbn [log with_db logged tick]. rewrite length_app, Nat.add_1_r.
    destruct (net (S (length (log w)))); [contradiction| |]; reflexivity. }
  rewrite E. cbn [final]. split; [reflexivity|]. split; [|split].
  - apply sent_of_log. cbn [final log logged with_db tick].
    now rewrite <- app_assoc.
  - cbn [db logged with_db]. apply (store_get_put_same ["students"; student_id]).
  - cbn [db logged with_db tick]. now apply store_get_put_apart.
Qed.

(* ===================================================================== *)
(** ** The conflict check of the bulk import *)
(* ===================================================================== *)

Lemma sat_bind {A B} (m : M A) (f : A -> M B) (w : world)
      (Q : B -> world -> Prop) (E : exn -> world -> Prop) :
  outcome_sat (m w) (fun a w1 => outcome_sat (f a w1) Q E) E ->
  outcome_sat (bind m f w) Q E.
Proof. unfold bind. now destruct (m w). Qed.

Lemma sat_try {A} (m : M A) (h : exn -> M A) (w : world)
      (Q : A -> world -> Prop) (E : exn -> world -> Prop) :
  outcome_sat (m w) Q
              (fun e w1 => match e with
                           | SystemExit _ => E e w1
                           | _ => outcome_sat (h e w1) Q E
                           end) ->
  outcome_sat (try_except m h w) Q E.
Proof. unfold try_except. destruct (m w) as [a w1|e w1]; [auto|now destruct e]. Qed.

Lemma sat_weaken {A} (o : outcome A) (Q Q' : A -> world -> Prop)
      (E E' : exn -> world -> Prop) :
  outcome_sat o Q E ->
  (forall a w, Q a w -> Q' a w) -> (forall e w, E e w -> E' e w) ->
  outcome_sat o Q' E'.
Proof. destruct o; simpl; auto. Qed.

Lemma sat_returns {A} (m : M A) (w : world) (Q : A -> world -> Prop) :
  outcome_sat (m w) Q (fun _ _ => False) -> returns m w Q.
Proof.
  unfold returns. destruct (m w) as [a w1|e w1]; simpl; intros H;
    [exists a, w1; now split|destruct H].
Qed.

Lemma filter_all {A} (l : list A) : filter (fun _ => true) l = l.
Proof. induction l; simpl; congruence. Qed.

Lemma filter_none {A} (l : list A) : filter (fun _ => false) l = [].
Proof. induction l; simpl; congruence. Qed.

(** Collecting the admission numbers changes nothing, and fails only
    with the [TypeError] of an unhashable number. *)
Lemma sat_existing_admissions (values : list json) :
  forall acc w,
    outcome_sat (existing_admissions values acc w)
                (fun _ w' => w' = w) (fun e w' => e = TypeError /\ w' = w).
Proof.
  induction values as [|v values IH]; intros acc w; cbn [existing_admissions].
  - reflexivity.
  - destruct v as [| | | | |d]; try apply IH.
    destruct (dict_get "admission_number" d) as [a|]; [|apply IH].
    destruct (hashable a); [apply IH|]. now split.
Qed.

Lemma existing_admissions_unhashable (values : list json) :
  forallb admission_hashable values = false ->
  forall acc w, existing_admissions values acc w = Raise TypeError w.
Proof.
  induction values as [|v values IH]; intros H acc w; [discriminate|].
  cbn [forallb] in H. cbn [existing_admissions].
  destruct v as [| | | | |d]; try (now apply IH).
  cbn [admission_hashable] in H.
  destruct (dict_get "admission_number" d) as [a|]; [|now apply IH].
  destruct (hashable a); [now apply IH|reflexivity].
Qed.

(** The conflict check returns, with part of the batch, after its one
    read. *)
Lemma check_existing_returns (students : list candidate) (choice : option string)
      (w : world) :
  returns (check_existing_students students choice) w
          (fun res w' =>
             (exists keep, res = filter keep students)
             /\ log w' = log w ++ [mkRequest GET ["students"] JNull]
             /\ db w' = db w).
Proof.
  set (Q := fun (res : list candidate) (w' : world) =>
              (exists keep, res = filter keep students)
              /\ log w' = log w ++ [mkRequest GET ["students"] JNull]
              /\ db w' = db w).
  assert (Hall : forall w', log w' = log w ++ [mkRequest GET ["students"] JNull] ->
                            db w' = db w -> Q students w').
  { intros w' L D. split; [|now split].
    exists (fun _ => true). now rewrite filter_all. }
  apply sat_returns. unfold check_existing_students. apply sat_try.
  apply sat_weaken
    with (Q := Q)
         (E := fun e w' => (forall c, e <> SystemExit c)
                           /\ log w' = log w ++ [mkRequest GET ["students"] JNull]
                           /\ db w' = db w).
  2: { auto. }
  2: { intros e w' [Hne [L D]].
       destruct e; try (now apply Hall). now destruct (Hne code). }
  apply sat_bind. unfold requests_send.
  destruct (net (length (log w))); cbn [outcome_sat].
  - cbn [status_code response_json serve fst snd Z.eqb Pos.eqb negb].
    destruct (truthy (store_get ["students"] (db w))); cbn [negb];
      [|now apply Hall].
    destruct (store_get ["students"] (db w)) as [| | | | |d];
      try (split; [discriminate|now split]).
    apply sat_bind.
    eapply sat_weaken; [apply sat_existing_admissions| |].
    2: { intros e w' [-> ->]. split; [discriminate|now split]. }
    intros adm w' ->.
    set (ids := map fst d).
    set (new_students := filter (fun c => negb (collides ids adm c)) students).
    set (conflicts := filter (collides ids adm) students).
    assert (Hnew : forall w', log w' = log w ++ [mkRequest GET ["students"] JNull] ->
                              db w' = db w -> Q new_students w').
    { intros w' L D. split; [|now split]. now eexists. }
    destruct conflicts as [|c0 cs] eqn:Ec; [now apply Hnew|].
    rewrite <- Ec. clear Ec.
    apply sat_bind. cbn [print outcome_sat].
    apply sat_bind.
    match goal with |- outcome_sat (for_each _ _ ?w1) _ _ =>
      destruct (for_each_conflict_lines (firstn 5 conflicts) w1)
        as [w2 [E2 [D2 [L2 _]]]] end.
    rewrite E2. cbn [outcome_sat]. simpl in D2, L2.
    apply sat_bind.
    assert (Hmore : exists w3,
               (if Nat.ltb 5 (length conflicts)
                then print ("   ... and " ++ str_of_nat (length conflicts - 5)
                            ++ " more")%string
                else ret tt) w2 = Ok tt w3
               /\ db w3 = db w2 /\ log w3 = log w2).
    { destruct (Nat.ltb 5 (length conflicts)); eexists; split;
        try reflexivity; now split. }
    destruct Hmore as [w3 [E3 [D3 L3]]]. rewrite E3. cbn [outcome_sat].
    apply sat_bind. destruct choice as [typed|]; cbn [input ret raise outcome_sat].
    + destruct (String.eqb (str_lower typed) "y"); cbn [negb].
      * apply Hnew; congruence.
      * apply sat_bind. cbn [print outcome_sat ret].
        split; [|cbn [db log]; split; congruence].
        exists (fun _ => false). now rewrite filter_none.
    + split; [discriminate|split; congruence].
  - cbn [status_code Z.eqb Pos.eqb negb]. apply sat_bind.
    cbn [print outcome_sat ret]. now apply Hall.
  - split; [discriminate|now split].
Qed.

(** X11. The conflict check always comes back with part of the batch.
    Whatever the store holds and however the round trip goes,
    [check_existing_students] returns; what it returns is the batch
    with some candidates left out (none added, none changed, order
    kept); it sends the one read of [students] and leaves the tree as
    it is. *)
Theorem check_existing_total (students : list candidate) (choice : option string)
        (w : world) :
  exists res w',
    check_existing_students students choice w = Ok res w'
    /\ (exists keep, res = filter keep students)
    /\ sent w (check_existing_students students choice w)
       = [mkRequest GET ["students"] JNull]
    /\ db w' = db w.
Proof.
  destruct (check_existing_returns students choice w) as [res [w' [E [K [L D]]]]].
  exists res, w'. split; [exact E|]. split; [exact K|]. split; [|exact D].
  apply sent_of_log. rewrite E. exact L.
Qed.

(** When the store cannot be read, holds no students or holds
    something the check cannot work through, the batch comes back
    whole. *)
Lemma check_existing_open (students : list candidate) (choice : option string)
      (w : world) :
  net (length (log w)) <> Delivered
  \/ truthy (store_get ["students"] (db w)) = false
  \/ conflicts_checkable (store_get ["students"] (db w)) = false ->
  exists w',
    check_existing_students students choice w = Ok students w'
    /\ db w' = db w
    /\ log w' = log w ++ [mkRequest GET ["students"] JNull].
Proof.
  intros H. unfold check_existing_students, try_except.
  unfold bind at 1. unfold requests_send.
  destruct (net (length (log w))) eqn:En.
  - cbn [status_code response_json serve fst snd Z.eqb Pos.eqb negb].
    destruct H as [H|[H|H]]; [contradiction| |].
    + rewrite H. cbn [negb]. eexists. split; [reflexivity|split; reflexivity].
    + destruct (truthy (store_get ["students"] (db w))); cbn [negb];
        [|eexists; (split; [reflexivity|split; reflexivity])].
      destruct (store_get ["students"] (db w)) as [| | | | |d];
        try (eexists; (split; [reflexivity|split; reflexivity])).
      cbn [conflicts_checkable] in H. unfold bind at 1.
      rewrite (existing_admissions_unhashable _ H).
      eexists; (split; [reflexivity|split; reflexivity]).
  - eexists; (split; [reflexivity|split; reflexivity]).
  - eexists; (split; [reflexivity|split; reflexivity]).
Qed.

(** X12. The conflict check fails open. When the read of [students] is
    not served, when the store holds no students, or when what it holds
    is not a dict of records with hashable admission numbers (a
    collection the store keeps as a list, for instance), the whole
    batch comes back as new and no conflict is reported. *)
Theorem check_existing_fail_open (students : list candidate) (choice : option string)
        (w : world) :
  net (length (log w)) <> Delivered
  \/ truthy (store_get ["students"] (db w)) = false
  \/ conflicts_checkable (store_get ["students"] (db w)) = false ->
  exists w',
    check_existing_students students choice w = Ok students w'
    /\ db w' = db w.
Proof.
  intros H. destruct (check_existing_open students choice w H) as [w' [E [D _]]].
  now exists w'.
Qed.

(* ===================================================================== *)
(** ** The upload of a section, whatever the network does *)
(* ===================================================================== *)

Lemma upload_student_step (section_name : string) (c : candidate) (n : nat)
      (w : world) :
  upload_student section_name c n w =
  match net (length (log w)) with
  | Delivered =>
      Ok (S n)
         (with_db (store_put (r_path (put_candidate section_name c))
                             (r_body (put_candidate section_name c)) (db w))
                  (logged (put_candidate section_name c) w))
  | HttpError =>
      Ok n (mkWorld (db w) (log w ++ [put_candidate section_name c]) (ticks w)
                    (files w)
                    (stdout w ++ [("Failed to upload " ++ c_name c)%string]))
  | Unreachable => Raise RequestException (logged (put_candidate section_name c) w)
  end.
Proof.
  unfold upload_student, bind, requests_send.
  destruct (net (length (log w))); reflexivity.
Qed.

Lemma served_add (a b : nat) :
  forall from, served from (a + b) = served from a + served (from + a) b.
Proof.
  induction a as [|a IH]; intros from; cbn [served Nat.add].
  - now rewrite Nat.add_0_r.
  - rewrite IH. rewrite <- Nat.add_succ_comm. lia.
Qed.

(** A batch whose round trips all reach the store is tried to the end;
    the count grows by the number of PUTs the store served. *)
Lemma upload_batch_reachable (section_name : string) (batch : list candidate) :
  forall n w,
    (forall i, i < length batch -> net (length (log w) + i) <> Unreachable) ->
    exists w',
      upload_batch section_name batch n w
      = Ok (n + served (length (log w)) (length batch)) w'
      /\ log w' = log w ++ map (put_candidate section_name) batch.
Proof.
  induction batch as [|c batch IH]; intros n w Hr; cbn [upload_batch length served map].
  - exists w. split; [unfold ret; now rewrite Nat.add_0_r|now rewrite app_nil_r].
  - unfold bind. rewrite upload_student_step.
    pose proof (Hr 0 (Nat.lt_0_succ _)) as H0. rewrite Nat.add_0_r in H0.
    assert (Hnext : forall w1, log w1 = log w ++ [put_candidate section_name c] ->
              forall i, i < length batch -> net (length (log w1) + i) <> Unreachable).
    { intros w1 L i Hi. rewrite L, length_app. cbn [length].
      replace (length (log w) + 1 + i) with (length (log w) + S i) by lia.
      apply Hr. cbn [length]. lia. }
    assert (Hlen : forall w1, log w1 = log w ++ [put_candidate section_name c] ->
              length (log w1) = S (length (log w))).
    { intros w1 L. rewrite L, length_app. cbn [length]. lia. }
    destruct (net (length (log w))); [| |contradiction].
    + match goal with |- context [upload_batch _ _ _ ?w1] =>
        destruct (IH (S n) w1 (Hnext w1 eq_refl)) as [w' [E L]];
        rewrite (Hlen w1 eq_refl) in E end.
      exists w'. rewrite E. split; [f_equal; lia|].
      rewrite L. cbn [log logged with_db]. now rewrite <- app_assoc.
    + match goal with |- context [upload_batch _ _ _ ?w1] =>
        destruct (IH n w1 (Hnext w1 eq_refl)) as [w' [E L]];
        rewrite (Hlen w1 eq_refl) in E end.
      exists w'. rewrite E. split; [f_equal|].
      rewrite L. cbn [log]. now rewrite <- app_assoc.
Qed.

Lemma upload_batches_reachable (section_name : string) (bs : list (list candidate)) :
  forall i n w,
    (forall j, j < length (concat bs) -> net (length (log w) + j) <> Unreachable) ->
    exists w',
      upload_batches section_name bs i n w
      = Ok (n + served (length (log w)) (length (concat bs))) w'
      /\ log w' = log w ++ map (put_candidate section_name) (concat bs).
Proof.
  induction bs as [|b bs IH]; intros i n w Hr; cbn [upload_batches concat].
  - exists w. split; [unfold ret; cbn [length served]; now rewrite Nat.add_0_r
                     |now rewrite app_nil_r].
  - cbn [concat] in Hr. rewrite length_app in Hr.
    destruct (@upload_batch_reachable section_name b n w) as [w1 [E1 L1]].
    { intros j Hj. apply Hr. lia. }
    unfold bind at 1. rewrite E1. unfold bind at 1. cbn [print].
    match goal with |- context [upload_batches _ _ _ _ ?w2] => set (W2 := w2) end.
    assert (L2 : log W2 = log w ++ map (put_candidate section_name) b)
      by exact L1.
    destruct (IH (S i) (n + served (length (log w)) (length b)) W2)
      as [w' [E L]].
    { intros j Hj. rewrite L2, length_app, length_map.
      rewrite <- Nat.add_assoc. apply Hr. lia. }
    rewrite L2, length_app, length_map in E.
    exists w'. rewrite E. split.
    + rewrite length_app, served_add. f_equal. lia.
    + rewrite L, L2, map_app. now rewrite <- app_assoc.
Qed.

(** A batch stops at the first round trip that does not reach the
    store. *)
Lemma upload_batch_unreachable (section_name : string) (batch : list candidate) :
  forall k n w,
    k < length batch ->
    (forall i, i < k -> net (length (log w) + i) <> Unreachable) ->
    net (length (log w) + k) = Unreachable ->
    exists w',
      upload_batch section_name batch n w = Raise RequestException w'
      /\ log w' = log w ++ map (put_candidate section_name) (firstn (S k) batch).
Proof.
  induction batch as [|c batch IH]; intros k n w Hk Hr Hu; cbn [length] in Hk;
    [lia|].
  cbn [upload_batch]. unfold bind. rewrite upload_student_step.
  destruct k as [|k].
  - rewrite Nat.add_0_r in Hu. rewrite Hu. eexists. split; [reflexivity|].
    reflexivity.
  - pose proof (Hr 0 (Nat.lt_0_succ _)) as H0. rewrite Nat.add_0_r in H0.
    assert (Hnext : forall w1, log w1 = log w ++ [put_candidate section_name c] ->
              exists w',
                upload_batch section_name batch
                             (match net (length (log w)) with
                              | Delivered => S n | _ => n end) w1
                = Raise RequestException w'
                /\ log w' = log w1
                            ++ map (put_candidate section_name) (firstn (S k) batch)).
    { intros w1 L. apply IH; [lia| |].
      - intros i Hi. rewrite L, length_app. cbn [length].
        replace (length (log w) + 1 + i) with (length (log w) + S i) by lia.
        apply Hr. lia.
      - rewrite L, length_app. cbn [length].
        replace (length (log w) + 1 + k) with (length (log w) + S k) by lia.
        exact Hu. }
    destruct (net (length (log w))); [| |contradiction].
    + match goal with |- context [upload_batch _ _ _ ?w1] =>
        destruct (Hnext w1 eq_refl) as [w' [E L]] end.
      exists w'. rewrite E. split; [reflexivity|].
      rewrite L. cbn [log logged with_db firstn map]. now rewrite <- app_assoc.
    + match goal with |- context [upload_batch _ _ _ ?w1] =>
        destruct (Hnext w1 eq_refl) as [w' [E L]] end.
      exists w'. rewrite E. split; [reflexivity|].
      rewrite L. cbn [log firstn map]. now rewrite <- app_assoc.
Qed.

Lemma upload_batches_unreachable (section_name : string) (bs : list (list candidate)) :
  forall k i n w,
    k < length (concat bs) ->
    (forall j, j < k -> net (length (log w) + j) <> Unreachable) ->
    net (length (log w) + k) = Unreachable ->
    exists w',
      upload_batches section_name bs i n w = Raise RequestException w'
      /\ log w' = log w ++ map (put_candidate section_name) (firstn (S k) (concat bs)).
Proof.
  induction bs as [|b bs IH]; intros k i n w Hk Hr Hu; cbn [concat length] in Hk;
    [lia|].
  cbn [upload_batches concat]. rewrite length_app in Hk.
  destruct (Nat.lt_ge_cases k (length b)) as [Hlt|Hge].
  - destruct (@upload_batch_unreachable section_name b k n w Hlt Hr Hu)
      as [w' [E L]].
    exists w'. unfold bind. rewrite E. split; [reflexivity|].
    rewrite L. rewrite firstn_app.
    replace (S k - length b) with 0 by lia.
    cbn [firstn]. now rewrite app_nil_r.
  - destruct (@upload_batch_reachable section_name b n w) as [w1 [E1 L1]].
    { intros j Hj. apply Hr. lia. }
    unfold bind at 1. rewrite E1. unfold bind at 1. cbn [print].
    match goal with |- context [upload_batches _ _ _ ?n2 ?w2] =>
      destruct (IH (k - length b) (S i) n2 w2) as [w' [E L]] end.
    + lia.
    + intros j Hj. cbn [log]. rewrite L1, length_app, length_map.
      rewrite <- Nat.add_assoc. apply Hr. lia.
    + cbn [log]. rewrite L1, length_app, length_map.
      rewrite <- Nat.add_assoc.
      replace (length b + (k - length b)) with k by lia. exact Hu.
    + exists w'. rewrite E. split; [reflexivity|].
      rewrite L. cbn [log]. rewrite L1. rewrite firstn_app.
      replace (firstn (S k) b) with b by (symmetry; apply firstn_all2; lia).
      replace (S k - length b) with (S (k - length b)) by lia.
      rewrite map_app. now rewrite <- app_assoc.
Qed.

Lemma frame_upload_batches (pk : path) (section_name : string)
      (bs : list (list candidate)) :
  apartb ["students"] pk = true ->
  forall i n, preserves (frame pk) (upload_batches section_name bs i n).
Proof.
  intros Hpk.
  assert (Hb : forall b n, preserves (frame pk) (upload_batch section_name b n)).
  { induction b as [|c b IH]; intros n; cbn [upload_batch]; [frame_done|].
    frame_bind; [|apply IH].
    unfold upload_student. frame_bind.
    - apply frame_requests_send. unfold harmless, is_write.
      cbn [r_method r_path negb orb]. now apply apartb_head.
    - destruct (Z.eqb (status_code a) 200); [frame_done|].
      frame_bind; [apply frame_print|frame_done]. }
  induction bs as [|b bs IH]; intros i n; cbn [upload_batches]; [frame_done|].
  frame_bind; [apply Hb|]. frame_bind; [apply frame_print|apply IH].
Qed.

Lemma frame_check_existing (pk : path) (students : list candidate) (choice : option string) :
  preserves (frame pk) (check_existing_students students choice).
Proof.
  intros w.
  destruct (check_existing_returns students choice w) as [res [w' [E [_ [L D]]]]].
  rewrite E. cbn [final]. split; [|now rewrite D].
  exists [mkRequest GET ["students"] JNull]. split; [exact L|].
  constructor; [reflexivity|constructor].
Qed.

Lemma frame_upload_section (pk : path) (section_name : string)
      (students : list candidate) (choice : option string) :
  apartb ["students"] pk = true ->
  apartb ["sections"; str_lower (replace_spaces section_name)] pk = true ->
  preserves (frame pk) (upload_section_to_firebase section_name students choice).
Proof.
  intros Hst Hsec. unfold upload_section_to_firebase.
  apply preserves_try; try apply frame_trans; try apply frame_refl.
  - frame_bind; [apply frame_check_existing|].
    destruct a as [|c0 cs].
    + frame_bind; [apply frame_print|frame_done].
    + frame_bind.
      { apply frame_requests_send. unfold harmless, is_write.
        cbn [r_method r_path negb orb]. exact Hsec. }
      destruct (negb (Z.eqb (status_code a) 200)).
      * frame_bind; [apply frame_print|frame_done].
      * frame_bind; [now apply frame_upload_batches|].
        frame_bind; [apply frame_print|frame_done].
  - intros e. frame_bind; [apply frame_print|frame_done].
Qed.

Lemma sat_upload_batches (section_name : string) (bs : list (list candidate)) :
  forall i n w,
    outcome_sat (upload_batches section_name bs i n w)
                (fun _ _ => True) (fun e _ => e = RequestException).
Proof.
  assert (Hb : forall b n w,
            outcome_sat (upload_batch section_name b n w)
                        (fun _ _ => True) (fun e _ => e = RequestException)).
  { induction b as [|c b IH]; intros n w; cbn [upload_batch]; [exact I|].
    apply sat_bind. rewrite upload_student_step.
    destruct (net (length (log w))); cbn [outcome_sat]; try apply IH.
    reflexivity. }
  induction bs as [|b bs IH]; intros i n w; cbn [upload_batches]; [exact I|].
  apply sat_bind. eapply sat_weaken; [apply Hb| |auto].
  intros n' w1 _. apply sat_bind. cbn [print outcome_sat]. apply IH.
Qed.

Lemma try_bind_at {A B} (m : M A) (k : A -> M B) (h : exn -> M B)
      (w w1 : world) (a : A) :
  m w = Ok a w1 -> try_except (bind m k) h w = try_except (k a) h w1.
Proof. intros E. unfold try_except, bind. now rewrite E. Qed.

Lemma sends_requests_send (P : request -> Prop) (m : method) (p : path) (data : json) :
  P (mkRequest m p data) -> preserves (sends P) (requests_send m p data).
Proof.
  intros H w. exists [mkRequest m p data].
  split; [|constructor; [exact H|constructor]].
  unfold requests_send. now destruct (net (length (log w))).
Qed.

Lemma sends_upload_batches (section_name : string) (bs : list (list candidate)) :
  forall i n,
    preserves (sends (fun r => r_method r = PUT)) (upload_batches section_name bs i n).
Proof.
  assert (Hb : forall b n, preserves (sends (fun r => r_method r = PUT))
                                     (upload_batch section_name b n)).
  { induction b as [|c b IH]; intros n; cbn [upload_batch];
      [intros w; apply sends_refl|].
    sends_bind; [|apply IH].
    unfold upload_student. sends_bind; [now apply sends_requests_send|].
    destruct (Z.eqb (status_code a) 200); [intros w; apply sends_refl|].
    intros w. now apply sends_quiet. }
  induction bs as [|b bs IH]; intros i n; cbn [upload_batches];
    [intros w; apply sends_refl|].
  sends_bind; [apply Hb|]. sends_bind; [intros w; now apply sends_quiet|apply IH].
Qed.

(** A run of the upload: it returns; after the read of the conflict
    check it sends PUTs only; and it leaves alone what lies outside
    [students] and outside the record of its section. *)
Lemma upload_section_run (section_name : string) (students : list candidate)
      (choice : option string) (w : world) :
  exists b w',
    upload_section_to_firebase section_name students choice w = Ok b w'
    /\ (exists puts,
          log w' = log w ++ mkRequest GET ["students"] JNull :: puts
          /\ Forall (fun r => r_method r = PUT) puts)
    /\ forall pk,
         apartb ["students"] pk = true ->
         apartb ["sections"; str_lower (replace_spaces section_name)] pk = true ->
         store_get pk (db w') = store_get pk (db w).
Proof.
  assert (H : returns (upload_section_to_firebase section_name students choice) w
                      (fun _ _ => True)).
  { apply sat_returns. unfold upload_section_to_firebase. apply sat_try.
    apply sat_bind.
    destruct (check_existing_returns students choice w) as [res [w1 [E _]]].
    rewrite E. cbn [outcome_sat].
    destruct res as [|c0 cs].
    - apply sat_bind. exact I.
    - apply sat_bind. unfold requests_send.
      destruct (net (length (log w1))); cbn [outcome_sat].
      + cbn [status_code Z.eqb Pos.eqb negb]. apply sat_bind.
        eapply sat_weaken; [apply sat_upload_batches| |].
        * intros n w2 _. apply sat_bind. exact I.
        * intros e w2 ->. exact I.
      + cbn [status_code Z.eqb Pos.eqb negb]. apply sat_bind. exact I.
      + exact I. }
  destruct H as [b [w' [E _]]]. exists b, w'. split; [exact E|]. split.
  - destruct (check_existing_returns students choice w) as [res [w1 [E1 [_ [L1 _]]]]].
    assert (Hs : sends (fun r => r_method r = PUT) w1 w').
    { pose proof E as E'. unfold upload_section_to_firebase in E'.
      erewrite try_bind_at in E' by exact E1.
      match type of E' with
      | try_except ?k ?h w1 = _ =>
          assert (Hp : preserves (sends (fun r => r_method r = PUT)) (try_except k h))
      end.
      { apply preserves_try; try apply sends_trans; try apply sends_refl.
        - destruct res as [|c0 cs].
          + sends_bind; [intros w0; now apply sends_quiet|intros w0; apply sends_refl].
          + sends_bind; [now apply sends_requests_send|].
            destruct (negb (Z.eqb (status_code a) 200)).
            * sends_bind; [intros w0; now apply sends_quiet
                          |intros w0; apply sends_refl].
            * sends_bind; [apply sends_upload_batches|].
              sends_bind; [intros w0; now apply sends_quiet
                          |intros w0; apply sends_refl].
        - intros e. sends_bind; [intros w0; now apply sends_quiet
                                |intros w0; apply sends_refl]. }
      specialize (Hp w1). rewrite E' in Hp. exact Hp. }
    destruct Hs as [puts [L F]]. exists puts. split; [|exact F].
    rewrite L, L1. now rewrite <- app_assoc.
  - intros pk Hst Hsec.
    destruct (@frame_upload_section pk section_name students choice Hst Hsec w)
      as [_ D].
    now rewrite E in D.
Qed.

(** X13. The upload of a section never raises and stays in its lane.
    Whatever the store holds and whatever the network does,
    [upload_section_to_firebase] returns a boolean, and everything in
    the tree outside [students] and outside the record of this section
    is as before: no teacher and no other section is touched. *)
Theorem upload_section_never_raises (section_name : string)
        (students : list candidate) (choice : option string) (w : world) :
  exists b w',
    upload_section_to_firebase section_name students choice w = Ok b w'
    /\ forall pk,
         apartb ["students"] pk = true ->
         apartb ["sections"; str_lower (replace_spaces section_name)] pk = true ->
         store_get pk (db w') = store_get pk (db w).
Proof.
  destruct (upload_section_run section_name students choice w)
    as [b [w' [E [_ F]]]].
  now exists b, w'.
Qed.

Lemma match_nonempty {A B} (l : list A) (x y : B) :
  l <> [] -> match l with [] => x | _ :: _ => y end = y.
Proof. destruct l; [contradiction|reflexivity]. Qed.

(** X14. A section record that the store does not accept stops the
    upload before any student is written. If the second round trip of
    [upload_section_to_firebase] is not served, the run writes nothing:
    either there was nothing to upload (it returns [True] after the one
    read), or the PUT of the section record failed and it returns
    [False] without a single student PUT. *)
Theorem upload_section_meta_rejected (section_name : string)
        (students : list candidate) (choice : option string) (w : world) :
  net (S (length (log w))) <> Delivered ->
  let o := upload_section_to_firebase section_name students choice w in
  db (final o) = db w
  /\ ((value o = Some true /\ sent w o = [mkRequest GET ["students"] JNull])
      \/ (value o = Some false
          /\ exists n, sent w o = [mkRequest GET ["students"] JNull;
                                   put_section_meta section_name n])).
Proof.
  intros Hn o.
  assert (H : exists b w',
             o = Ok b w' /\ db w' = db w
             /\ ((b = true /\ log w' = log w ++ [mkRequest GET ["students"] JNull])
                 \/ (b = false
                     /\ exists n, log w' = log w ++ [mkRequest GET ["students"] JNull;
                                                     put_section_meta section_name n]))).
  { destruct (check_existing_returns students choice w) as [res [w1 [E [_ [L D]]]]].
    assert (Hlen : length (log w1) = S (length (log w))).
    { rewrite L, length_app. cbn [length]. lia. }
    unfold o, upload_section_to_firebase, try_except. unfold bind at 1. rewrite E.
    destruct res as [|c0 cs].
    - unfold bind, print, ret. eexists _, _. split; [reflexivity|].
      cbn [db log]. split; [exact D|]. left. now split.
    - unfold bind at 1. unfold requests_send. rewrite Hlen.
      destruct (net (S (length (log w)))); [contradiction| |];
        cbn [status_code Z.eqb Pos.eqb negb]; unfold bind, print, ret;
        (eexists _, _; split; [reflexivity|]);
        cbn [db log logged]; (split; [exact D|]); right;
        (split; [reflexivity|]); exists (length (c0 :: cs));
        rewrite L; now rewrite <- app_assoc. }
  destruct H as [b [w' [E [D H]]]]. rewrite E. cbn [final value].
  split; [exact D|].
  destruct H as [[-> L]|[-> [n L]]]; [left|right]; (split; [reflexivity|]).
  - now apply sent_of_log.
  - exists n. now apply sent_of_log.
Qed.

(** X15. A rejected student does not stop the upload. On a store with
    no students yet, when the section record is accepted and every
    student PUT reaches the store, [upload_section_to_firebase] tries
    every candidate of the batch in order, HTTP errors or not, and
    returns whether at least one PUT was served. *)
Theorem upload_continues_after_rejections (section_name : string)
        (students : list candidate) (choice : option string) (w : world) :
  students <> [] ->
  truthy (store_get ["students"] (db w)) = false ->
  net (S (length (log w))) = Delivered ->
  (forall i, i < length students ->
             net (S (S (length (log w))) + i) <> Unreachable) ->
  exists w',
    upload_section_to_firebase section_name students choice w
    = Ok (Nat.ltb 0 (served (S (S (length (log w)))) (length students))) w'
    /\ sent w (upload_section_to_firebase section_name students choice w)
       = mkRequest GET ["students"] JNull
         :: put_section_meta section_name (length students)
         :: map (put_candidate section_name) students.
Proof.
  intros Hne Ht H1 Hr.
  destruct (check_existing_open students choice w (or_intror (or_introl Ht)))
    as [w1 [E1 [D1 L1]]].
  assert (Hlen : length (log w1) = S (length (log w))).
  { rewrite L1, length_app. cbn [length]. lia. }
  assert (E : exists w',
             upload_section_to_firebase section_name students choice w
             = Ok (Nat.ltb 0 (served (S (S (length (log w)))) (length students))) w'
             /\ log w' = log w ++ mkRequest GET ["students"] JNull
                               :: put_section_meta section_name (length students)
                               :: map (put_candidate section_name) students).
  { unfold upload_section_to_firebase, try_except. unfold bind at 1. rewrite E1.
    rewrite (match_nonempty _ _ Hne).
    unfold bind at 1. unfold requests_send. rewrite Hlen, H1.
    cbn [status_code Z.eqb Pos.eqb negb serve fst snd].
    unfold bind at 1.
    match goal with |- context [upload_batches _ _ _ _ ?w2] => set (W2 := w2) end.
    assert (L2 : log W2 = log w ++ [mkRequest GET ["students"] JNull;
                                    put_section_meta section_name (length students)]).
    { unfold W2. cbn [log logged with_db]. rewrite L1. now rewrite <- app_assoc. }
    assert (Hlen2 : length (log W2) = S (S (length (log w)))).
    { rewrite L2, length_app. cbn [length]. lia. }
    destruct (@upload_batches_reachable section_name
                (batches (length students) 10 students) 0 0 W2) as [w3 [E3 L3]].
    { rewrite batches_concat by lia. rewrite Hlen2. exact Hr. }
    rewrite batches_concat in E3, L3 by lia. rewrite Hlen2 in E3.
    rewrite E3. unfold bind, print, ret. eexists. split; [reflexivity|].
    cbn [log]. rewrite L3, L2. now rewrite <- app_assoc. }
  destruct E as [w' [E L]]. exists w'. split; [exact E|].
  apply sent_of_log. rewrite E. exact L.
Qed.

(** X16. A student PUT that does not reach the store ends the upload.
    On a store with no students yet, when the section record is
    accepted and the PUT of the [k]-th candidate is the first that
    cannot reach the store, [upload_section_to_firebase] returns
    [False], the candidates after the [k]-th are never tried, and the
    section record it wrote stays, announcing the whole batch. *)
Theorem upload_stops_when_unreachable (section_name : string)
        (students : list candidate) (choice : option string) (w : world) (k : nat) :
  truthy (store_get ["students"] (db w)) = false ->
  net (S (length (log w))) = Delivered ->
  k < length students ->
  (forall i, i < k -> net (S (S (length (log w))) + i) <> Unreachable) ->
  net (S (S (length (log w))) + k) = Unreachable ->
  exists w',
    upload_section_to_firebase section_name students choice w = Ok false w'
    /\ sent w (upload_section_to_firebase section_name students choice w)
       = mkRequest GET ["students"] JNull
         :: put_section_meta section_name (length students)
         :: map (put_candidate section_name) (firstn (S k) students)
    /\ store_get ["sections"; str_lower (replace_spaces section_name)] (db w')
       = r_body (put_section_meta section_name (length students)).
Proof.
  intros Ht H1 Hk Hr Hu.
  assert (Hne : students <> []) by (intros ->; inversion Hk).
  destruct (check_existing_open students choice w (or_intror (or_introl Ht)))
    as [w1 [E1 [D1 L1]]].
  assert (Hlen : length (log w1) = S (length (log w))).
  { rewrite L1, length_app. cbn [length]. lia. }
  assert (E : exists w',
             upload_section_to_firebase section_name students choice w = Ok false w'
             /\ log w' = log w ++ mkRequest GET ["students"] JNull
                               :: put_section_meta section_name (length students)
                               :: map (put_candidate section_name)
                                      (firstn (S k) students)
             /\ store_get ["sections"; str_lower (replace_spaces section_name)] (db w')
                = r_body (put_section_meta section_name (length students))).
  { unfold upload_section_to_firebase, try_except. unfold bind at 1. rewrite E1.
    rewrite (match_nonempty _ _ Hne).
    unfold bind at 1. unfold requests_send. rewrite Hlen, H1.
    cbn [status_code Z.eqb Pos.eqb negb serve fst snd].
    unfold bind at 1.
    match goal with |- context [upload_batches _ _ _ _ ?w2] => set (W2 := w2) end.
    assert (L2 : log W2 = log w ++ [mkRequest GET ["students"] JNull;
                                    put_section_meta section_name (length students)]).
    { unfold W2. cbn [log logged with_db]. rewrite L1. now rewrite <- app_assoc. }
    assert (Hlen2 : length (log W2) = S (S (length (log w)))).
    { rewrite L2, length_app. cbn [length]. lia. }
    assert (D2 : store_get ["sections"; str_lower (replace_spaces section_name)] (db W2)
                 = r_body (put_section_meta section_name (length students))).
    { unfold W2. cbn [db with_db].
      apply (store_get_put_same ["sections"; str_lower (replace_spaces section_name)]). }
    pose proof (@frame_upload_batches
                  ["sections"; str_lower (replace_spaces section_name)]
                  section_name (batches (length students) 10 students)
                  eq_refl 0 0 W2) as [_ Hfr].
    destruct (@upload_batches_unreachable section_name
                (batches (length students) 10 students) k 0 0 W2)
      as [w3 [E3 L3]].
    { now rewrite batches_concat by lia. }
    { rewrite Hlen2. exact Hr. }
    { rewrite Hlen2. exact Hu. }
    rewrite batches_concat in L3 by lia.
    rewrite E3 in Hfr. cbn [final] in Hfr.
    rewrite E3. unfold bind, print, ret. eexists. split; [reflexivity|].
    cbn [log db]. split.
    - rewrite L3, L2. now rewrite <- app_assoc.
    - now rewrite Hfr. }
  destruct E as [w' [E [L D]]]. exists w'. split; [exact E|]. split; [|exact D].
  apply sent_of_log. rewrite E. exact L.
Qed.

(* ===================================================================== *)
(** ** Reading the sheets *)
(* ===================================================================== *)

Lemma parse_row_student (row : csv_row) (c : candidate) :
  parse_row row = RowStudent c ->
  py_int (c_admission_number c) = Some (c_id c)
  /\ c_admission_number c <> ""
  /\ c_sections c = [].
Proof.
  unfold parse_row.
  destruct (cell "S.NO" row) as [sn|]; [|discriminate].
  destruct (cell "A.NO." row) as [a|]; [|discriminate].
  destruct (cell "Name" row) as [nm|]; [|discriminate].
  destruct (nonempty sn && nonempty a && nonempty nm) eqn:Hn; cbn [negb];
    [|discriminate].
  destruct (py_int a) as [n|] eqn:Hi; [|discriminate].
  intros H. inversion H; subst c. cbn [c_admission_number c_id c_sections].
  split; [exact Hi|]. split; [|reflexivity].
  apply andb_prop in Hn. destruct Hn as [Hn _].
  apply andb_prop in Hn. destruct Hn as [_ Hn].
  unfold nonempty in Hn. intros ->. discriminate.
Qed.

Lemma row_students_invariant (rows : list csv_row) :
  Forall (fun c => py_int (c_admission_number c) = Some (c_id c)
                   /\ c_admission_number c <> ""
                   /\ c_sections c = []) (row_students rows)
  /\ length (row_students rows) <= length rows.
Proof.
  unfold row_students.
  induction rows as [|row rows [IH1 IH2]]; cbn [flat_map length].
  - split; [constructor|lia].
  - destruct (parse_row row) eqn:P; cbn [app length]; try (split; [exact IH1|lia]).
    split; [|lia]. constructor; [|exact IH1]. now apply (parse_row_student row).
Qed.

(** X17. [read_csv_file] always returns, never talks to the store, and
    every candidate it returns has an id that is the integer value of
    its non-empty admission number and no sections yet; it returns at
    most one candidate per row, and none when the file cannot be read. *)
Theorem read_csv_file_invariant (contents : option (list csv_row)) (w : world) :
  exists students w',
    read_csv_file contents w = Ok students w'
    /\ db w' = db w /\ log w' = log w
    /\ Forall (fun c => py_int (c_admission_number c) = Some (c_id c)
                        /\ c_admission_number c <> ""
                        /\ c_sections c = []) students
    /\ length students <= match contents with
                          | Some rows => length rows
                          | None => 0
                          end.
Proof.
  destruct contents as [rows|]; cbn [read_csv_file].
  - destruct (read_rows_value rows 1 [] w) as [w' [E [D [L _]]]].
    destruct (row_students_invariant rows) as [I1 I2].
    exists (row_students rows), w'. cbn [app] in E.
    split; [exact E|]. split; [exact D|]. split; [exact L|]. now split.
  - eexists [], _. split; [reflexivity|]. cbn [db log length].
    split; [reflexivity|]. split; [reflexivity|]. split; [constructor|lia].
Qed.

(* ===================================================================== *)
(** ** The CSV import of [StutraDB] *)
(* ===================================================================== *)

Lemma sends_add_student_str (name admission_number sections photo_url : string) :
  sections <> "" ->
  preserves (sends import_post_ok)
            (add_student_str name admission_number sections photo_url).
Proof.
  intros Hne. unfold add_student_str.
  apply String.eqb_neq in Hne. rewrite Hne. apply String.eqb_neq in Hne.
  sends_bind; [intros w; now apply sends_quiet|].
  sends_bind; [intros w; now apply sends_quiet|].
  sends_bind.
  { apply sends_make_request. intros _ _. split; [reflexivity|].
    split; [reflexivity|]. exists sections. now split. }
  sends_bind; [|intros w; apply sends_refl].
  apply preserves_for_each; [apply sends_refl|apply sends_trans|].
  intros section_id _. apply sends_add_to_section.
  intros rq Hhd _ Hst. rewrite Hhd in Hst. discriminate.
Qed.

Lemma sends_import_row (row : csv_row) (count : nat) :
  preserves (sends import_post_ok) (import_row row count).
Proof.
  unfold import_row.
  destruct (cell "name" row) as [name|]; [|intros w; apply sends_refl].
  destruct (cell "admission_number" row) as [admission|];
    [|intros w; apply sends_refl].
  destruct (cell "section" row) as [section|]; [|intros w; apply sends_refl].
  destruct (cell "photo_url" row) as [photo_url|]; [|intros w; apply sends_refl].
  destruct (nonempty section) eqn:Hs.
  2: { rewrite !orb_true_r. intros w. now apply sends_quiet. }
  destruct (negb (nonempty name) || negb (nonempty admission) || negb true).
  { intros w. now apply sends_quiet. }
  apply preserves_try; try apply sends_trans; try apply sends_refl.
  - sends_bind; [|intros w; apply sends_refl].
    apply sends_add_student_str. intros ->. discriminate.
  - intros e w. now apply sends_quiet.
Qed.

(** X18. [import_students_csv] never stores a list of sections. In
    every run, over any sheet and any network, each write it sends
    under [students] is the POST of a record whose [sections] field is
    the non-empty text of the row's section cell, a string. *)
Theorem import_posts_string_sections (contents : option (list csv_row)) (w : world) :
  Forall import_post_ok (sent w (import_students_csv contents w)).
Proof.
  apply sends_sent. revert w.
  change (preserves (sends import_post_ok) (import_students_csv contents)).
  destruct contents as [rows|]; cbn [import_students_csv];
    [|intros w; apply sends_refl].
  sends_bind; [|intros w; now apply sends_quiet].
  generalize 0. induction rows as [|row rows IH]; intros n; cbn [import_rows].
  - intros w. apply sends_refl.
  - sends_bind; [apply sends_import_row|apply IH].
Qed.

Lemma add_student_str_online (name admission_number sections photo_url : string)
      (w : world) :
  online ->
  sections <> "" ->
  (forall ch, In ch (str_chars sections) ->
              exists l, members "students" ch (db w) = Some (JArr l)) ->
  let student_id := push_id (tick (tick w)) in
  exists w',
    add_student_str name admission_number sections photo_url w = Ok student_id w'
    /\ store_get ["students"; student_id] (db w')
       = JObj [("name", JStr name);
               ("admissionNumber", JStr admission_number);
               ("sections", JStr sections);
               ("photoUrl", JStr photo_url);
               ("createdAt", JStr (isoformat (ticks w)));
               ("updatedAt", JStr (isoformat (S (ticks w))))]
    /\ (forall ch, In ch (str_chars sections) ->
          exists l', members "students" ch (db w') = Some (JArr l')
                     /\ In (JStr student_id) l').
Proof.
  intros Hon Hne Hsh student_id. unfold add_student_str.
  apply String.eqb_neq in Hne. rewrite Hne.
  unfold bind at 1. unfold now_isoformat at 1.
  unfold bind at 1. unfold now_isoformat at 1.
  unfold bind at 1. rewrite make_request_online by exact Hon.
  cbn [serve fst snd tick ticks]. rewrite result_name_post.
  fold student_id. unfold _add_student_to_section.
  match goal with
  | |- context [bind (for_each _ _) _ ?w1] =>
      assert (Hm1 : forall s l, members "students" s (db w) = Some (JArr l) ->
                      members "students" s (db w1) = Some (JArr l));
      [ intros s l Hl; cbn [db with_db];
        rewrite members_other_tree by reflexivity; exact Hl
      | destruct (@add_to_sections_online "students" student_id
                    (str_chars sections) Hon w1) as [w2 [E2 [F2 G2]]] ]
  end.
  { intros s Hs. destruct (Hsh s Hs) as [l Hl]. exists l. now apply Hm1. }
  unfold bind. rewrite E2. cbn [ret].
  exists w2. split; [reflexivity|]. split.
  - rewrite F2 by reflexivity. cbn [db with_db].
    apply (store_get_put_same ["students"; student_id]).
  - intros s Hs. destruct (Hsh s Hs) as [l Hl].
    destruct (G2 s l (Hm1 s l Hl)) as [l' [M [_ J]]].
    exists l'. split; [exact M|now apply J].
Qed.

(** X19. [import_students_csv] registers a student under the
    characters of the section cell. For a sheet with one complete row,
    served by the store: the record is stored with the cell's text as
    its [sections] (a string, which the validator's student check
    reports as not an array), and the new id is appended to the
    [students] list of one section per character of that text. *)
Theorem import_registers_characters (row : csv_row)
        (name admission section photo_url : string) (w : world) :
  online ->
  cell "name" row = Some name ->
  cell "admission_number" row = Some admission ->
  cell "section" row = Some section ->
  cell "photo_url" row = Some photo_url ->
  name <> "" -> admission <> "" -> section <> "" ->
  (forall ch, In ch (str_chars section) ->
              exists l, members "students" ch (db w) = Some (JArr l)) ->
  exists student_id w',
    import_students_csv (Some [row]) w = Ok tt w'
    /\ store_get ["students"; student_id] (db w')
       = JObj [("name", JStr name);
               ("admissionNumber", JStr admission);
               ("sections", JStr section);
               ("photoUrl", JStr photo_url);
               ("createdAt", JStr (isoformat (ticks w)));
               ("updatedAt", JStr (isoformat (S (ticks w))))]
    /\ check_student student_id (store_get ["students"; student_id] (db w'))
       = Some [("Student " ++ student_id ++ " 'sections' is not an array")%string]
    /\ (forall ch, In ch (str_chars section) ->
          exists l', members "students" ch (db w') = Some (JArr l')
                     /\ In (JStr student_id) l')
    /\ In "Successfully imported 1 students" (stdout w').
Proof.
  intros Hon Cn Ca Cs Cp Hn Ha Hs Hsh.
  destruct (add_student_str_online name admission photo_url w Hon Hs Hsh)
    as [w1 [E [R M]]].
  assert (Hne : forall s, s <> "" -> nonempty s = true).
  { intros s H. unfold nonempty. apply String.eqb_neq in H. now rewrite H. }
  exists (push_id (tick (tick w))).
  unfold import_students_csv. cbn [import_rows]. unfold import_row.
  rewrite Cn, Ca, Cs, Cp, (Hne _ Hn), (Hne _ Ha), (Hne _ Hs). cbn [negb orb].
  unfold try_except, bind. rewrite E. unfold ret, print.
  eexists. split; [reflexivity|]. cbn [db stdout].
  split; [exact R|]. split; [now rewrite R|]. split; [exact M|].
  apply in_or_app. right. now left.
Qed.

(* ===================================================================== *)
(** ** What the conflict check detects *)
(* ===================================================================== *)

Lemma set_mem_str_in (a : string) (s : pyset) :
  set_mem (JStr a) s = true <-> In (JStr a) s.
Proof.
  unfold set_mem. rewrite existsb_exists. split.
  - intros [z [Hin Hz]]. destruct z; try discriminate.
    cbn [scalar_eq] in Hz. apply String.eqb_eq in Hz. now subst.
  - intros Hin. exists (JStr a). split; [exact Hin|]. cbn [scalar_eq].
    apply String.eqb_refl.
Qed.

Lemma set_add_in (x z : json) (s : pyset) :
  In z (set_add x s) -> In z s \/ z = x.
Proof.
  unfold set_add. destruct (set_mem x s); [now left|].
  intros H. apply in_app_or in H. destruct H as [H|[H|[]]]; auto.
Qed.

Lemma set_add_str_in (a : string) (x : json) (s : pyset) :
  In (JStr a) s \/ x = JStr a -> In (JStr a) (set_add x s).
Proof.
  unfold set_add. intros [H| ->].
  - destruct (set_mem x s); [exact H|]. apply in_or_app. now left.
  - destruct (set_mem (JStr a) s) eqn:E.
    + now apply set_mem_str_in.
    + apply in_or_app. right. now left.
Qed.

(** The admission numbers the check collects are those of the records. *)
Lemma admission_set_in (a : string) (values : list json) :
  forall acc,
    In (JStr a) (admission_set values acc)
    <-> In (JStr a) acc
        \/ exists r, In (JObj r) values
                     /\ dict_get "admission_number" r = Some (JStr a).
Proof.
  induction values as [|v values IH]; intros acc; cbn [admission_set].
  - split; [now left|]. intros [H|[r [[] _]]]. exact H.
  - assert (Hskip : (exists r, In (JObj r) values
                               /\ dict_get "admission_number" r = Some (JStr a))
                    -> exists r, In (JObj r) (v :: values)
                                 /\ dict_get "admission_number" r = Some (JStr a)).
    { intros [r [Hin Hr]]. exists r. split; [now right|exact Hr]. }
    destruct v as [| | | | |d];
      try (rewrite IH; split;
           [intros [H|H]; [now left|right; now apply Hskip]
           |intros [H|[r [[Hd|Hin] Hr]]];
            [now left|discriminate|right; now exists r]]).
    destruct (dict_get "admission_number" d) as [x|] eqn:Hx.
    + rewrite IH. split.
      * intros [H|H]; [|right; now apply Hskip].
        apply set_add_in in H. destruct H as [H|H]; [now left|].
        right. exists d. split; [now left|]. now rewrite Hx, H.
      * intros [H|[r [[Hd|Hin] Hr]]].
        -- left. apply set_add_str_in. now left.
        -- inversion Hd; subst r. left. apply set_add_str_in. right. congruence.
        -- right. now exists r.
    + rewrite IH. split.
      * intros [H|H]; [now left|right; now apply Hskip].
      * intros [H|[r [[Hd|Hin] Hr]]]; [now left| |right; now exists r].
        inversion Hd; subst r. congruence.
Qed.

(** [collides] decides [collision]. *)
Lemma collides_collision (d : dict) (c : candidate) :
  collides (map fst d) (admission_set (map snd d) []) c = true <-> collision d c.
Proof.
  unfold collides, collision. rewrite orb_true_iff.
  rewrite set_mem_str_in, admission_set_in.
  assert (Hid : existsb (String.eqb (str_of_int (c_id c))) (map fst d) = true
                <-> In (str_of_int (c_id c)) (map fst d)).
  { rewrite existsb_exists. split.
    - intros [k [Hin Hk]]. apply String.eqb_eq in Hk. now subst.
    - intros Hin. exists (str_of_int (c_id c)). split; [exact Hin|].
      apply String.eqb_refl. }
  rewrite Hid. split; (intros [H|H]; [now left|right]).
  - destruct H as [[]|[r [Hin Hr]]]. apply in_map_iff in Hin.
    destruct Hin as [[k v] [Hv Hin]]. cbn [snd] in Hv. subst v.
    now exists k, r.
  - destruct H as [k [r [Hin Hr]]]. right. exists r. split; [|exact Hr].
    apply in_map_iff. now exists (k, JObj r).
Qed.

Lemma filter_id {A} (f : A -> bool) (l : list A) :
  (forall x, In x l -> f x = true) -> filter f l = l.
Proof.
  induction l as [|x l IH]; intros H; cbn [filter]; [reflexivity|].
  rewrite (H x (or_introl eq_refl)). f_equal. apply IH.
  intros y Hy. apply H. now right.
Qed.

Lemma filter_nil {A} (f : A -> bool) (l : list A) :
  (forall x, In x l -> f x = false) -> filter f l = [].
Proof.
  induction l as [|x l IH]; intros H; cbn [filter]; [reflexivity|].
  rewrite (H x (or_introl eq_refl)). apply IH.
  intros y Hy. apply H. now right.
Qed.





(** X20. The conflict check is sound when the operator answers, and
    complete once the operator agrees. Against a non-empty dict of
    existing records with hashable admission numbers, served by the
    store: when the prompt is answered, or nothing collides, no
    candidate that [check_existing_students] returns has an id that is
    an existing key or an admission number that is the
    [admission_number] of an existing record; when the operator answers
    [y], or nothing collides, every candidate free of both is returned;
    and when something collides and the prompt cannot be read, the
    [EOFError] of [input] is caught with every other exception and the
    whole batch comes back, the colliding candidates with it. *)
Theorem check_existing_sound (students : list candidate) (choice : option string)
        (w : world) (d : dict) :
  online ->
  store_get ["students"] (db w) = JObj d ->
  d <> [] ->
  forallb admission_hashable (map snd d) = true ->
  exists res w',
    check_existing_students students choice w = Ok res w'
    /\ (choice <> None \/ (forall c, In c students -> ~ collision d c) ->
        forall c, In c res -> In c students /\ ~ collision d c)
    /\ ((exists typed, choice = Some typed /\ str_lower typed = "y")
        \/ (forall c, In c students -> ~ collision d c) ->
        forall c, In c students -> ~ collision d c -> In c res)
    /\ (choice = None -> (exists c, In c students /\ collision d c) ->
        res = students).
Proof.
  intros Hon Hd Hne Hh.
  destruct (check_existing_online students choice w Hon Hd Hne Hh)
    as [res [w' [E [Hres _]]]].
  set (ids := map fst d) in *. set (adm := admission_set (map snd d) []) in *.
  assert (Hnew : forall c, In c (filter (fun c => negb (collides ids adm c)) students)
                           <-> In c students /\ ~ collision d c).
  { intros c. rewrite filter_In, negb_true_iff.
    rewrite <- (collides_collision d c). fold ids adm.
    destruct (collides ids adm c);
      split; intros [H1 H2]; (split; [exact H1|]); congruence. }
  assert (Hnone : (forall c, In c students -> ~ collision d c) ->
                  filter (collides ids adm) students = []).
  { intros Hfree. apply filter_nil. intros c Hc.
    destruct (collides ids adm c) eqn:Ecol; [|reflexivity].
    apply collides_collision in Ecol. now destruct (Hfree c Hc). }
  exists res, w'. split; [exact E|]. split; [|split].
  - intros Hchoice c Hc. apply Hnew.
    destruct (filter (collides ids adm) students) as [|c0 cs] eqn:Ec;
      [now rewrite <- Hres|].
    destruct Hchoice as [Hans|Hfree]; [|discriminate (Hnone Hfree)].
    destruct choice as [typed|]; [|now destruct Hans].
    destruct (String.eqb (str_lower typed) "y"); [now rewrite <- Hres|].
    rewrite Hres in Hc. destruct Hc.
  - intros Hchoice c Hc Hfree.
    assert (Hin : In c (filter (fun c => negb (collides ids adm c)) students))
      by now apply Hnew.
    destruct (filter (collides ids adm) students) as [|c0 cs] eqn:Ec;
      [now rewrite Hres|].
    destruct Hchoice as [[typed [-> Hy]]|Hfree'].
    + rewrite Hy, String.eqb_refl in Hres. now rewrite Hres.
    + discriminate (Hnone Hfree').
  - intros -> [c [Hc Hcol]].
    destruct (filter (collides ids adm) students) as [|c0 cs] eqn:Ec;
      [|exact Hres].
    exfalso. apply collides_collision in Hcol. fold ids adm in Hcol.
    assert (Hin : In c (filter (collides ids adm) students))
      by (apply filter_In; now split).
    rewrite Ec in Hin. destruct Hin.
Qed.

(** X21. The conflict check does not see the admission numbers of
    students added through [StutraDB.add_student]. Those records carry
    [admissionNumber], the check reads [admission_number]: against a
    store of such records, served, a batch whose ids are not among the
    keys comes back whole and no conflict is reported, whatever
    admission numbers the two sides share. *)
Theorem check_existing_misses_added_students (students : list candidate)
        (choice : option string) (w : world) (d : dict) :
  online ->
  store_get ["students"] (db w) = JObj d ->
  d <> [] ->
  (forall k v, In (k, v) d -> added_student v) ->
  (forall c, In c students -> ~ In (str_of_int (c_id c)) (map fst d)) ->
  exists w',
    check_existing_students students choice w = Ok students w'
    /\ stdout w' = stdout w.
Proof.
  intros Hon Hd Hne Hadded Hids.
  assert (Hnone : forall k r, In (k, JObj r) d ->
                              dict_get "admission_number" r = None).
  { intros k r Hin. destruct (Hadded k (JObj r) Hin)
      as [n [a [s [p [cr [u Hv]]]]]].
    inversion Hv; subst r. reflexivity. }
  assert (Hh : forallb admission_hashable (map snd d) = true).
  { apply forallb_forall. intros v Hv. apply in_map_iff in Hv.
    destruct Hv as [[k v'] [Hv' Hin]]. cbn [snd] in Hv'. subst v'.
    destruct v; try reflexivity. cbn [admission_hashable].
    now rewrite (Hnone k d0 Hin). }
  assert (Hfree : forall c, In c students -> ~ collision d c).
  { intros c Hc [Hk|[k [r [Hin Hr]]]]; [now apply (Hids c Hc)|].
    rewrite (Hnone k r Hin) in Hr. discriminate. }
  unfold check_existing_students, try_except.
  unfold bind at 1. rewrite requests_send_online by exact Hon.
  cbn [status_code response_json serve fst snd Z.eqb Pos.eqb negb].
  rewrite Hd.
  assert (Ht : truthy (JObj d) = true) by (destruct d; [contradiction|reflexivity]).
  rewrite Ht. cbn [negb].
  unfold bind at 1. rewrite existing_admissions_value by exact Hh.
  assert (Hcol : forall c, In c students ->
            collides (map fst d) (admission_set (map snd d) []) c = false).
  { intros c Hc.
    destruct (collides (map fst d) (admission_set (map snd d) []) c) eqn:E;
      [|reflexivity].
    apply collides_collision in E. now destruct (Hfree c Hc). }
  rewrite (filter_nil _ _ Hcol).
  rewrite filter_id by (intros c Hc; now rewrite (Hcol c Hc)).
  eexists. split; reflexivity.
Qed.

(* ===================================================================== *)
(** ** The backup alone, and the validator after the migrator *)
(* ===================================================================== *)

(** X22. [backup_database] is one read and all or nothing. Every run
    sends the single read of the root and leaves the tree as it is. If
    the read is not served the run ends with [sys.exit(1)] and no file
    is written. If it is served, the dump of the tree is written under
    the given name, or under [backup_<timestamp>.json] when no name (or
    an empty one) is given, and the path of the file is returned. *)
Theorem backup_database_all_or_nothing (filename : option string) (w : world) :
  let o := backup_database filename w in
  db (final o) = db w
  /\ sent w o = [mkRequest GET [] JNull]
  /\ (net (length (log w)) <> Delivered ->
      o = Raise (SystemExit 1) (final o) /\ files (final o) = files w)
  /\ (net (length (log w)) = Delivered ->
      value o = Some (filepath (backup_name filename w))
      /\ files (final o)
         = file_set (filepath (backup_name filename w)) (json_dump (db w)) (files w)).
Proof.
  intros o.
  assert (H : (net (length (log w)) <> Delivered
               /\ o = Raise (SystemExit 1) (logged (mkRequest GET [] JNull) w))
              \/ (net (length (log w)) = Delivered
                  /\ exists t,
                       o = Ok (filepath (backup_name filename w))
                              (mkWorld (db w) (log w ++ [mkRequest GET [] JNull]) t
                                       (file_set (filepath (backup_name filename w))
                                                 (json_dump (db w)) (files w))
                                       (stdout w)))).
  { unfold o, backup_database, bind, make_request.
    destruct (net (length (log w))); [right|left|left];
      try (split; [discriminate|reflexivity]).
    split; [reflexivity|]. unfold backup_name.
    destruct filename as [f|]; [destruct (String.eqb f "")|];
      eexists; reflexivity. }
  destruct H as [[Hn E]|[Hn [t E]]]; rewrite E; cbn [final db files value logged].
  - split; [reflexivity|]. split; [now apply sent_of_log|].
    split; [intros _; now split|]. intros Hd. contradiction.
  - split; [reflexivity|]. split; [now apply sent_of_log|].
    split; [intros Hd; contradiction|]. intros _. now split.
Qed.

(** X23. What the migrator rewrites passes the validator's student
    check. After a served run of [migrate_to_multisection], the record
    stored for a student that was not yet migrated draws no issue from
    the student check of [validate_data_integrity]: its [sections] is a
    non-empty list. *)
Theorem migrated_records_pass_validation (w : world) (k : string) (r : dict) :
  online ->
  is_collection (students_of w) = true ->
  Forall (fun kv => record_ok (snd kv) = true) (items_of (students_of w)) ->
  NoDup (map fst (node_items (students_of w))) ->
  In (k, JObj r) (items_of (students_of w)) ->
  migrated r = false ->
  exists w',
    migrate_to_multisection w = Ok true w'
    /\ check_student k (store_get ["students"; k] (db w')) = Some []
    /\ spec_sound_student (store_get ["students"; k] (db w')) = true.
Proof.
  intros Hon Hcol Hok Hnd Hin Hm.
  destruct (@migrate_rewrites w k r Hon Hcol Hok Hnd Hin Hm) as [w' [t [E G]]].
  exists w'. split; [exact E|]. rewrite G.
  cbn [check_student spec_sound_student]. rewrite migrated_record_sections.
  split; reflexivity.
Qed.

(* ===================================================================== *)
(** ** The driver of the bulk import *)
(* ===================================================================== *)

(** One file: the run returns; a processable file costs the read of
    the conflict check followed by PUTs only, any other file costs no
    request; nothing outside [students] and [sections] changes. *)
Lemma migrate_file_run (answer : option string) (file : string * option (list csv_row))
      (acc : nat * nat) (w : world) :
  exists acc' w',
    migrate_file answer file acc w = Ok acc' w'
    /\ (exists news,
          log w' = log w ++ news
          /\ if processable file
             then exists puts, news = mkRequest GET ["students"] JNull :: puts
                               /\ Forall (fun r => r_method r = PUT) puts
             else news = [])
    /\ forall pk, apartb ["students"] pk = true -> apartb ["sections"] pk = true ->
                  store_get pk (db w') = store_get pk (db w).
Proof.
  destruct file as [name contents]. unfold migrate_file, processable. cbn [fst snd].
  destruct (String.eqb (str_lower (extract_section_name name)) "xi raman").
  { exists acc, w. split; [reflexivity|]. split; [|reflexivity].
    exists []. split; [now rewrite app_nil_r|reflexivity]. }
  cbn [negb andb].
  destruct contents as [rows|]; cbn [read_csv_file].
  - destruct (read_rows_value rows 1 [] w) as [w1 [E1 [D1 [L1 _]]]].
    cbn [app] in E1. unfold bind at 1. rewrite E1.
    destruct (row_students rows) as [|c0 cs] eqn:Er.
    + unfold bind, print, ret. eexists _, _. split; [reflexivity|].
      cbn [log db]. split; [|intros; now rewrite D1].
      exists []. split; [now rewrite L1, app_nil_r|reflexivity].
    + destruct (upload_section_run (extract_section_name name) (c0 :: cs) answer w1)
        as [b [w2 [E2 [[puts [L2 F2]] Fr]]]].
      unfold bind at 1. rewrite E2.
      assert (Hfr : forall pk, apartb ["students"] pk = true ->
                               apartb ["sections"] pk = true ->
                               store_get pk (db w2) = store_get pk (db w)).
      { intros pk Hst Hsec. rewrite <- D1. apply Fr; [exact Hst|].
        now apply apartb_head. }
      destruct b; unfold bind, print, ret; (eexists _, _; split; [reflexivity|]);
        cbn [log db]; (split; [|exact Hfr]);
        exists (mkRequest GET ["students"] JNull :: puts);
        (split; [now rewrite L2, L1|]); now exists puts.
  - unfold bind, print, ret. eexists _, _. split; [reflexivity|].
    cbn [log db]. split; [|reflexivity].
    exists []. split; [now rewrite app_nil_r|reflexivity].
Qed.

Lemma migrate_files_run (answers : nat -> option string)
      (files : list (string * option (list csv_row))) :
  forall i acc w,
    exists acc' w',
      migrate_files answers i files acc w = Ok acc' w'
      /\ (exists news,
            log w' = log w ++ news
            /\ length (filter is_get news) = length (filter processable files)
            /\ (filter processable files = [] -> news = []))
      /\ forall pk, apartb ["students"] pk = true -> apartb ["sections"] pk = true ->
                    store_get pk (db w') = store_get pk (db w).
Proof.
  induction files as [|file files IH]; intros i acc w; cbn [migrate_files filter].
  - exists acc, w. split; [reflexivity|]. split; [|reflexivity].
    exists []. split; [now rewrite app_nil_r|]. now split.
  - destruct (migrate_file_run (answers i) file acc w)
      as [acc1 [w1 [E1 [[n1 [L1 P1]] F1]]]].
    destruct (IH (S i) acc1 w1) as [acc2 [w2 [E2 [[n2 [L2 [C2 N2]]] F2]]]].
    exists acc2, w2. split; [unfold bind; now rewrite E1|].
    split; [|intros pk Hst Hsec; now rewrite F2, F1].
    exists (n1 ++ n2). split; [now rewrite L2, L1, app_assoc|].
    rewrite filter_app, length_app.
    destruct (processable file).
    + destruct P1 as [puts [-> Fp]]. cbn [filter is_get r_method length].
      rewrite (@filter_nil _ is_get puts).
      * split; [cbn [length]; now rewrite C2|discriminate].
      * intros r Hr. rewrite Forall_forall in Fp. unfold is_get.
        now rewrite (Fp r Hr).
    + subst n1. cbn [filter length app]. split; [exact C2|exact N2].
Qed.

(** X24. [migrate_all_sections] always runs to its end. Whatever the
    sheets hold, whatever the operator answers and whatever the network
    does, the driver returns, and everything in the tree outside
    [students] and [sections] is as before. *)
Theorem migrate_all_sections_completes (answers : nat -> option string)
        (csv_files : list (string * option (list csv_row))) (w : world) :
  exists w',
    migrate_all_sections answers csv_files w = Ok tt w'
    /\ forall pk, apartb ["students"] pk = true -> apartb ["sections"] pk = true ->
                  store_get pk (db w') = store_get pk (db w).
Proof.
  unfold migrate_all_sections. destruct csv_files as [|f fs].
  - eexists. split; reflexivity.
  - destruct (migrate_files_run answers (f :: fs) 0 (0, 0) w)
      as [acc [w1 [E [_ F]]]].
    unfold bind. rewrite E. unfold print. eexists. split; [reflexivity|].
    exact F.
Qed.

(** X25. [migrate_all_sections] attempts every section. A run makes
    exactly one conflict check (the only read it sends) for each sheet
    whose section is not on the skip list and that yields at least one
    valid student, however the uploads before it ended; a directory
    with no such sheet causes no request at all. *)
Theorem migrate_all_sections_attempts_each (answers : nat -> option string)
        (csv_files : list (string * option (list csv_row))) (w : world) :
  let o := migrate_all_sections answers csv_files w in
  length (filter is_get (sent w o)) = length (filter processable csv_files)
  /\ (filter processable csv_files = [] -> sent w o = []).
Proof.
  intros o.
  assert (H : exists news,
             log (final o) = log w ++ news
             /\ length (filter is_get news) = length (filter processable csv_files)
             /\ (filter processable csv_files = [] -> news = [])).
  { unfold o, migrate_all_sections. destruct csv_files as [|f fs].
    - exists []. cbn [print final log filter length].
      split; [now rewrite app_nil_r|]. now split.
    - destruct (migrate_files_run answers (f :: fs) 0 (0, 0) w)
        as [acc [w1 [E [[news [L [C N]]] _]]]].
      unfold bind. rewrite E. unfold print. cbn [final log].
      exists news. now split. }
  destruct H as [news [L [C N]]].
  rewrite (sent_of_log w o news L). now split.
Qed.

End Engine.

(* ===================================================================== *)
(** ** The properties on the example stores *)
(* ===================================================================== *)

Lemma net_ok_online : online net_ok.
Proof. intros n. reflexivity. Qed.

Ltac distinct_keys :=
  repeat (constructor; [simpl; intuition discriminate|]); constructor.

Lemma migrate_legacy_record_witness :
  exists w' r' t,
    (migrate_to_multisection net_ok push_id_ex isoformat_ex strftime_ex set_iter_ex
                             json_dump_ex filepath_ex) ex_world = Ok true w'
    /\ store_get ["students"; "s1"] (db w') = JObj r'
    /\ dict_get "sections" r' = Some (JArr [JStr "A"])
    /\ dict_get "section" r' = None
    /\ dict_get "updatedAt" r' = Some (JStr (isoformat_ex t))
    /\ (forall f, f <> "sections" -> f <> "updatedAt" -> f <> "section" ->
                  dict_get f r' = dict_get f ex_s1).
Proof.
  apply (@migrate_legacy_record net_ok push_id_ex isoformat_ex strftime_ex
           set_iter_ex json_dump_ex filepath_ex ex_world "s1" ex_s1 "A").
  - exact net_ok_online.
  - reflexivity.
  - repeat constructor.
  - distinct_keys.
  - simpl. now left.
  - reflexivity.
  - reflexivity.
Defined.

(** The same on the list-format collection: the record at index 1. *)
Example migrate_legacy_record_list_format :
  exists w' r',
    migrate_to_multisection net_ok push_id_ex isoformat_ex strftime_ex set_iter_ex
                            json_dump_ex filepath_ex ex_world_list = Ok true w'
    /\ store_get ["students"; "1"] (db w') = JObj r'
    /\ dict_get "sections" r' = Some (JArr [JStr "A"])
    /\ dict_get "section" r' = None.
Proof.
  destruct (@migrate_legacy_record net_ok push_id_ex isoformat_ex strftime_ex
              set_iter_ex json_dump_ex filepath_ex ex_world_list "1" ex_s1 "A")
    as [w' [r' [t [E [G [S [N _]]]]]]].
  - exact net_ok_online.
  - reflexivity.
  - repeat constructor.
  - apply list_format_keys_distinct.
  - simpl. now left.
  - reflexivity.
  - reflexivity.
  - now exists w', r'.
Qed.

Lemma migrate_skips_migrated_witness :
  Forall (fun rq => harmless ["students"; "s2"] rq = true)
         (sent ex_world ((migrate_to_multisection net_ok push_id_ex isoformat_ex strftime_ex set_iter_ex
                             json_dump_ex filepath_ex) ex_world))
  /\ store_get ["students"; "s2"] (db ex_world) = JObj ex_s2
  /\ store_get ["students"; "s2"] (db (final ((migrate_to_multisection net_ok push_id_ex isoformat_ex strftime_ex set_iter_ex
                             json_dump_ex filepath_ex) ex_world))) = JObj ex_s2.
Proof.
  apply (@migrate_skips_migrated net_ok push_id_ex isoformat_ex strftime_ex
           set_iter_ex json_dump_ex filepath_ex ex_world "s2" ex_s2 [JStr "B"]).
  - distinct_keys.
  - simpl. right. now left.
  - reflexivity.
Defined.

Lemma malformed_record_handling_witness :
  (exists issues w1 w2,
      collect_issues net_ok push_id_ex ex_world = Ok issues w1
      /\ In (shape_issue "s3" ex_s3) issues
      /\ validate_data_integrity net_ok push_id_ex ex_world = Ok false w2)
  /\ (exists w3 r' t,
         (migrate_to_multisection net_ok push_id_ex isoformat_ex strftime_ex set_iter_ex
                             json_dump_ex filepath_ex) ex_world = Ok true w3
         /\ store_get ["students"; "s3"] (db w3) = JObj r'
         /\ dict_get "sections" r'
            = Some (JArr [dict_get_default "section" (JStr "default") ex_s3])
         /\ dict_get "updatedAt" r' = Some (JStr (isoformat_ex t))).
Proof.
  apply (@malformed_record_handling net_ok push_id_ex isoformat_ex strftime_ex
           set_iter_ex json_dump_ex filepath_ex ex_world "s3" ex_s3).
  - exact net_ok_online.
  - reflexivity.
  - repeat constructor.
  - reflexivity.
  - reflexivity.
  - distinct_keys.
  - simpl. right. right. now left.
  - left. split; reflexivity.
Defined.

(** C3, counterexample. The record [s3] has neither [section] nor
    [sections]; the migrator turns it into a migrated record with the
    section value ["default"], and prints nothing about it. *)
Lemma malformed_record_coerced :
  dict_get "section" ex_s3 = None
  /\ dict_get "sections" ex_s3 = None
  /\ exists w' r',
      (migrate_to_multisection net_ok push_id_ex isoformat_ex strftime_ex set_iter_ex
                             json_dump_ex filepath_ex) ex_world = Ok true w'
      /\ store_get ["students"; "s3"] (db w') = JObj r'
      /\ migrated r' = true
      /\ dict_get "sections" r' = Some (JArr [JStr "default"])
      /\ stdout w' = [].
Proof.
  split; [reflexivity|]. split; [reflexivity|].
  eexists _, _. split; [vm_compute; reflexivity|].
  split; [vm_compute; reflexivity|]. repeat split; reflexivity.
Qed.



Lemma add_to_section_idempotent_witness :
  db (final ((_add_student_to_section net_ok push_id_ex "s2" "default" ;;
              _add_student_to_section net_ok push_id_ex "s2" "default")%py ex_world))
  = db (final (_add_student_to_section net_ok push_id_ex "s2" "default" ex_world)).
Proof.
  apply (@add_to_section_idempotent net_ok push_id_ex "students"
           (_add_student_to_section net_ok push_id_ex) "s2" "default" ex_world).
  left. split; reflexivity.
Defined.



Lemma read_csv_skips_non_numeric_witness :
  exists w',
    read_csv_file strip_ex title_ex int_ex
                  (Some (ex_rows_before ++ ex_row_bad :: ex_rows_after)) ex_world
    = Ok [mkCandidate 101 "Asha Rao" "101" []; mkCandidate 103 "Cy Das" "103" []] w'.
Proof.
  destruct (@read_csv_skips_non_numeric strip_ex title_ex int_ex ex_rows_before
              ex_rows_after ex_row_bad "12a" ex_world) as [w' [E _]].
  - reflexivity.
  - reflexivity.
  - exists w'. exact E.
Defined.

Lemma migrate_creates_sections_witness :
  exists w' t,
    (migrate_to_multisection net_ok push_id_ex isoformat_ex strftime_ex set_iter_ex
                             json_dump_ex filepath_ex) ex_world = Ok true w'
    /\ sent ex_world ((migrate_to_multisection net_ok push_id_ex isoformat_ex strftime_ex set_iter_ex
                             json_dump_ex filepath_ex) ex_world)
       = mkRequest GET [] JNull :: mkRequest GET ["students"] JNull
         :: student_puts isoformat_ex 1 (items_of (students_of ex_world))
            ++ section_posts isoformat_ex t [JStr "A"; JStr "default"].
Proof.
  destruct (@migrate_creates_sections net_ok push_id_ex isoformat_ex strftime_ex
              set_iter_ex json_dump_ex filepath_ex ex_world)
    as [w' [t [E [S _]]]].
  - exact net_ok_online.
  - reflexivity.
  - repeat constructor.
  - exists w', t. split; [exact E|exact S].
Defined.

(** C8, counterexample. Section ["A"] has a record under its slug ["a"]
    before the run; the migrator posts a second record named ["A"], and
    the store then holds both. *)
Lemma existing_section_created_again :
  lower_ex (replace_spaces "A") = "a"
  /\ store_get ["sections"; "a"; "name"] ex_db = JStr "A"
  /\ exists w',
      (migrate_to_multisection net_ok push_id_ex isoformat_ex strftime_ex set_iter_ex
                             json_dump_ex filepath_ex) ex_world = Ok true w'
      /\ filter is_write (filter (fun r => apartb ["students"] (r_path r))
                                 (sent ex_world ((migrate_to_multisection net_ok push_id_ex isoformat_ex strftime_ex set_iter_ex
                             json_dump_ex filepath_ex) ex_world)))
         = [post_section isoformat_ex (JStr "A") 3]
      /\ store_get ["sections"; "a"; "name"] (db w') = JStr "A"
      /\ store_get ["sections"; "-N4"; "name"] (db w') = JStr "A".
Proof.
  split; [reflexivity|]. split; [reflexivity|].
  eexists. split; [vm_compute; reflexivity|]. repeat split; reflexivity.
Qed.

Lemma restore_of_empty_backup_witness :
  let held := [("scripts/backup.json", "null")] in
  let rejected :=
    restore_database (net_fail_at 1) push_id_ex json_load_ex filepath_ex lower_ex
                     false "backup.json" true None
                     (mkWorld ex_db [mkRequest GET [] JNull] 0 held []) in
  let ignored :=
    restore_database (net_fail_at 1) push_id_ex json_load_ex filepath_ex lower_ex
                     false "backup.json" true None (mkWorld ex_db [] 0 held []) in
  (exists w1,
      backup_database (net_fail_at 1) push_id_ex strftime_ex json_dump_ex filepath_ex
                      (Some "backup.json") (mkWorld JNull [] 0 [] [])
      = Ok "scripts/backup.json" w1
      /\ file_get "scripts/backup.json" (files w1) = Some "null")
  /\ (rejected = Raise (SystemExit 1) (final rejected)
      /\ db (final rejected) = ex_db
      /\ log (final rejected) = [mkRequest GET [] JNull; mkRequest PUT [] JNull])
  /\ (ignored = Ok tt (final ignored)
      /\ db (final ignored) = ex_db
      /\ log (final ignored) = [mkRequest PUT [] JNull])
  /\ ex_db <> JNull.
Proof.
  intros held rejected ignored.
  destruct (@restore_of_empty_backup (net_fail_at 1) push_id_ex strftime_ex
              json_dump_ex json_load_ex filepath_ex lower_ex false
              (Some "backup.json") true None (mkWorld JNull [] 0 [] []))
    as [w1 [E [Hfile Hrestore]]].
  - reflexivity.
  - reflexivity.
  - reflexivity.
  - now left.
  - split; [exists w1; split; [exact E|exact Hfile]|].
    split; [|split; [|discriminate]].
    + destruct (Hrestore (mkWorld ex_db [mkRequest GET [] JNull] 0 held []))
        as [Hsent [Hrejected _]]; [reflexivity|].
      destruct Hrejected as [Hexit Hdb]; [vm_compute; discriminate|].
      split; [exact Hexit|]. split; [exact Hdb|]. vm_compute. reflexivity.
    + destruct (Hrestore (mkWorld ex_db [] 0 held []))
        as [Hsent [_ Hserved]]; [reflexivity|].
      destruct Hserved as [Hok Hdb]; [reflexivity|].
      split; [exact Hok|]. split; [exact Hdb|]. vm_compute. reflexivity.
Defined.

Lemma backup_then_restore_nonempty_witness :
  exists name w1,
    backup_database net_ok push_id_ex strftime_ex json_dump_ex filepath_ex
                    (Some "backup.json") ex_world = Ok (filepath_ex name) w1
    /\ db w1 = db ex_world
    /\ file_get (filepath_ex name) (files w1) = Some (json_dump_ex (db ex_world))
    /\ forall w2,
        file_get (filepath_ex name) (files w2) = Some (json_dump_ex (db ex_world)) ->
        exists w3,
          restore_database net_ok push_id_ex json_load_ex filepath_ex lower_ex
                           false name true None w2 = Ok tt w3
          /\ db w3 = db ex_world
          /\ sent w2 (restore_database net_ok push_id_ex json_load_ex filepath_ex
                                       lower_ex false name true None w2)
             = [mkRequest PUT [] (db ex_world)].
Proof.
  apply (@backup_then_restore_nonempty net_ok push_id_ex strftime_ex json_dump_ex
           json_load_ex filepath_ex lower_ex false (Some "backup.json") true None
           ex_world).
  - exact net_ok_online.
  - discriminate.
  - reflexivity.
  - now left.
Defined.

Lemma add_student_default_section_witness :
  exists student_id w' r l',
    add_student net_ok push_id_ex isoformat_ex "Di" "104" [] "" ex_world
    = Ok student_id w'
    /\ store_get ["students"; student_id] (db w') = JObj r
    /\ dict_get "sections" r = Some (JArr [JStr "default"])
    /\ members "students" "default" (db w') = Some (JArr l')
    /\ In (JStr student_id) l'
    /\ (~ In (JStr student_id) [JStr "s9"] -> l' = [JStr "s9"] ++ [JStr student_id]).
Proof.
  apply (@add_student_default_section net_ok push_id_ex isoformat_ex "Di" "104" ""
           ex_world [JStr "s9"]).
  - exact net_ok_online.
  - reflexivity.
Defined.

(* ===================================================================== *)
(** ** The further properties on the example stores *)
(* ===================================================================== *)

Lemma remove_student_law_witness :
  sent ex_world (remove_student net_ok push_id_ex "s1" ex_world)
  = [mkRequest GET ["students"; "s1"] JNull;
     mkRequest DELETE ["students"; "s1"] JNull]
  /\ store_get ["students"; "s1"]
               (db (final (remove_student net_ok push_id_ex "s1" ex_world))) = JNull
  /\ store_get ["sections"; "default"]
               (db (final (remove_student net_ok push_id_ex "s1" ex_world)))
     = store_get ["sections"; "default"] ex_db.
Proof.
  destruct (remove_student_law net_ok push_id_ex "s1" ex_world)
    as [_ [Hsec [_ Hpresent]]].
  destruct (Hpresent net_ok_online eq_refl) as [Hsent [Hgone _]].
  split; [exact Hsent|]. split; [exact Hgone|]. apply Hsec.
Defined.

Lemma remove_teacher_law_witness :
  sent ex_world (remove_teacher net_ok push_id_ex "t1" ex_world)
  = [mkRequest GET ["teachers"; "t1"] JNull]
  /\ db (final (remove_teacher net_ok push_id_ex "t1" ex_world)) = ex_db.
Proof.
  destruct (remove_teacher_law net_ok push_id_ex "t1" ex_world)
    as [_ [_ [Habsent _]]].
  apply Habsent. reflexivity.
Defined.

Lemma add_student_registers_witness :
  exists student_id w',
    add_student net_ok push_id_ex isoformat_ex "Di" "104" ["a"; "default"] "" ex_world
    = Ok student_id w'
    /\ store_get ["students"; student_id] (db w')
       = JObj [("name", JStr "Di");
               ("admissionNumber", JStr "104");
               ("sections", JArr (map JStr (sections_or_default ["a"; "default"])));
               ("photoUrl", JStr "");
               ("createdAt", JStr (isoformat_ex (ticks ex_world)));
               ("updatedAt", JStr (isoformat_ex (S (ticks ex_world))))]
    /\ (forall s, In s (sections_or_default ["a"; "default"]) ->
          exists l', members "students" s (db w') = Some (JArr l')
                     /\ In (JStr student_id) l')
    /\ (forall s l, members "students" s (db ex_world) = Some (JArr l) ->
          exists l', members "students" s (db w') = Some (JArr l')
                     /\ forall x, In x l -> In x l').
Proof.
  apply (@add_student_registers net_ok push_id_ex isoformat_ex "Di" "104"
           ["a"; "default"] "" ex_world).
  - exact net_ok_online.
  - intros s [<-|[<-|[]]]; eexists; reflexivity.
Defined.

Lemma add_teacher_registers_witness :
  exists teacher_id w',
    add_teacher net_ok push_id_ex isoformat_ex "t@school" "Tara" ["a"] ex_world
    = Ok teacher_id w'
    /\ store_get ["teachers"; teacher_id] (db w')
       = JObj [("email", JStr "t@school");
               ("name", JStr "Tara");
               ("assignedSections", JArr (map JStr ["a"]));
               ("createdAt", JStr (isoformat_ex (ticks ex_world)));
               ("updatedAt", JStr (isoformat_ex (S (ticks ex_world))))]
    /\ (forall s, In s ["a"] ->
          exists l', members "teachers" s (db w') = Some (JArr l')
                     /\ In (JStr teacher_id) l')
    /\ (["a"] = [] ->
        store_get ["sections"] (db w') = store_get ["sections"] (db ex_world)).
Proof.
  apply (@add_teacher_registers net_ok push_id_ex isoformat_ex "t@school" "Tara"
           ["a"] ex_world).
  - exact net_ok_online.
  - intros s [<-|[]]; eexists; reflexivity.
Defined.

Lemma restore_database_gate_witness :
  sent ex_world_backup
       (restore_database net_ok push_id_ex json_load_ex filepath_ex lower_ex false
                         "b.json" false (Some "no") ex_world_backup) = []
  /\ db (final (restore_database net_ok push_id_ex json_load_ex filepath_ex lower_ex
                                 false "b.json" false (Some "no") ex_world_backup))
     = ex_db.
Proof.
  destruct (restore_database_gate net_ok push_id_ex json_load_ex filepath_ex lower_ex
              false "b.json" false (Some "no") ex_world_backup) as [_ [Hgate _]].
  apply Hgate; [reflexivity|]. intros a Ha H. injection Ha as <-.
  vm_compute in H. discriminate.
Defined.

Lemma migrate_stops_at_first_failure_witness :
  3 = length (sent ex_world
                   (migrate_to_multisection (net_fail_at 2) push_id_ex isoformat_ex
                      strftime_ex set_iter_ex json_dump_ex filepath_ex ex_world))
  /\ migrate_to_multisection (net_fail_at 2) push_id_ex isoformat_ex
       strftime_ex set_iter_ex json_dump_ex filepath_ex ex_world
     = Raise (SystemExit 1)
             (final (migrate_to_multisection (net_fail_at 2) push_id_ex isoformat_ex
                       strftime_ex set_iter_ex json_dump_ex filepath_ex ex_world)).
Proof.
  apply (@migrate_stops_at_first_failure (net_fail_at 2) push_id_ex isoformat_ex
           strftime_ex set_iter_ex json_dump_ex filepath_ex ex_world 2).
  - vm_compute. lia.
  - vm_compute. discriminate.
Defined.

Lemma migrate_backs_up_first_witness :
  file_get (filepath_ex (pre_migration_backup strftime_ex ex_world))
           (files (final (migrate_to_multisection net_ok push_id_ex isoformat_ex
                            strftime_ex set_iter_ex json_dump_ex filepath_ex ex_world)))
  = Some (json_dump_ex ex_db).
Proof.
  apply (@migrate_backs_up_first net_ok push_id_ex isoformat_ex strftime_ex
           set_iter_ex json_dump_ex filepath_ex ex_world).
  exists (put_student "s1" (isoformat_ex 1) ex_s1).
  split; [vm_compute; right; right; left; reflexivity|reflexivity].
Defined.

Lemma migrate_twice_witness :
  exists w1,
    migrate_to_multisection net_ok push_id_ex isoformat_ex strftime_ex set_iter_ex
                            json_dump_ex filepath_ex ex_world = Ok true w1
    /\ store_get ["students"] (db w1)
       = JObj (migrate_items isoformat_ex (S (ticks ex_world))
                 [("s1", JObj ex_s1); ("s2", JObj ex_s2); ("s3", JObj ex_s3)])
    /\ Forall (fun kv => exists r, snd kv = JObj r /\ migrated r = true)
              (migrate_items isoformat_ex (S (ticks ex_world))
                 [("s1", JObj ex_s1); ("s2", JObj ex_s2); ("s3", JObj ex_s3)])
    /\ exists w2,
         migrate_to_multisection net_ok push_id_ex isoformat_ex strftime_ex
                                 set_iter_ex json_dump_ex filepath_ex w1 = Ok true w2
         /\ sent w1 (migrate_to_multisection net_ok push_id_ex isoformat_ex
                       strftime_ex set_iter_ex json_dump_ex filepath_ex w1)
            = [mkRequest GET [] JNull; mkRequest GET ["students"] JNull]
         /\ db w2 = db w1.
Proof.
  apply (@migrate_twice net_ok push_id_ex isoformat_ex strftime_ex set_iter_ex
           json_dump_ex filepath_ex ex_world
           [("s1", JObj ex_s1); ("s2", JObj ex_s2); ("s3", JObj ex_s3)]).
  - exact net_ok_online.
  - reflexivity.
  - reflexivity.
  - distinct_keys.
  - repeat constructor.
Defined.

Lemma add_student_no_rollback_witness :
  add_student (net_fail_at 1) push_id_ex isoformat_ex "Di" "104" ["a"] "" ex_world
  = Raise (SystemExit 1)
          (final (add_student (net_fail_at 1) push_id_ex isoformat_ex "Di" "104"
                              ["a"] "" ex_world))
  /\ store_get ["sections"]
               (db (final (add_student (net_fail_at 1) push_id_ex isoformat_ex
                                       "Di" "104" ["a"] "" ex_world)))
     = store_get ["sections"] ex_db.
Proof.
  destruct (@add_student_no_rollback (net_fail_at 1) push_id_ex isoformat_ex
              "Di" "104" ["a"] "" ex_world) as [Hexit [_ [_ Hsec]]].
  - reflexivity.
  - vm_compute. discriminate.
  - split; [exact Hexit|exact Hsec].
Defined.

Lemma check_existing_fail_open_witness :
  exists w',
    check_existing_students net_ok push_id_ex lower_ex ex_batch (Some "n") ex_world_list
    = Ok ex_batch w'
    /\ db w' = db ex_world_list.
Proof.
  apply (@check_existing_fail_open net_ok push_id_ex lower_ex ex_batch (Some "n")
           ex_world_list).
  right. right. reflexivity.
Defined.

Lemma upload_section_meta_rejected_witness :
  db (final (upload_section_to_firebase (net_fail_at 1) push_id_ex lower_ex
               "XI Curie" ex_batch (Some "y") ex_world_import)) = ex_db_import.
Proof.
  destruct (@upload_section_meta_rejected (net_fail_at 1) push_id_ex lower_ex
              "XI Curie" ex_batch (Some "y") ex_world_import) as [Hdb _].
  - vm_compute. discriminate.
  - exact Hdb.
Defined.

Lemma upload_continues_after_rejections_witness :
  exists w',
    upload_section_to_firebase (net_fail_at 3) push_id_ex lower_ex "XI Curie"
                               ex_batch (Some "y") ex_world_fresh
    = Ok (Nat.ltb 0 (served (net_fail_at 3) (S (S (length (log ex_world_fresh))))
                            (length ex_batch))) w'
    /\ sent ex_world_fresh
            (upload_section_to_firebase (net_fail_at 3) push_id_ex lower_ex "XI Curie"
                                        ex_batch (Some "y") ex_world_fresh)
       = mkRequest GET ["students"] JNull
         :: put_section_meta lower_ex "XI Curie" (length ex_batch)
         :: map (put_candidate "XI Curie") ex_batch.
Proof.
  apply (@upload_continues_after_rejections (net_fail_at 3) push_id_ex lower_ex
           "XI Curie" ex_batch (Some "y") ex_world_fresh).
  - discriminate.
  - reflexivity.
  - reflexivity.
  - intros i _. unfold net_fail_at.
    destruct (Nat.eqb (S (S (length (log ex_world_fresh))) + i) 3); discriminate.
Defined.

Lemma upload_stops_when_unreachable_witness :
  exists w',
    upload_section_to_firebase (net_down_at 3) push_id_ex lower_ex "XI Curie"
                               ex_batch (Some "y") ex_world_fresh = Ok false w'
    /\ sent ex_world_fresh
            (upload_section_to_firebase (net_down_at 3) push_id_ex lower_ex "XI Curie"
                                        ex_batch (Some "y") ex_world_fresh)
       = mkRequest GET ["students"] JNull
         :: put_section_meta lower_ex "XI Curie" (length ex_batch)
         :: map (put_candidate "XI Curie") (firstn 2 ex_batch)
    /\ store_get ["sections"; lower_ex (replace_spaces "XI Curie")] (db w')
       = r_body (put_section_meta lower_ex "XI Curie" (length ex_batch)).
Proof.
  apply (@upload_stops_when_unreachable (net_down_at 3) push_id_ex lower_ex
           "XI Curie" ex_batch (Some "y") ex_world_fresh 1).
  - reflexivity.
  - reflexivity.
  - vm_compute. lia.
  - intros i Hi. assert (i = 0) by lia. subst i. vm_compute. discriminate.
  - reflexivity.
Defined.

Lemma import_registers_characters_witness :
  exists student_id w',
    import_students_csv net_ok push_id_ex isoformat_ex strip_ex chars_ex
                        (Some [ex_import_row]) ex_world = Ok tt w'
    /\ store_get ["students"; student_id] (db w')
       = JObj [("name", JStr "Di");
               ("admissionNumber", JStr "104");
               ("sections", JStr "A1");
               ("photoUrl", JStr "");
               ("createdAt", JStr (isoformat_ex (ticks ex_world)));
               ("updatedAt", JStr (isoformat_ex (S (ticks ex_world))))]
    /\ check_student student_id (store_get ["students"; student_id] (db w'))
       = Some [("Student " ++ student_id ++ " 'sections' is not an array")%string]
    /\ (forall ch, In ch (chars_ex "A1") ->
          exists l', members "students" ch (db w') = Some (JArr l')
                     /\ In (JStr student_id) l')
    /\ In "Successfully imported 1 students" (stdout w').
Proof.
  apply (@import_registers_characters net_ok push_id_ex isoformat_ex strip_ex
           chars_ex ex_import_row "Di" "104" "A1" "" ex_world).
  - exact net_ok_online.
  - reflexivity.
  - reflexivity.
  - reflexivity.
  - reflexivity.
  - discriminate.
  - discriminate.
  - discriminate.
  - intros ch [<-|[<-|[]]]; eexists; reflexivity.
Defined.

Lemma check_existing_sound_witness :
  let d := [("k1", JObj [("name", JStr "Asha"); ("admission_number", JStr "101")]);
            ("k2", JObj [("name", JStr "Bo"); ("admission_number", JStr "102")])] in
  (exists res w',
      check_existing_students net_ok push_id_ex lower_ex ex_batch (Some "y")
                              ex_world_import = Ok res w'
      /\ (forall c, In c res -> In c ex_batch /\ ~ collision d c)
      /\ (forall c, In c ex_batch -> ~ collision d c -> In c res))
  /\ (exists w',
         check_existing_students net_ok push_id_ex lower_ex ex_batch None
                                 ex_world_import = Ok ex_batch w'
         /\ collision d (mkCandidate 101 "Asha" "101" [])).
Proof.
  intros d.
  assert (Hne : d <> []) by discriminate.
  split.
  - destruct (@check_existing_sound net_ok push_id_ex lower_ex ex_batch (Some "y")
                ex_world_import d net_ok_online eq_refl Hne eq_refl)
      as [res [w' [E [Hsound [Hcomplete _]]]]].
    exists res, w'. split; [exact E|]. split.
    + apply Hsound. left. discriminate.
    + apply Hcomplete. left. exists "y". split; reflexivity.
  - assert (Hcol : collision d (mkCandidate 101 "Asha" "101" [])).
    { right. exists "k1", [("name", JStr "Asha"); ("admission_number", JStr "101")].
      split; [now left|reflexivity]. }
    destruct (@check_existing_sound net_ok push_id_ex lower_ex ex_batch None
                ex_world_import d net_ok_online eq_refl Hne eq_refl)
      as [res [w' [E [_ [_ Hwhole]]]]].
    exists w'. split; [|exact Hcol].
    rewrite E. f_equal. apply Hwhole; [reflexivity|].
    exists (mkCandidate 101 "Asha" "101" []). split; [now left|exact Hcol].
Defined.

Lemma check_existing_misses_added_students_witness :
  exists w',
    check_existing_students net_ok push_id_ex lower_ex
                            [mkCandidate 104 "Di" "104" []] (Some "n") ex_world_added
    = Ok [mkCandidate 104 "Di" "104" []] w'
    /\ stdout w' = stdout ex_world_added.
Proof.
  apply (@check_existing_misses_added_students net_ok push_id_ex lower_ex
           [mkCandidate 104 "Di" "104" []] (Some "n") ex_world_added
           [("-Nabc", JObj [("name", JStr "Di");
                            ("admissionNumber", JStr "104");
                            ("sections", JArr [JStr "A"]);
                            ("photoUrl", JStr "");
                            ("createdAt", JStr "2025-01-27T10:00:00");
                            ("updatedAt", JStr "2025-01-27T10:00:00")])]).
  - exact net_ok_online.
  - reflexivity.
  - discriminate.
  - intros k v [H|[]]. inversion H; subst. repeat eexists.
  - intros c [<-|[]] [H|[]]. vm_compute in H. discriminate.
Defined.

Lemma backup_database_all_or_nothing_witness :
  value (backup_database net_ok push_id_ex strftime_ex json_dump_ex filepath_ex
                         None ex_world)
  = Some (filepath_ex (backup_name strftime_ex None ex_world))
  /\ files (final (backup_database net_ok push_id_ex strftime_ex json_dump_ex
                                   filepath_ex None ex_world))
     = file_set (filepath_ex (backup_name strftime_ex None ex_world))
                (json_dump_ex ex_db) (files ex_world).
Proof.
  destruct (backup_database_all_or_nothing net_ok push_id_ex strftime_ex json_dump_ex
              filepath_ex None ex_world) as [_ [_ [_ Hserved]]].
  apply Hserved. reflexivity.
Defined.

Lemma migrated_records_pass_validation_witness :
  exists w',
    migrate_to_multisection net_ok push_id_ex isoformat_ex strftime_ex set_iter_ex
                            json_dump_ex filepath_ex ex_world = Ok true w'
    /\ check_student "s3" (store_get ["students"; "s3"] (db w')) = Some []
    /\ spec_sound_student (store_get ["students"; "s3"] (db w')) = true.
Proof.
  apply (@migrated_records_pass_validation net_ok push_id_ex isoformat_ex strftime_ex
           set_iter_ex json_dump_ex filepath_ex ex_world "s3" ex_s3).
  - exact net_ok_online.
  - reflexivity.
  - repeat constructor.
  - distinct_keys.
  - simpl. right. right. now left.
  - reflexivity.
Defined.

(** The driver on three sheets: only the third is uploaded. *)
Example migrate_all_sections_example :
  sent ex_world_fresh
       (migrate_all_sections net_ok push_id_ex lower_ex strip_ex title_ex int_ex
                             chars_ex replace_ex isdigit_ex capitalize_ex
                             (fun _ => Some "y") ex_files ex_world_fresh)
  = [mkRequest GET ["students"] JNull;
     put_section_meta lower_ex "XI Curie" 1;
     put_candidate "XI Curie" (mkCandidate 103 "Cy Das" "103" [])].
Proof. vm_compute. reflexivity. Qed.

Lemma migrate_all_sections_attempts_each_witness :
  sent ex_world_import
       (migrate_all_sections net_ok push_id_ex lower_ex strip_ex title_ex int_ex
                             chars_ex replace_ex isdigit_ex capitalize_ex
                             (fun _ => Some "y") ex_files_skipped ex_world_import)
  = [].
Proof.
  destruct (migrate_all_sections_attempts_each net_ok push_id_ex lower_ex strip_ex
              title_ex int_ex chars_ex replace_ex isdigit_ex capitalize_ex
              (fun _ => Some "y") ex_files_skipped ex_world_import) as [_ Hnone].
  apply Hnone. reflexivity.
Defined.
